(** * FitForge: session completion, training-cycle tracking and analysis glue

    A shallow embedding of the parts of FitForge that decide when a workout
    session is complete, when a training cycle closes, how RPE trends are
    labelled and how the analysis response is parsed.

    Sources embedded here:
    - [src/components/WorkoutTracker.jsx]: the exercise classifier
      ([getExerciseType]), the template catalog ([DEFAULT_TEMPLATES]), the
      per-set completeness test of [ExerciseRow], the [workoutComplete] effect
      and the cycle-completion effect;
    - [backend/services/dynamoService.js] and [backend/database/dynamodb-schema.js]:
      [WorkoutService.saveWorkout], [getCurrentCycle], [updateCycleProgress],
      [completeCycle] and [ItemSchemas.currentCycle];
    - [backend/api/workoutAPI.js]: the [POST /workouts] handler and
      [checkCycleCompletion];
    - [backend/services/claudeAnalysis.js]: [calculateTrend] and
      [parseClaudeResponse].

    Further parts of the same files are embedded after these: the rest
    timer ([useTimer]), [updateSet], [skipExercise], the initialisation and
    bodyweight effects, [currentExerciseRestTime] and the set count of
    [CompletionSummary] of the tracker; [handleToggle] and [selectedCount]
    of [src/components/WorkoutHistory.jsx]; sequences of [POST /workouts]
    requests; [DBHelpers] and the index keys of [ItemSchemas];
    [getCycleDataForAnalysis]; [backend/services/secretsManager.js] and
    [ClaudeAnalysisService.initializeClient]; the inputs of [ExerciseRow]
    and its RPE scale, as the events of the tracker screen.

    JavaScript arrays are lists, objects used as dictionaries are [gmap]s with
    string keys, numbers that take part in floating-point arithmetic are
    binary64 [float]s, [undefined] is an explicit value, and exceptions are an
    explicit result type. *)

From Stdlib Require Import ZArith QArith Lqa Bool List Permutation Floats.
From Stdlib Require Import Strings.String Strings.Ascii.
From Stdlib Require DecimalString DecimalPos.
From stdpp Require Import base strings gmap.
Import ListNotations.

Local Open Scope string_scope.
Local Open Scope list_scope.

(** ** JavaScript values and truthiness *)

Module JS.

(** The values that occur in the fields of a set record, in the RPE map and
    in request bodies: [undefined], booleans, strings (what the number
    inputs of the UI deliver) and integral numbers. *)
Inductive value : Type :=
| Undefined
| Bool (b : bool)
| Str (s : string)
| Num (z : Z).

(** [ToBoolean]: [undefined], [false], the empty string and [0] are falsy. *)
Definition truthy (v : value) : bool :=
  match v with
  | Undefined => false
  | Bool b => b
  | Str s => negb (String.eqb s "")
  | Num z => negb (Z.eqb z 0)
  end.

(** [a || b] on values. *)
Definition or (a b : value) : value := if truthy a then a else b.

(** [String.prototype.includes]: [includes s ex] holds when [ex] occurs in
    [s] as a contiguous substring. *)
Fixpoint includes (s ex : string) : bool :=
  String.prefix ex s
  || match s with
     | EmptyString => false
     | String _ s' => includes s' ex
     end.

(** [Array.prototype.includes] on an array of strings. *)
Definition arrayIncludes (l : list string) (k : string) : bool :=
  existsb (String.eqb k) l.

(** [Array.prototype.every] and [Array.prototype.some]. *)
Definition every {A} (f : A -> bool) (l : list A) : bool := forallb f l.
Definition some {A} (f : A -> bool) (l : list A) : bool := existsb f l.

(** Comparison of two arrays of strings through [JSON.stringify]: the JSON
    text of an array of strings determines the array, so the texts differ
    exactly when the arrays differ as sequences. *)
Fixpoint sameJSON (a b : list string) : bool :=
  match a, b with
  | [], [] => true
  | x :: a', y :: b' => String.eqb x y && sameJSON a' b'
  | _, _ => false
  end.

End JS.

(** ** Exercise classifier ([getExerciseType]) *)

Module Classifier.

Definition WEIGHTED_DURATION_EXERCISES : list string :=
  [ "Kettlebell Farmer's March";
    "Kettlebell Suitcase Carry";
    "Farmer's Walk";
    "Farmer's Carry";
    "Suitcase Carry";
    "Overhead Carry";
    "Waiter's Walk" ].

Definition DURATION_BASED_EXERCISES : list string :=
  [ "Plank";
    "TRX Plank Saw";
    "Wall Sit";
    "Dead Hang";
    "L-Sit";
    "Hollow Body Hold";
    "Flutter Kicks";
    "Mountain Climbers" ].

Definition BODYWEIGHT_EXERCISES : list string :=
  [ "Pull-Ups";
    "Push-Ups";
    "TRX Push-Ups";
    "Ring Dips";
    "Dips";
    "Hanging Leg Raises";
    "Dead Bug";
    "Bird Dog";
    "Russian Twists";
    "TRX Pike";
    "TRX Oblique Crunches";
    "TRX Tricep Extensions";
    "Neutral Grip Pull-ups";
    "Air Squats";
    "Burpees";
    "Box Jumps" ].

(** The four string tags the classifier returns. *)
Inductive ExerciseType : Type :=
| weighted_duration
| duration
| bodyweight
| weighted.

(** [LIST.some(ex => exerciseName.includes(ex))]. *)
Definition matchesAny (entries : list string) (exerciseName : string) : bool :=
  JS.some (fun ex => JS.includes exerciseName ex) entries.

(** A name matches a list when one of its entries occurs in it. *)
Definition matchesEntry (entries : list string) (exerciseName : string) : Prop :=
  exists ex, In ex entries
             /\ exists pre post, exerciseName = (pre ++ ex ++ post)%string.

Definition getExerciseType (exerciseName : string) : ExerciseType :=
  if matchesAny WEIGHTED_DURATION_EXERCISES exerciseName then weighted_duration
  else if matchesAny DURATION_BASED_EXERCISES exerciseName then duration
  else if matchesAny BODYWEIGHT_EXERCISES exerciseName then bodyweight
  else weighted.

End Classifier.

(** ** Template catalog ([DEFAULT_TEMPLATES]) *)

Module Catalog.

Record Exercise : Type := mkExercise {
  name : string;
  sets : nat;
  targetReps : string;
  restTime : nat
}.

Record WorkoutTemplate : Type := mkTemplate {
  key : string;
  title : string;
  mandatory : bool;
  exercises : list Exercise
}.

Definition A_push_power : WorkoutTemplate :=
  mkTemplate "A_push_power" "Workout A: Push Day (Strength & Power)" true
    [ mkExercise "Barbell Bench Press" 4 "5" 120;
      mkExercise "Standing Overhead Press" 4 "5" 90;
      mkExercise "Incline Dumbbell Press" 3 "8-12" 90;
      mkExercise "Dumbbell Lateral Raises" 3 "15-20" 60;
      mkExercise "Ring Dips" 3 "To Failure" 90;
      mkExercise "TRX Plank Saw" 3 "30-45 sec" 60;
      mkExercise "Kettlebell Farmer's March" 3 "30-45 sec" 60 ].

Definition A_pull_width : WorkoutTemplate :=
  mkTemplate "A_pull_width" "Workout A: Pull Day (Width & Thickness)" true
    [ mkExercise "Pull-Ups" 4 "To Failure" 120;
      mkExercise "Bent-Over Barbell Row" 4 "5-8" 90;
      mkExercise "Single-Arm Dumbbell Row" 3 "8-12 per arm" 60;
      mkExercise "Banded Face Pulls" 3 "15-20" 60;
      mkExercise "Dumbbell Hammer Curls" 3 "8-12" 60;
      mkExercise "TRX Pike" 3 "10-15" 60;
      mkExercise "Kettlebell Goblet Squat" 3 "10-12" 90 ].

Definition B_push_hyp : WorkoutTemplate :=
  mkTemplate "B_push_hyp" "Workout B: Push Day (Hypertrophy & Definition)" true
    [ mkExercise "Seated Dumbbell Press" 4 "8-12" 90;
      mkExercise "TRX Push-Ups" 3 "To Failure" 60;
      mkExercise "Dumbbell Flyes" 3 "12-15" 60;
      mkExercise "Bent-Over Rear Delt Flyes" 3 "15-20" 60;
      mkExercise "TRX Tricep Extensions" 3 "12-15" 60;
      mkExercise "TRX Oblique Crunches" 3 "10-12 per side" 60;
      mkExercise "Kettlebell Swings" 3 "15-20" 90 ].

Definition B_pull_strength : WorkoutTemplate :=
  mkTemplate "B_pull_strength" "Workout B: Pull Day (Strength & Function)" true
    [ mkExercise "Barbell Deadlift" 4 "5" 180;
      mkExercise "T-Bar Row" 4 "8-10" 90;
      mkExercise "Neutral Grip Pull-ups" 3 "To Failure" 90;
      mkExercise "Dumbbell Shrugs" 3 "12-15" 60;
      mkExercise "Kettlebell Bicep Curls" 3 "10-15" 60;
      mkExercise "TRX Hamstring Runners" 3 "10-15" 60;
      mkExercise "Kettlebell Suitcase Carry" 3 "30 sec per side" 60 ].

Definition C_leg_day : WorkoutTemplate :=
  mkTemplate "C_leg_day" "Workout C: Leg Day (Foundation & Power)" true
    [ mkExercise "Barbell Back Squat" 4 "6-8" 180;
      mkExercise "Dumbbell Lunges" 3 "10-12 per leg" 90;
      mkExercise "Kettlebell Swings" 4 "15-20" 90;
      mkExercise "Kettlebell Goblet Squat" 3 "10-12" 90;
      mkExercise "Box Jumps" 3 "5" 120 ].

Definition D_core_circuit : WorkoutTemplate :=
  mkTemplate "D_core_circuit" "Workout D: Core Overload Circuit" true
    [ mkExercise "TRX Knee Tucks" 3 "15" 90;
      mkExercise "Barbell Landmine Anti-Rotation" 3 "10 per side" 90;
      mkExercise "Medicine Ball Slams" 3 "12" 90;
      mkExercise "BOSU Ball Plank" 3 "45 sec" 90;
      mkExercise "Kettlebell Suitcase Carry" 3 "30 sec per side" 90 ].

Definition optional_core_activation : WorkoutTemplate :=
  mkTemplate "optional_core_activation"
    "Optional: Core Activation & Full Body Stretch" false
    [ mkExercise "Dead Bug" 2 "10 per side" 45;
      mkExercise "Bird Dog" 2 "10 per side" 45;
      mkExercise "Plank" 2 "45-60 sec" 60;
      mkExercise "Wall Sit" 2 "30-60 sec" 60;
      mkExercise "Mountain Climbers" 2 "30 sec" 45 ].

Definition DEFAULT_TEMPLATES : list WorkoutTemplate :=
  [ A_push_power; A_pull_width; B_push_hyp; B_pull_strength;
    C_leg_day; D_core_circuit; optional_core_activation ].

(** The keys of the catalog entries whose [mandatory] flag is set. *)
Definition mandatoryKeys (templates : list WorkoutTemplate) : list string :=
  map key (List.filter mandatory templates).

End Catalog.

(** ** Session tracker: set completeness and the [workoutComplete] effect *)

Module Session.
Import Catalog Classifier.

(** One row of the set table.  Absent fields are [JS.Undefined]; the inputs
    of the UI store strings. *)
Record SetData : Type := mkSet {
  weight : JS.value;
  reps : JS.value;
  duration : JS.value;
  comment : JS.value
}.

(** [isSetComplete] of [ExerciseRow]: the per-type rule used to colour a
    set row. *)
Definition isSetComplete (exerciseName : string) (set : SetData) : bool :=
  match getExerciseType exerciseName with
  | weighted_duration => JS.truthy (weight set) && JS.truthy (duration set)
  | Classifier.duration => JS.truthy (duration set)
  | bodyweight => JS.truthy (weight set) && JS.truthy (reps set)
  | weighted => JS.truthy (weight set) && JS.truthy (reps set)
  end.

(** The React state the completion effect reads. *)
Record SessionState : Type := mkSession {
  workoutData : gmap string (list SetData);
  exerciseRPEs : gmap string JS.value;
  skippedExercises : list string
}.

(** [workoutData[ex.name] || []] *)
Definition setsOf (s : SessionState) (exerciseName : string) : list SetData :=
  default [] (workoutData s !! exerciseName).

(** [exerciseRPEs[ex.name]], [undefined] when there is no entry. *)
Definition rpeOf (s : SessionState) (exerciseName : string) : JS.value :=
  default JS.Undefined (exerciseRPEs s !! exerciseName).

(** [sets.filter(s => s.weight && s.reps).length] *)
Definition completedSets (sets : list SetData) : nat :=
  length (List.filter (fun s => JS.truthy (weight s) && JS.truthy (reps s)) sets).

Definition allExercisesComplete (template : WorkoutTemplate) (s : SessionState) : bool :=
  JS.every (fun ex =>
              Nat.eqb (completedSets (setsOf s (name ex))) (sets ex)
              || JS.arrayIncludes (skippedExercises s) (name ex))
           (exercises template).

Definition allRPEsRecorded (template : WorkoutTemplate) (s : SessionState) : bool :=
  JS.every (fun ex =>
              JS.truthy (rpeOf s (name ex))
              || JS.arrayIncludes (skippedExercises s) (name ex))
           (exercises template).

(** The value the effect passes to [setWorkoutComplete]. *)
Definition workoutComplete (template : WorkoutTemplate) (s : SessionState) : bool :=
  allExercisesComplete template s && allRPEsRecorded template s.

(** The completion predicate in the words of the specification: every
    exercise is skipped or has exactly [sets] records that are complete by
    the rule of its tracking type, and every exercise is skipped or has an
    RPE entry. *)
Definition isComplete_by_type (template : WorkoutTemplate) (s : SessionState) : bool :=
  forallb (fun ex =>
             (Nat.eqb (length (List.filter (isSetComplete (name ex)) (setsOf s (name ex))))
                      (sets ex)
              || JS.arrayIncludes (skippedExercises s) (name ex))
             && (JS.truthy (rpeOf s (name ex))
                 || JS.arrayIncludes (skippedExercises s) (name ex)))
          (exercises template).

(** A session of the optional core routine in which every input the UI
    offers has been filled in: weight and reps for the two bodyweight
    exercises, seconds for the three timed ones, and an RPE for each. *)
Definition repsSet : SetData :=
  mkSet (JS.Str "180") (JS.Str "10") JS.Undefined (JS.Str "").
Definition timedSet : SetData :=
  mkSet JS.Undefined JS.Undefined (JS.Str "45") (JS.Str "").

Definition coreSession : SessionState :=
  mkSession
    (<["Dead Bug" := [repsSet; repsSet]]>
      (<["Bird Dog" := [repsSet; repsSet]]>
        (<["Plank" := [timedSet; timedSet]]>
          (<["Wall Sit" := [timedSet; timedSet]]>
            (<["Mountain Climbers" := [timedSet; timedSet]]> ∅)))))
    (<["Dead Bug" := JS.Num 6]>
      (<["Bird Dog" := JS.Num 6]>
        (<["Plank" := JS.Num 7]>
          (<["Wall Sit" := JS.Num 8]>
            (<["Mountain Climbers" := JS.Num 8]> ∅)))))
    [].

End Session.

(** ** Analysis service: [calculateTrend] and [parseClaudeResponse] *)

Module Analysis.

Local Open Scope float_scope.

Inductive Trend : Type :=
| stable
| increasing
| decreasing.

(** [values.reduce((a, b) => a + b, 0)]: a left fold of binary64 additions
    starting from [0]. *)
Definition sum (values : list float) : float :=
  fold_left PrimFloat.add values 0.

(** The [length] of an array as a JavaScript number. *)
Definition floatOfLength (values : list float) : float :=
  PrimFloat.of_uint63 (Uint63.of_Z (Z.of_nat (length values))).

(** [values.reduce((a, b) => a + b, 0) / values.length] *)
Definition average (values : list float) : float :=
  sum values / floatOfLength values.

(** [values.slice(0, Math.floor(values.length / 2))] and
    [values.slice(Math.floor(values.length / 2))] *)
Definition firstHalf (values : list float) : list float :=
  firstn (Nat.div (length values) 2) values.
Definition secondHalf (values : list float) : list float :=
  skipn (Nat.div (length values) 2) values.

Definition calculateTrend (values : list float) : Trend :=
  if Nat.ltb (length values) 2 then stable
  else
    let firstAvg := average (firstHalf values) in
    let secondAvg := average (secondHalf values) in
    if PrimFloat.ltb 0.5 (secondAvg - firstAvg) then increasing
    else if PrimFloat.ltb 0.5 (firstAvg - secondAvg) then decreasing
    else stable.

(** An RPE sequence is a sequence of integers; as JavaScript numbers they
    are the corresponding binary64 values. *)
Definition rpe (z : Z) : float := PrimFloat.of_uint63 (Uint63.of_Z z).
Definition rpes (l : list Z) : list float := map rpe l.

(** *** The trend rule over exact means

    The rule in the words of the specification: the sequence is split at
    [floor(n / 2)], the means of the two halves are compared as rational
    numbers, and a half "exceeds the other by more than 0.5" when the
    difference of the means is greater than one half. *)

Definition sumZ (l : list Z) : Z := fold_left Z.add l 0%Z.

(** An entry of an RPE sequence: a rating on the scale up to 10. *)
Definition entry (z : Z) : Prop := (0 <= z <= 10)%Z.

Definition exactMean (total : Z) (count : nat) : Q :=
  Qmake total (Pos.of_nat count).

Definition exceedsByHalf (a b : Q) : bool :=
  negb (Qle_bool (a - b) (1 # 2)).

Definition exactLabel (n1 : nat) (s1 : Z) (n2 : nat) (s2 : Z) : Trend :=
  if exceedsByHalf (exactMean s2 n2) (exactMean s1 n1) then increasing
  else if exceedsByHalf (exactMean s1 n1) (exactMean s2 n2) then decreasing
  else stable.

Definition exactTrend (l : list Z) : Trend :=
  if Nat.ltb (length l) 2 then stable
  else
    let h := Nat.div (length l) 2 in
    exactLabel (length (firstn h l)) (sumZ (firstn h l))
               (length (skipn h l)) (sumZ (skipn h l)).

(** The label [calculateTrend] computes from the totals and the lengths of
    the two halves, once the totals are known. *)
Definition floatLabel (n1 : nat) (s1 : Z) (n2 : nat) (s2 : Z) : Trend :=
  let firstAvg := rpe s1 / rpe (Z.of_nat n1) in
  let secondAvg := rpe s2 / rpe (Z.of_nat n2) in
  if PrimFloat.ltb 0.5 (secondAvg - firstAvg) then increasing
  else if PrimFloat.ltb 0.5 (firstAvg - secondAvg) then decreasing
  else stable.

Definition Trend_eqb (a b : Trend) : bool :=
  match a, b with
  | stable, stable | increasing, increasing | decreasing, decreasing => true
  | _, _ => false
  end.

(** The two labels agree for halves of [n1] and [n2] entries, for all
    totals that entries between 0 and 10 can reach. *)
Definition labelsAgree (n1 n2 : nat) : bool :=
  forallb (fun s1 =>
             forallb (fun s2 =>
                        Trend_eqb (floatLabel n1 (Z.of_nat s1) n2 (Z.of_nat s2))
                                  (exactLabel n1 (Z.of_nat s1) n2 (Z.of_nat s2)))
                     (seq 0 (10 * n2 + 1)))
          (seq 0 (10 * n1 + 1)).

(** ... for every split of a sequence of 2 to 11 entries. *)
Definition shortSequencesAgree : bool :=
  forallb (fun n1 => labelsAgree n1 n1 && labelsAgree n1 (S n1)) (seq 1 5).

(** *** Exceptions *)

(** A computation either returns a value or throws. *)
Inductive Completion (A : Type) : Type :=
| Return (a : A)
| Throw (message : string).
Arguments Return {A} a.
Arguments Throw {A} message.

(** [try { body } catch (error) { handler }] *)
Definition tryCatch {A} (body : Completion A) (handler : string -> Completion A)
  : Completion A :=
  match body with
  | Return a => Return a
  | Throw message => handler message
  end.

(** *** The regular expression [/\{[\s\S]*\}/]

    The leftmost match starts at the first opening brace and, the star
    being greedy over every character, extends to the last closing brace of
    the text; there is a match exactly when a closing brace follows the
    first opening brace. *)

Fixpoint fromFirstOpen (s : string) : option string :=
  match s with
  | EmptyString => None
  | String c s' => if Ascii.eqb c "{"%char then Some s else fromFirstOpen s'
  end.

Fixpoint throughLastClose (s : string) : option string :=
  match s with
  | EmptyString => None
  | String c s' =>
      match throughLastClose s' with
      | Some m => Some (String c m)
      | None => if Ascii.eqb c "}"%char then Some (String c EmptyString) else None
      end
  end.

Definition matchBraces (responseText : string) : option string :=
  match fromFirstOpen responseText with
  | Some rest => throughLastClose rest
  | None => None
  end.

Section Parse.

(** [JSON.parse] is a built-in: the type of parsed values and the parser
    are parameters; [None] stands for the [SyntaxError] it throws. *)
Variable JSON : Type.
Variable JSON_parse : string -> option JSON.

Record OverallAssessment : Type := mkAssessment {
  fatigue_level : string;
  progress_rate : string;
  summary : string
}.

(** What [parseClaudeResponse] returns: the parsed object, or the default
    structure built in the [catch] block. *)
Inductive AnalysisResult : Type :=
| Parsed (json : JSON)
| Fallback (overall_assessment : OverallAssessment)
           (raw_response : string) (error : string).

Definition parseJSON (text : string) : Completion AnalysisResult :=
  match JSON_parse text with
  | Some json => Return (Parsed json)
  | None => Throw "SyntaxError"
  end.

(** The body of the [try] block. *)
Definition parseAttempt (responseText : string) : Completion AnalysisResult :=
  match matchBraces responseText with
  | Some jsonMatch => parseJSON jsonMatch
  | None => parseJSON responseText
  end.

Definition degraded (responseText : string) : AnalysisResult :=
  Fallback
    (mkAssessment "moderate" "optimal"
                  "Analysis completed but response parsing failed")
    responseText
    "Failed to parse structured response".

Definition parseClaudeResponse (responseText : string) : Completion AnalysisResult :=
  tryCatch (parseAttempt responseText)
           (fun _ => Return (degraded responseText)).

End Parse.

(** A stand-in for [JSON.parse] that accepts the empty object only. *)
Definition emptyObjectParser (text : string) : option unit :=
  if String.eqb text "{}" then Some tt else None.

Arguments Parsed {JSON} json.
Arguments Fallback {JSON} overall_assessment raw_response error.
Arguments degraded {JSON} responseText.

End Analysis.

(** ** Running a tracker over a sequence of completions *)

Module Driver.

Section Run.
Context {T S Ev : Type}.

(** One completion event: the new state and, when the cycle closed, the
    closure announcement. *)
Variable step : T -> S -> S * option Ev.

(** [run items s] handles the completions in order; every closure is
    logged together with the state right after it. *)
Fixpoint run (items : list T) (s : S) : list (Ev * S) * S :=
  match items with
  | [] => ([], s)
  | t :: rest =>
      let (s', ev) := step t s in
      let (log, final) := run rest s' in
      (match ev with Some e => (e, s') :: log | None => log end, final)
  end.

End Run.

End Driver.

(** ** Client-side cycle tracker (the cycle-completion effect) *)

Module ClientCycle.
Import Catalog.

(** The object kept under the [localStorage] key [current_cycle]. *)
Record Cycle : Type := mkCycle {
  completed : list string;
  selectedWorkouts : list string
}.

(** The object written under [cycle_complete] when a cycle closes; the
    date and the user id are left out. *)
Record CycleData : Type := mkCycleData {
  workouts : list string;
  cycleSelectedWorkouts : list string
}.

(** What the effect reads and writes: two [localStorage] entries and the
    React state [cycleProgress.completed]. *)
Record Browser : Type := mkBrowser {
  current_cycle : option Cycle;
  cycle_complete : option CycleData;
  cycleProgress : list string
}.

(** The initial value of [includeInAnalysis] when nothing is saved:
    [defaults[t.key] = t.mandatory] for every template. *)
Definition defaultIncludeInAnalysis (templates : list WorkoutTemplate)
  : gmap string bool :=
  fold_left (fun defaults t => <[key t := mandatory t]> defaults) templates ∅.

(** [(t.mandatory && includeInAnalysis[t.key] !== false) ||
     (!t.mandatory && includeInAnalysis[t.key] === true)] *)
Definition isIncluded (includeInAnalysis : gmap string bool) (t : WorkoutTemplate)
  : bool :=
  (mandatory t
   && match includeInAnalysis !! key t with Some false => false | _ => true end)
  || (negb (mandatory t)
      && match includeInAnalysis !! key t with Some true => true | _ => false end).

(** [templates.filter(...).map(t => t.key)] *)
Definition selectedFor (templates : list WorkoutTemplate)
           (includeInAnalysis : gmap string bool) : list string :=
  map key (List.filter (isIncluded includeInAnalysis) templates).

(** The selection-change block: when the stored selection and the current
    one serialise differently, the cycle is reset. *)
Definition resetIfSelectionChanged (currentCycle : Cycle) (selected : list string)
  : Cycle :=
  if JS.sameJSON (selectedWorkouts currentCycle) selected then currentCycle
  else mkCycle [] selected.

(** One run of the effect.  The second component is the closure
    announcement (the [cycle_complete] record and the alert), if any. *)
Definition cycleEffect (templates : list WorkoutTemplate)
           (includeInAnalysis : gmap string bool)
           (workoutComplete : bool) (template : WorkoutTemplate)
           (b : Browser) : Browser * option CycleData :=
  if negb workoutComplete then (b, None)
  else if negb (isIncluded includeInAnalysis template) then (b, None)
  else
    let selected := selectedFor templates includeInAnalysis in
    let loaded :=
      match current_cycle b with
      | Some saved => saved
      | None => mkCycle [] selected
      end in
    let currentCycle := resetIfSelectionChanged loaded selected in
    if negb (JS.arrayIncludes (completed currentCycle) (key template)) then
      let pushed := completed currentCycle ++ [key template] in
      let allSelectedComplete :=
        JS.every (fun k => JS.arrayIncludes pushed k) selected in
      if allSelectedComplete && Nat.ltb 0 (length selected) then
        let cycleData := mkCycleData pushed selected in
        (mkBrowser (Some (mkCycle [] selected)) (Some cycleData) [],
         Some cycleData)
      else
        (mkBrowser (Some (mkCycle pushed (selectedWorkouts currentCycle)))
                   (cycle_complete b) pushed,
         None)
    else (b, None).

(** Completing a list of templates one after the other. *)
Definition completeAll (templates : list WorkoutTemplate)
           (includeInAnalysis : gmap string bool)
  : list WorkoutTemplate -> Browser -> list (CycleData * Browser) * Browser :=
  Driver.run (cycleEffect templates includeInAnalysis true).

(** The state of a browser that has never run the application. *)
Definition firstUse : Browser := mkBrowser None None [].

(** *** Notions used to state properties of the effect *)

(** The cycle object the effect works on: the saved one, or a fresh one,
    after the selection-change block. *)
Definition workingCycle (selected : list string) (b : Browser) : Cycle :=
  resetIfSelectionChanged
    (match current_cycle b with
     | Some saved => saved
     | None => mkCycle [] selected
     end)
    selected.

(** The keys that count as completed in the open cycle under the
    selection [selected]. *)
Definition credited (selected : list string) (b : Browser) : list string :=
  completed (workingCycle selected b).

(** The inclusion of the data model, on the saved cycle object. *)
Definition cycleInvariant (b : Browser) : Prop :=
  match current_cycle b with
  | Some saved => incl (completed saved) (selectedWorkouts saved)
  | None => True
  end.

(** A template the effect can be run for under a configuration: it is the
    active entry of the catalog and is included in the analysis. *)
Definition eligible (templates : list WorkoutTemplate)
           (includeInAnalysis : gmap string bool) (t : WorkoutTemplate) : Prop :=
  In t templates /\ isIncluded includeInAnalysis t = true.

(** What a closure leaves behind: an empty cycle over the same selection,
    and an announcement that lists exactly the selected keys. *)
Definition closedWith (selected : list string) (d : CycleData) (b : Browser) : Prop :=
  current_cycle b = Some (mkCycle [] selected)
  /\ cycleProgress b = []
  /\ cycle_complete b = Some d
  /\ cycleSelectedWorkouts d = selected
  /\ (forall k, In k (workouts d) <-> In k selected).

(** "Completing the same template twice in a row changes nothing the
    second time and closes no cycle", as a property of a template and a
    state. *)
Definition duplicateIsNoop (templates : list WorkoutTemplate)
           (includeInAnalysis : gmap string bool)
           (t : WorkoutTemplate) (b : Browser) : Prop :=
  let once := fst (cycleEffect templates includeInAnalysis true t b) in
  cycleEffect templates includeInAnalysis true t once = (once, None).

(** *** Sample data *)

(** The six mandatory templates, in catalog order. *)
Definition mandatoryTemplates : list WorkoutTemplate :=
  [A_push_power; A_pull_width; B_push_hyp; B_pull_strength;
   C_leg_day; D_core_circuit].

(** A browser whose open cycle lacks [D_core_circuit] only. *)
Definition lastOneMissing : Browser :=
  mkBrowser
    (Some (mkCycle ["A_push_power"; "A_pull_width"; "B_push_hyp";
                    "B_pull_strength"; "C_leg_day"]
                   (map key mandatoryTemplates)))
    None
    ["A_push_power"; "A_pull_width"; "B_push_hyp"; "B_pull_strength";
     "C_leg_day"].

(** A configuration that drops workouts C and D from the analysis. *)
Definition withoutCD : gmap string bool :=
  <["C_leg_day" := false]>
    (<["D_core_circuit" := false]> (defaultIncludeInAnalysis DEFAULT_TEMPLATES)).

End ClientCycle.

(** ** Backend: the workout service and the [POST /workouts] handler *)

Module Backend.
Import Analysis.

(** [ItemSchemas.currentCycle]; the start date is left out. *)
Record CurrentCycle : Type := mkCurrentCycle {
  cycleNumber : Z;
  completedWorkouts : list string;
  remainingWorkouts : list string
}.

Definition currentCycle (n : Z) : CurrentCycle :=
  mkCurrentCycle n []
    ["A_push_power"; "A_pull_width"; "B_push_hyp"; "B_pull_strength"].

(** [ItemSchemas.cycleArchive] as filled in by [completeCycle]. *)
Record CycleArchive : Type := mkCycleArchive {
  archivedCycleNumber : Z;
  archivedWorkouts : list string
}.

(** [ItemSchemas.workout] after [Object.assign] in [saveWorkout]. *)
Record Workout : Type := mkWorkout {
  date : string;
  templateKey : string;
  bodyweight : JS.value;
  sessionNotes : JS.value;
  exercises : gmap string (list Session.SetData);
  exerciseRPEs : gmap string JS.value;
  isOptional : JS.value;
  completed : bool
}.

(** The body of a [POST /workouts] request. *)
Record WorkoutRequest : Type := mkRequest {
  req_templateKey : string;
  req_date : string;
  req_bodyweight : JS.value;
  req_notes : JS.value;
  req_exercises : gmap string (list Session.SetData);
  req_exerciseRPEs : gmap string JS.value;
  req_isOptional : JS.value
}.

(** The list both [updateCycleProgress] and [checkCycleCompletion] test. *)
Definition mandatoryWorkouts : list string :=
  ["A_push_power"; "A_pull_width"; "B_push_hyp"; "B_pull_strength"].

(** The sort key of a workout item. *)
Definition workoutSK (date templateKey : string) : string :=
  "WORKOUT#" ++ date ++ "#" ++ templateKey.

Section Service.

(** The analysis collaborator: the type of its results, the call itself
    (which can throw) and the [exerciseRecommendations] field of a
    result, if it has one. *)
Variable AnalysisT : Type.
Variable Suggestions : Type.
Variable exerciseRecommendations : AnalysisT -> option Suggestions.

(** The single table of user [igor], one slot per kind of item, and the
    log of calls made to the analysis collaborator. *)
Record World : Type := mkWorld {
  workoutItems : gmap string Workout;
  currentCycleItem : option CurrentCycle;
  archiveItems : gmap Z CycleArchive;
  analysisItems : list (Z * AnalysisT);
  suggestionsItem : option (Z * Suggestions);
  analysisRequests : list Z
}.

(** What [getCycleDataForAnalysis] can read: the cycle number and the
    table. *)
Definition CycleQuery : Type := (Z * World)%type.

Variable analyze : CycleQuery -> Completion AnalysisT.

(** Asynchronous service code threads the table and may throw. *)
Definition M (A : Type) : Type := World -> Completion A * World.

Definition ret {A} (a : A) : M A := fun w => (Return a, w).

Definition bind {A B} (m : M A) (k : A -> M B) : M B :=
  fun w =>
    match m w with
    | (Return a, w') => k a w'
    | (Throw e, w') => (Throw e, w')
    end.

Local Notation "'let*' x ':=' m 'in' k" := (bind m (fun x => k))
  (at level 10, x name, m at level 100, k at level 200).

Definition getWorld : M World := fun w => (Return w, w).
Definition setWorld (w' : World) : M unit := fun _ => (Return tt, w').

Definition putWorkout (item : Workout) : M unit :=
  let* w := getWorld in
  setWorld (mkWorld (<[workoutSK (date item) (templateKey item) := item]> (workoutItems w))
                    (currentCycleItem w) (archiveItems w) (analysisItems w)
                    (suggestionsItem w) (analysisRequests w)).

Definition putCurrentCycle (item : CurrentCycle) : M unit :=
  let* w := getWorld in
  setWorld (mkWorld (workoutItems w) (Some item) (archiveItems w)
                    (analysisItems w) (suggestionsItem w) (analysisRequests w)).

Definition putArchive (item : CycleArchive) : M unit :=
  let* w := getWorld in
  setWorld (mkWorld (workoutItems w) (currentCycleItem w)
                    (<[archivedCycleNumber item := item]> (archiveItems w))
                    (analysisItems w) (suggestionsItem w) (analysisRequests w)).

Definition getCurrentCycle : M CurrentCycle :=
  let* w := getWorld in
  match currentCycleItem w with
  | None =>
      let newCycle := currentCycle 1 in
      let* _ := putCurrentCycle newCycle in
      ret newCycle
  | Some item => ret item
  end.

Definition completeCycle (cycle : CurrentCycle) : M CycleArchive :=
  let archive := mkCycleArchive (cycleNumber cycle) (completedWorkouts cycle) in
  let* _ := putArchive archive in
  ret archive.

Record CycleUpdate : Type := mkCycleUpdate {
  cycleComplete : bool;
  newCycleNumber : option Z
}.

Definition updateCycleProgress (templateKey : string) : M CycleUpdate :=
  let* currentCycle0 := getCurrentCycle in
  if negb (JS.arrayIncludes (completedWorkouts currentCycle0) templateKey) then
    let pushed := completedWorkouts currentCycle0 ++ [templateKey] in
    let remaining :=
      List.filter (fun w => negb (String.eqb w templateKey))
                  (remainingWorkouts currentCycle0) in
    let updated := mkCurrentCycle (cycleNumber currentCycle0) pushed remaining in
    let isComplete :=
      JS.every (fun w => JS.arrayIncludes pushed w) mandatoryWorkouts in
    if isComplete then
      let* _ := completeCycle updated in
      let newCycle := currentCycle (cycleNumber updated + 1) in
      let* _ := putCurrentCycle newCycle in
      ret (mkCycleUpdate true (Some (cycleNumber newCycle)))
    else
      let* _ := putCurrentCycle updated in
      ret (mkCycleUpdate false None)
  else ret (mkCycleUpdate false None).

Definition saveWorkout (date templateKey : string)
           (bodyweight sessionNotes : JS.value)
           (exercises : gmap string (list Session.SetData))
           (exerciseRPEs : gmap string JS.value)
           (isOptional : JS.value) : M Workout :=
  let workout := mkWorkout date templateKey bodyweight sessionNotes
                           exercises exerciseRPEs isOptional true in
  let* _ := putWorkout workout in
  let* _ := (if negb (JS.truthy isOptional)
             then (let* _ := updateCycleProgress templateKey in ret tt)
             else ret tt) in
  ret workout.

Definition checkCycleCompletion : M bool :=
  let* current := getCurrentCycle in
  ret (JS.every (fun w => JS.arrayIncludes (completedWorkouts current) w)
                mandatoryWorkouts).

Definition getCycleData : M CycleQuery :=
  let* current := getCurrentCycle in
  let* w := getWorld in
  ret (cycleNumber current, w).

(** [claudeService.analyzeCycle]: the call is logged, and an error of the
    collaborator is thrown on. *)
Definition analyzeCycle (cycleData : CycleQuery) : M AnalysisT :=
  fun w =>
    (analyze cycleData,
     mkWorld (workoutItems w) (currentCycleItem w) (archiveItems w)
             (analysisItems w) (suggestionsItem w)
             (analysisRequests w ++ [fst cycleData])).

Definition saveAIAnalysis (n : Z) (analysis : AnalysisT) : M unit :=
  let* w := getWorld in
  let suggestions :=
    match exerciseRecommendations analysis with
    | Some s => Some (n, s)
    | None => suggestionsItem w
    end in
  setWorld (mkWorld (workoutItems w) (currentCycleItem w) (archiveItems w)
                    (analysisItems w ++ [(n, analysis)]) suggestions
                    (analysisRequests w)).

Definition saveAnalysisResults (analysis : AnalysisT) : M unit :=
  let* current := getCurrentCycle in
  saveAIAnalysis (cycleNumber current) analysis.

(** The JSON answer of the handler, or status 500 with the message of
    the error caught. *)
Inductive Response : Type :=
| Json (workout : Workout) (cycleComplete : bool) (analysis : option AnalysisT)
| Status500 (error : string).

Definition postWorkoutsBody (req : WorkoutRequest) : M Response :=
  let* workout := saveWorkout (req_date req) (req_templateKey req)
                              (req_bodyweight req) (req_notes req)
                              (req_exercises req) (req_exerciseRPEs req)
                              (JS.or (req_isOptional req) (JS.Bool false)) in
  if negb (JS.truthy (req_isOptional req)) then
    let* cycleComplete := checkCycleCompletion in
    if cycleComplete : bool then
      let* cycleData := getCycleData in
      let* analysis := analyzeCycle cycleData in
      let* _ := saveAnalysisResults analysis in
      ret (Json workout true (Some analysis))
    else ret (Json workout false None)
  else ret (Json workout false None).

Definition postWorkouts (req : WorkoutRequest) (w : World) : Response * World :=
  match postWorkoutsBody req w with
  | (Return response, w') => (response, w')
  | (Throw e, w') => (Status500 e, w')
  end.

(** An empty table. *)
Definition emptyWorld : World := mkWorld ∅ None ∅ [] None [].

(** One call of [updateCycleProgress], with its answer read as a closure
    announcement when [cycleComplete] is set. *)
Definition recordCompletion (templateKey : string) (w : World)
  : World * option CycleUpdate :=
  let (r, w') := updateCycleProgress templateKey w in
  (w',
   match r with
   | Return u => if cycleComplete u then Some u else None
   | Throw _ => None
   end).

(** Recording the completion of a list of template keys in turn. *)
Definition completeAll
  : list string -> World -> list (CycleUpdate * World) * World :=
  Driver.run recordCompletion.

End Service.

Arguments workoutItems {AnalysisT Suggestions} w.
Arguments currentCycleItem {AnalysisT Suggestions} w.
Arguments archiveItems {AnalysisT Suggestions} w.
Arguments analysisItems {AnalysisT Suggestions} w.
Arguments suggestionsItem {AnalysisT Suggestions} w.
Arguments analysisRequests {AnalysisT Suggestions} w.
Arguments getCurrentCycle {AnalysisT Suggestions} w.
Arguments updateCycleProgress {AnalysisT Suggestions} templateKey w.
Arguments recordCompletion {AnalysisT Suggestions} templateKey w.
Arguments completeAll {AnalysisT Suggestions} items s.
Arguments saveWorkout {AnalysisT Suggestions} date templateKey bodyweight
  sessionNotes exercises exerciseRPEs isOptional w.
Arguments checkCycleCompletion {AnalysisT Suggestions} w.
Arguments postWorkouts {AnalysisT Suggestions} exerciseRecommendations analyze req w.
Arguments Json {AnalysisT} workout cycleComplete analysis.
Arguments Status500 {AnalysisT} error.
Arguments emptyWorld {AnalysisT Suggestions}.

(** *** Notions used to state properties of the service *)

(** The keys recorded in the current cycle. *)
Definition recorded {AnalysisT Suggestions} (w : World AnalysisT Suggestions)
  : list string :=
  match currentCycleItem w with
  | Some current => completedWorkouts current
  | None => []
  end.

(** The cycle [updateCycleProgress] works on: the stored one, or the first
    cycle, which [getCurrentCycle] stores when there is none. *)
Definition ensured {AnalysisT Suggestions} (w : World AnalysisT Suggestions)
  : CurrentCycle :=
  match currentCycleItem w with
  | Some current => current
  | None => currentCycle 1
  end.

(** The keys whose completion counts towards closing a cycle. *)
Definition eligible (templateKey : string) : Prop :=
  In templateKey mandatoryWorkouts.

(** The inclusion of the data model, with the mandatory list in the place
    of the selected keys. *)
Definition cycleInvariant {AnalysisT Suggestions}
           (w : World AnalysisT Suggestions) : Prop :=
  incl (recorded w) mandatoryWorkouts.

(** What a closure leaves behind: a fresh cycle with the next number, and
    an archive of the closed cycle that lists exactly the mandatory keys. *)
Definition closedWith {AnalysisT Suggestions}
           (u : CycleUpdate) (w : World AnalysisT Suggestions) : Prop :=
  exists n,
    newCycleNumber u = Some (n + 1)%Z
    /\ currentCycleItem w = Some (currentCycle (n + 1))
    /\ exists archive,
        archiveItems w !! n = Some archive
        /\ (forall k, In k (archivedWorkouts archive) <-> In k mandatoryWorkouts).

(** The recorded keys that count towards closing the cycle: those of the
    mandatory list. *)
Definition counted {AnalysisT Suggestions} (w : World AnalysisT Suggestions)
  : list string :=
  List.filter (JS.arrayIncludes mandatoryWorkouts) (recorded w).

(** What a closure leaves behind whatever had been recorded: a fresh cycle
    with the next number, and an archive of the closed cycle that holds
    every mandatory key. *)
Definition closedOver {AnalysisT Suggestions}
           (u : CycleUpdate) (w : World AnalysisT Suggestions) : Prop :=
  exists n,
    newCycleNumber u = Some (n + 1)%Z
    /\ currentCycleItem w = Some (currentCycle (n + 1))
    /\ exists archive,
        archiveItems w !! n = Some archive
        /\ incl mandatoryWorkouts (archivedWorkouts archive).

(** "Completing the same template key twice in a row changes nothing the
    second time and closes no cycle". *)
Definition duplicateIsNoop {AnalysisT Suggestions}
           (templateKey : string) (w : World AnalysisT Suggestions) : Prop :=
  let once := snd (updateCycleProgress templateKey w) in
  updateCycleProgress templateKey once = (Return (mkCycleUpdate false None), once).

(** *** Sample data *)

(** A collaborator whose results carry nothing. *)
Definition noRecommendations (analysis : unit) : option unit := None.
Definition noAnalysis (query : CycleQuery unit unit) : Completion unit :=
  Return tt.

(** A table whose current cycle lacks [B_pull_strength] only. *)
Definition almostClosed : World unit unit :=
  mkWorld unit unit ∅
          (Some (mkCurrentCycle 1 ["A_push_power"; "A_pull_width"; "B_push_hyp"]
                                ["B_pull_strength"]))
          ∅ [] None [].

(** Request bodies for [B_pull_strength]: one flagged optional, one not. *)
Definition optionalRequest : WorkoutRequest :=
  mkRequest "B_pull_strength" "2025-08-25" (JS.Num 180) (JS.Str "")
            ∅ ∅ (JS.Bool true).
Definition plainRequest (templateKey : string) : WorkoutRequest :=
  mkRequest templateKey "2025-08-25" (JS.Num 180) (JS.Str "")
            ∅ ∅ JS.Undefined.

(** The table after one [POST /workouts] for leg day, not flagged
    optional, on an empty table. *)
Definition afterLegDay : World unit unit :=
  snd (postWorkouts noRecommendations noAnalysis (plainRequest "C_leg_day")
                    emptyWorld).

End Backend.

(** ** The rest timer ([useTimer]) *)

Module Timer.

(** The two pieces of state of the hook. *)
Record TimerState : Type := mkTimer {
  seconds : Z;
  isRunning : bool
}.

(** What a tick plays: the short beep of the last five seconds or the long
    beep at zero. *)
Inductive Beep : Type :=
| shortBeep
| finalBeep.

Definition initial : TimerState := mkTimer 0 false.

Definition startTimer (sec : Z) (t : TimerState) : TimerState := mkTimer sec true.
Definition pauseTimer (t : TimerState) : TimerState := mkTimer (seconds t) false.
Definition resumeTimer (t : TimerState) : TimerState := mkTimer (seconds t) true.
Definition stopTimer (t : TimerState) : TimerState := mkTimer 0 false.

(** One firing of the interval, which exists only while [isRunning]. *)
Definition tick (t : TimerState) : TimerState * option Beep :=
  if isRunning t then
    let newSeconds := (seconds t - 1)%Z in
    if ((newSeconds <=? 5) && (0 <? newSeconds))%Z then
      (mkTimer (Z.max 0 newSeconds) true, Some shortBeep)
    else if (newSeconds =? 0)%Z then
      (mkTimer (Z.max 0 newSeconds) false, Some finalBeep)
    else (mkTimer (Z.max 0 newSeconds) true, None)
  else (t, None).

(** [n] firings in a row, with the beeps played. *)
Fixpoint ticks (n : nat) (t : TimerState) : TimerState * list Beep :=
  match n with
  | O => (t, [])
  | S n' =>
      let (t', beep) := tick t in
      let (final, beeps) := ticks n' t' in
      (final, match beep with Some b => b :: beeps | None => beeps end)
  end.

End Timer.

(** ** Session operations of the tracker component *)

Module SessionOps.
Import Catalog Classifier Session.

(** An empty slot of a sparse array.  An assignment past the end of an
    array leaves such slots between the old end and the new element.  Read
    by index a slot gives [undefined], so it is shown as the record that
    has none of the fields; a record of the UI always has one, since the
    initialisation and every input handler store a field.  The callbacks
    of [filter], [some] and [map] are not called on an empty slot:
    [filter] and [some] pass over it, as they do over a record whose
    fields are falsy, and [map] leaves the slot empty.  The set rows are
    drawn from the elements of the array, so they never write past its
    end; the copy [[...prev]] of a later [updateSet] would turn an empty
    slot into an [undefined] element, on which those callbacks throw, and
    that second write is not followed here. *)
Definition hole : SetData := mkSet JS.Undefined JS.Undefined JS.Undefined JS.Undefined.

Definition absent (v : JS.value) : bool :=
  match v with
  | JS.Undefined => true
  | _ => false
  end.

Definition isHole (set : SetData) : bool :=
  absent (weight set) && absent (reps set) && absent (duration set)
  && absent (comment set).

(** [array[setIndex] = data]: an index past the end extends the array. *)
Fixpoint assign (sets : list SetData) (setIndex : nat) (data : SetData)
  : list SetData :=
  match setIndex, sets with
  | O, [] => [data]
  | O, _ :: rest => data :: rest
  | S i, [] => hole :: assign [] i data
  | S i, s :: rest => s :: assign rest i data
  end.

(** [exercise.restTime || 90] *)
Definition restTimeOr90 (ex : Exercise) : nat :=
  if Nat.eqb (restTime ex) 0 then 90 else restTime ex.

(** [updateSet]: the new [workoutData], and the timer after the auto-start
    test. *)
Definition updateSet (template : WorkoutTemplate)
           (exerciseName : string) (setIndex : nat) (data : SetData)
           (workoutData : gmap string (list SetData)) (timer : Timer.TimerState)
  : gmap string (list SetData) * Timer.TimerState :=
  let newData :=
    <[exerciseName := assign (default [] (workoutData !! exerciseName)) setIndex data]>
      workoutData in
  let timer' :=
    if JS.truthy (weight data) && JS.truthy (reps data)
       && negb (Timer.isRunning timer)
    then
      match List.find (fun e => String.eqb (name e) exerciseName) (exercises template) with
      | Some exercise => Timer.startTimer (Z.of_nat (restTimeOr90 exercise)) timer
      | None => timer
      end
    else timer in
  (newData, timer').

(** [skipExercise] *)
Definition skipExercise (exerciseName : string) (skipped : list string) : list string :=
  if JS.arrayIncludes skipped exerciseName then skipped
  else skipped ++ [exerciseName].

Definition skip (exerciseName : string) (s : SessionState) : SessionState :=
  mkSession (workoutData s) (exerciseRPEs s)
            (skipExercise exerciseName (skippedExercises s)).

(** The empty records the initialisation effect allocates, by tracking
    type; [bodyweight] is the value of the bodyweight input. *)
Definition blankSet (exerciseName : string) (bodyweight : JS.value) : SetData :=
  match getExerciseType exerciseName with
  | weighted_duration => mkSet (JS.Str "") JS.Undefined (JS.Str "") (JS.Str "")
  | Classifier.duration => mkSet JS.Undefined JS.Undefined (JS.Str "") (JS.Str "")
  | Classifier.bodyweight =>
      mkSet (JS.or bodyweight (JS.Str "")) (JS.Str "") JS.Undefined (JS.Str "")
  | weighted => mkSet (JS.Str "") (JS.Str "") JS.Undefined (JS.Str "")
  end.

(** One round of the [forEach] that builds [initData]. *)
Definition initStep (bodyweight : JS.value)
           (workoutData : gmap string (list SetData))
           (acc : gmap string (list SetData)) (ex : Exercise)
  : gmap string (list SetData) :=
  match workoutData !! name ex with
  | Some _ => acc
  | None => <[name ex := repeat (blankSet (name ex) bodyweight) (sets ex)]> acc
  end.

(** The [initData] object built by the [forEach]. *)
Definition initData (template : WorkoutTemplate) (bodyweight : JS.value)
           (workoutData : gmap string (list SetData))
  : gmap string (list SetData) :=
  fold_left (initStep bodyweight workoutData) (exercises template) ∅.

(** The initialisation effect, run when the template changes:
    [{ ...prev, ...initData }] when [initData] has a key. *)
Definition initWorkoutData (template : WorkoutTemplate) (bodyweight : JS.value)
           (workoutData : gmap string (list SetData))
  : gmap string (list SetData) :=
  let fresh := initData template bodyweight workoutData in
  if Nat.ltb 0 (size fresh) then fresh ∪ workoutData else workoutData.

(** [{ ...set, weight: set.weight || bodyweight }] *)
Definition fillWeight (bodyweight : JS.value) (set : SetData) : SetData :=
  mkSet (JS.or (weight set) bodyweight) (reps set) (duration set) (comment set).

(** [sets.map(set => ...)]: the callback is applied to the elements and
    an empty slot stays empty. *)
Definition fillSets (bodyweight : JS.value) (sets : list SetData) : list SetData :=
  map (fun set => if isHole set then set else fillWeight bodyweight set) sets.

(** One round of the [forEach] that builds [updatedData]. *)
Definition fillStep (bodyweight : JS.value)
           (workoutData : gmap string (list SetData))
           (acc : gmap string (list SetData)) (ex : Exercise)
  : gmap string (list SetData) :=
  match getExerciseType (name ex), workoutData !! name ex with
  | Classifier.bodyweight, Some sets =>
      <[name ex := fillSets bodyweight sets]> acc
  | _, _ => acc
  end.

(** The [updatedData] object of the bodyweight effect. *)
Definition updatedData (template : WorkoutTemplate) (bodyweight : JS.value)
           (workoutData : gmap string (list SetData))
  : gmap string (list SetData) :=
  fold_left (fillStep bodyweight workoutData) (exercises template) ∅.

(** The bodyweight effect, run when the bodyweight input changes. *)
Definition applyBodyweight (template : WorkoutTemplate) (bodyweight : JS.value)
           (workoutData : gmap string (list SetData))
  : gmap string (list SetData) :=
  if JS.truthy bodyweight then
    let updated := updatedData template bodyweight workoutData in
    if Nat.ltb 0 (size updated) then updated ∪ workoutData else workoutData
  else workoutData.

(** [currentExerciseRestTime] *)
Definition currentExerciseRestTime (template : WorkoutTemplate)
           (workoutData : gmap string (list SetData)) : nat :=
  let exercisesWithData :=
    List.filter
      (fun ex =>
         JS.some (fun s => JS.truthy (JS.or (weight s) (reps s)))
                 (default [] (workoutData !! name ex)))
      (exercises template) in
  match rev exercisesWithData with
  | lastTouched :: _ => restTimeOr90 lastTouched
  | [] =>
      match exercises template with
      | first :: _ => restTimeOr90 first
      | [] => 90
      end
  end.

(** The set count of [CompletionSummary]:
    [(s.weight && s.reps) || s.duration || (s.weight && s.duration)]. *)
Definition summaryCounts (s : SetData) : bool :=
  JS.truthy (weight s) && JS.truthy (reps s)
  || JS.truthy (duration s)
  || JS.truthy (weight s) && JS.truthy (duration s).

End SessionOps.

(** ** Analysis settings ([ProfileSettingsModal]) *)

Module Settings.
Import Catalog ClientCycle.

(** [handleToggle]: [{ ...includeInAnalysis, [workoutKey]: !includeInAnalysis[workoutKey] }] *)
Definition handleToggle (workoutKey : string) (includeInAnalysis : gmap string bool)
  : gmap string bool :=
  <[workoutKey := negb (default false (includeInAnalysis !! workoutKey))]>
    includeInAnalysis.

(** [selectedCount], the number shown in the modal. *)
Definition selectedCount (templates : list WorkoutTemplate)
           (includeInAnalysis : gmap string bool) : nat :=
  (length (List.filter
             (fun w => match includeInAnalysis !! key w with
                       | Some false => false
                       | _ => true
                       end)
             (List.filter mandatory templates))
   + length (List.filter
               (fun w => match includeInAnalysis !! key w with
                         | Some true => true
                         | _ => false
                         end)
               (List.filter (fun t => negb (mandatory t)) templates)))%nat.

End Settings.

(** ** A change of the selection *)

Module SelectionChange.
Import Catalog ClientCycle Settings.

(** What a change of the selection reads and writes: the inclusion map,
    the template on screen, whether its workout is complete, and the
    browser. *)
Record App : Type := mkApp {
  includeInAnalysis : gmap string bool;
  template : WorkoutTemplate;
  workoutComplete : bool;
  browser : Browser
}.

(** A click in the settings: [handleToggle] stores the new map, and the
    cycle effect, which has [includeInAnalysis] among its dependencies,
    runs again.  Nothing else writes [current_cycle]. *)
Definition toggle (templates : list WorkoutTemplate) (workoutKey : string)
           (app : App) : App :=
  let updated := handleToggle workoutKey (includeInAnalysis app) in
  mkApp updated (template app) (workoutComplete app)
        (fst (cycleEffect templates updated (workoutComplete app) (template app)
                          (browser app))).

(** The browser after the two A workouts have been completed under the
    default selection, and the application with workout B (push) on
    screen, not complete yet. *)
Definition twoCredited : Browser :=
  snd (completeAll DEFAULT_TEMPLATES (defaultIncludeInAnalysis DEFAULT_TEMPLATES)
                   [A_push_power; A_pull_width] firstUse).

Definition midCycle : App :=
  mkApp (defaultIncludeInAnalysis DEFAULT_TEMPLATES) B_push_hyp false twoCredited.

End SelectionChange.

(** ** The progress shown by the tracker *)

Module Progress.
Import ClientCycle.

(** The browser state when the component mounts: [cycleProgress] is
    initialised from the saved cycle, or to [{ completed: [] }]. *)
Definition mounted (saved : option Cycle) (announced : option CycleData) : Browser :=
  mkBrowser saved announced
            (match saved with
             | Some cycle => completed cycle
             | None => []
             end).

(** The React state shows what is saved. *)
Definition inSync (b : Browser) : Prop :=
  cycleProgress b
  = match current_cycle b with
    | Some cycle => completed cycle
    | None => []
    end.

End Progress.

(** ** Sequences of requests and invariants of the cycle record *)

Module BackendOps.
Import Analysis Backend.

(** The item [POST /workouts] stores for a request. *)
Definition itemOf (req : WorkoutRequest) : Workout :=
  mkWorkout (req_date req) (req_templateKey req) (req_bodyweight req)
            (req_notes req) (req_exercises req) (req_exerciseRPEs req)
            (JS.or (req_isOptional req) (JS.Bool false)) true.

(** The table after [putWorkout]. *)
Definition stored {AnalysisT Suggestions} (item : Workout)
           (w : World AnalysisT Suggestions) : World AnalysisT Suggestions :=
  mkWorld AnalysisT Suggestions
          (<[workoutSK (date item) (templateKey item) := item]> (workoutItems w))
          (currentCycleItem w) (archiveItems w) (analysisItems w)
          (suggestionsItem w) (analysisRequests w).

Section Serve.
Context {AnalysisT Suggestions : Type}.
Variable exerciseRecommendations : AnalysisT -> option Suggestions.
Variable analyze : CycleQuery AnalysisT Suggestions -> Completion AnalysisT.

(** [POST /workouts] requests handled one after the other. *)
Fixpoint serve (requests : list WorkoutRequest) (w : World AnalysisT Suggestions)
  : list (Response AnalysisT) * World AnalysisT Suggestions :=
  match requests with
  | [] => ([], w)
  | req :: rest =>
      let (response, w') := postWorkouts exerciseRecommendations analyze req w in
      let (responses, final) := serve rest w' in
      (response :: responses, final)
  end.

End Serve.

(** An answer that reports no closure and carries no analysis. *)
Definition plainAnswer {AnalysisT} (response : Response AnalysisT) : Prop :=
  exists workout, response = Json workout false None.

(** The remaining workouts are the mandatory ones that are not recorded. *)
Definition remainingInvariant {AnalysisT Suggestions}
           (w : World AnalysisT Suggestions) : Prop :=
  remainingWorkouts (ensured w)
  = List.filter (fun k => negb (JS.arrayIncludes (completedWorkouts (ensured w)) k))
                mandatoryWorkouts.


End BackendOps.

(** ** Sort keys ([DBHelpers]) *)

Module Keys.

(** [Number.MAX_SAFE_INTEGER], 2^53 - 1. *)
Definition MAX_SAFE_INTEGER : Z := 9007199254740991.

(** The decimal digits of an integer, with a minus sign when it is
    negative. *)
Definition decimal (n : Z) : string :=
  DecimalString.NilEmpty.string_of_int (Z.to_int n).

(** [String(n)] for an integral number.  Up to [MAX_SAFE_INTEGER] in
    absolute value a JavaScript number is the integer it stands for, and
    its text is the decimal digits of that integer.  Beyond, numbers are
    rounded to doubles, and from 1e21 on the text has an exponent: the
    conversion is not modelled there, and the result is [None]. *)
Definition numberToString (n : Z) : option string :=
  if (Z.abs n <=? MAX_SAFE_INTEGER)%Z then Some (decimal n) else None.

Fixpoint fill (n : nat) (c : ascii) : string :=
  match n with
  | O => EmptyString
  | S n' => String c (fill n' c)
  end.

(** [s.padStart(targetLength, c)] with a filler of one character. *)
Definition padStart (s : string) (targetLength : nat) (c : ascii) : string :=
  fill (targetLength - String.length s) c ++ s.

(** [s.split(sep)] with a separator of one character: the pieces between
    the separators, at least one piece. *)
Fixpoint split (sep : ascii) (s : string) : list string :=
  match s with
  | EmptyString => [EmptyString]
  | String c rest =>
      if Ascii.eqb c sep then EmptyString :: split sep rest
      else match split sep rest with
           | piece :: pieces => String c piece :: pieces
           | [] => [String c EmptyString]
           end
  end.

(** White space that [parseInt] skips, among the ASCII characters: tab,
    line feed, vertical tab, form feed, carriage return and space. *)
Definition isWhiteSpace (c : ascii) : bool :=
  let n := nat_of_ascii c in
  (Nat.leb 9 n && Nat.leb n 13) || Nat.eqb n 32.

Fixpoint trimStart (s : string) : string :=
  match s with
  | EmptyString => EmptyString
  | String c rest => if isWhiteSpace c then trimStart rest else s
  end.

Definition decimalDigit (c : ascii) : option Z :=
  let n := Z.of_nat (nat_of_ascii c) in
  if (48 <=? n)%Z && (n <=? 57)%Z then Some (n - 48)%Z else None.

Definition hexDigit (c : ascii) : option Z :=
  let n := Z.of_nat (nat_of_ascii c) in
  if (48 <=? n)%Z && (n <=? 57)%Z then Some (n - 48)%Z
  else if (97 <=? n)%Z && (n <=? 102)%Z then Some (n - 87)%Z
  else if (65 <=? n)%Z && (n <=? 70)%Z then Some (n - 55)%Z
  else None.

(** The value of the longest prefix of digits; [acc] is [None] as long as
    no digit has been read. *)
Fixpoint readDigits (digit : ascii -> option Z) (radix : Z) (s : string)
         (acc : option Z) : option Z :=
  match s with
  | EmptyString => acc
  | String c rest =>
      match digit c with
      | Some d => readDigits digit radix rest (Some (default 0 acc * radix + d)%Z)
      | None => acc
      end
  end.

(** [parseInt(input)] without a radix: leading white space, a sign, the
    prefix [0x] or [0X], then the longest run of digits.  [None] stands for
    [NaN]; the value is the mathematical one, which is the JavaScript
    number as long as it is below 2^53. *)
Definition parseInt (input : string) : option Z :=
  let s := trimStart input in
  let negative :=
    match s with String c _ => Ascii.eqb c "-" | EmptyString => false end in
  let s1 :=
    match s with
    | String c rest => if Ascii.eqb c "-" || Ascii.eqb c "+" then rest else s
    | EmptyString => s
    end in
  let hexadecimal :=
    match s1 with
    | String c (String x _) => Ascii.eqb c "0" && (Ascii.eqb x "x" || Ascii.eqb x "X")
    | _ => false
    end in
  let magnitude :=
    if hexadecimal then
      match s1 with
      | String _ (String _ rest) => readDigits hexDigit 16 rest None
      | _ => None
      end
    else readDigits decimalDigit 10 s1 None in
  option_map (fun v => if negative then (- v)%Z else v) magnitude.

(** [DBHelpers.workoutKey] and [DBHelpers.cycleKey]; the latter is [None]
    where the text of the number is not modelled. *)
Definition workoutKey (date templateKey : string) : string :=
  "WORKOUT#" ++ date ++ "#" ++ templateKey.

Definition cycleKey (cycleNumber : Z) : option string :=
  option_map (fun text : string => ("CYCLE#" ++ padStart text 4 "0")%string)
             (numberToString cycleNumber).

(** What [parseWorkoutKey] returns; [None] is [undefined]. *)
Record WorkoutKeyParts : Type := mkWorkoutKeyParts {
  date : option string;
  templateKey : option string
}.

Definition parseWorkoutKey (sk : string) : WorkoutKeyParts :=
  let parts := split "#" sk in
  mkWorkoutKeyParts (nth_error parts 1) (nth_error parts 2).

(** [parseCycleKey]; [parseInt] is given the text [undefined] when there
    is no second piece. *)
Definition parseCycleKey (sk : string) : option Z :=
  let parts := split "#" sk in
  parseInt (default "undefined" (nth_error parts 1)).

(** The character occurs in the string. *)
Fixpoint occurs (c : ascii) (s : string) : bool :=
  match s with
  | EmptyString => false
  | String c' rest => Ascii.eqb c' c || occurs c rest
  end.

(** A text of decimal digits. *)
Fixpoint allDigits (s : string) : bool :=
  match s with
  | EmptyString => true
  | String c rest =>
      match decimalDigit c with Some _ => true | None => false end
      && allDigits rest
  end.

(** The digits of a number that is not negative. *)
Definition digitsOf (n : Z) : Decimal.uint :=
  match n with
  | Z.pos p => Pos.to_uint p
  | _ => Decimal.D0 Decimal.Nil
  end.

End Keys.

(** ** The secrets cache ([secretsManager.js]) and the analysis client *)

Module Secrets.
Import Analysis.

(** What [JSON.parse(response.SecretString)] can yield: [null], a boolean,
    number or string, or an object, of which only the field
    [claudeApiKey] is read ([undefined] when it is absent). *)
Inductive SecretsValue : Type :=
| SecretsNull
| SecretsPrimitive (v : JS.value)
| SecretsObject (claudeApiKey : JS.value).

Definition truthySecrets (s : SecretsValue) : bool :=
  match s with
  | SecretsNull => false
  | SecretsPrimitive v => JS.truthy v
  | SecretsObject _ => true
  end.

(** The module variables [cachedSecrets] and [cacheExpiry]; the expiry is
    a time in milliseconds, [None] is [null]. *)
Record Cache : Type := mkCache {
  cachedSecrets : SecretsValue;
  cacheExpiry : option Z
}.

Definition initialCache : Cache := mkCache SecretsNull None.

(** What one call of [getSecrets] reads from its environment: the clock
    at the cache test, the outcome of the request to Secrets Manager
    together with [JSON.parse], the clock when the answer is cached, and
    the environment variable [CLAUDE_API_KEY]. *)
Record Call : Type := mkCall {
  now : Z;
  response : Completion SecretsValue;
  fetchedAt : Z;
  CLAUDE_API_KEY : JS.value
}.

(** The result of a call, the cache it leaves, and whether Secrets
    Manager was asked. *)
Record Outcome (A : Type) : Type := mkOutcome {
  result : Completion A;
  cache : Cache;
  requested : bool
}.
Arguments mkOutcome {A} result cache requested.
Arguments result {A} o.
Arguments cache {A} o.
Arguments requested {A} o.

Definition cacheValid (call : Call) (c : Cache) : bool :=
  truthySecrets (cachedSecrets c)
  && match cacheExpiry c with
     | Some expiry => (now call <? expiry)%Z
     | None => false
     end.

Definition getSecrets (call : Call) (c : Cache) : Outcome SecretsValue :=
  if cacheValid call c then mkOutcome (Return (cachedSecrets c)) c false
  else
    match response call with
    | Return secrets =>
        mkOutcome (Return secrets)
                  (mkCache secrets (Some (fetchedAt call + 60 * 60 * 1000)%Z))
                  true
    | Throw _ =>
        if JS.truthy (CLAUDE_API_KEY call) then
          mkOutcome (Return (SecretsObject (CLAUDE_API_KEY call))) c true
        else mkOutcome (Throw "Unable to retrieve API keys") c true
    end.

Definition getClaudeApiKey (call : Call) (c : Cache) : Outcome JS.value :=
  let o := getSecrets call c in
  mkOutcome
    match result o with
    | Return SecretsNull => Throw "TypeError"
    | Return (SecretsPrimitive _) => Throw "Claude API key not found in secrets"
    | Return (SecretsObject key) =>
        if negb (JS.truthy key) then Throw "Claude API key not found in secrets"
        else Return key
    | Throw e => Throw e
    end
    (cache o) (requested o).

Definition clearSecretsCache (c : Cache) : Cache := mkCache SecretsNull None.

(** [ClaudeAnalysisService.initializeClient]: the field [anthropic] holds
    the client, here the API key it was built with. *)
Record Service : Type := mkService {
  anthropic : option JS.value;
  secrets : Cache
}.

(** The client returned, the service afterwards, and whether Secrets
    Manager was asked. *)
Definition initializeClient (call : Call) (s : Service)
  : Completion JS.value * Service * bool :=
  match anthropic s with
  | Some client => (Return client, s, false)
  | None =>
      let o := getClaudeApiKey call (secrets s) in
      match result o with
      | Return apiKey =>
          (Return apiKey, mkService (Some apiKey) (cache o), requested o)
      | Throw e => (Throw e, mkService None (cache o), requested o)
      end
  end.

End Secrets.

(** ** The data handed to the analysis ([getCycleDataForAnalysis]) *)

Module CycleAnalysisData.
Import Backend.

(** The items of the table that carry the keys of the index [GSI1]. *)
Inductive Item : Type :=
| WorkoutItem (w : Workout)
| CurrentCycleItem (c : CurrentCycle)
| CycleArchiveItem (a : CycleArchive).

(** The partition key of an item in the index.  [numberText] is the text
    a template literal gives a number ([`CYCLE#${cycleNumber}`]): the
    conversion is a built-in and a parameter of what follows. *)
Definition GSI1PK (numberText : Z -> string) (i : Item) : string :=
  match i with
  | WorkoutItem _ => "WORKOUTS"
  | CurrentCycleItem c => "CYCLE#" ++ numberText (cycleNumber c)
  | CycleArchiveItem a => "CYCLE#" ++ numberText (archivedCycleNumber a)
  end.

Definition GSI1SK (i : Item) : string :=
  match i with
  | WorkoutItem w => Backend.date w
  | CurrentCycleItem _ => "META"
  | CycleArchiveItem _ => "ARCHIVE"
  end.

Definition indexedItems {AnalysisT Suggestions}
           (w : World AnalysisT Suggestions) : list Item :=
  map (fun entry => CycleArchiveItem (snd entry)) (map_to_list (archiveItems w))
  ++ match currentCycleItem w with
     | Some c => [CurrentCycleItem c]
     | None => []
     end
  ++ map (fun entry => WorkoutItem (snd entry)) (map_to_list (workoutItems w)).

Fixpoint insertBySK (i : Item) (l : list Item) : list Item :=
  match l with
  | [] => [i]
  | x :: rest =>
      if String.leb (GSI1SK i) (GSI1SK x) then i :: l else x :: insertBySK i rest
  end.

(** A query on the index by partition key: the items of the partition in
    the order of their sort keys. *)
Definition queryGSI1 {AnalysisT Suggestions} (numberText : Z -> string)
           (pk : string) (w : World AnalysisT Suggestions) : list Item :=
  fold_right insertBySK []
             (List.filter (fun i => String.eqb (GSI1PK numberText i) pk)
                          (indexedItems w)).

Record ExerciseData : Type := mkExerciseData {
  weights : list JS.value;
  reps : list JS.value
}.

Record UserProfile : Type := mkUserProfile {
  bodyweight : JS.value;
  experience : string
}.

Record CycleData : Type := mkCycleData {
  workouts : list Item;
  exercises : gmap string ExerciseData;
  rpeData : gmap string (list JS.value);
  userProfile : UserProfile
}.

(** [workout.exercises || {}], [workout.exerciseRPEs || {}] and
    [workout.bodyweight] on an item of either kind. *)
Definition exercisesOf (i : Item) : gmap string (list Session.SetData) :=
  match i with
  | WorkoutItem w => Backend.exercises w
  | _ => ∅
  end.

Definition exerciseRPEsOf (i : Item) : gmap string JS.value :=
  match i with
  | WorkoutItem w => Backend.exerciseRPEs w
  | _ => ∅
  end.

Definition bodyweightOf (i : Item) : JS.value :=
  match i with
  | WorkoutItem w => Backend.bodyweight w
  | _ => JS.Undefined
  end.

(** [sets.forEach(...)] on the entry of one exercise. *)
Definition pushSets (sets : list Session.SetData) (data : ExerciseData)
  : ExerciseData :=
  fold_left
    (fun acc set =>
       let pushedWeights :=
         if JS.truthy (Session.weight set) then weights acc ++ [Session.weight set]
         else weights acc in
       let pushedReps :=
         if JS.truthy (Session.reps set) then reps acc ++ [Session.reps set]
         else reps acc in
       mkExerciseData pushedWeights pushedReps)
    sets data.

Definition aggregateExercises (i : Item) (acc : gmap string ExerciseData)
  : gmap string ExerciseData :=
  map_fold
    (fun exerciseName sets acc =>
       <[exerciseName :=
           pushSets sets (default (mkExerciseData [] []) (acc !! exerciseName))]> acc)
    acc (exercisesOf i).

Definition aggregateRPEs (i : Item) (acc : gmap string (list JS.value))
  : gmap string (list JS.value) :=
  map_fold
    (fun exerciseName rpe acc =>
       <[exerciseName := default [] (acc !! exerciseName) ++ [rpe]]> acc)
    acc (exerciseRPEsOf i).

(** The body of [getCycleDataForAnalysis] after the query. *)
Definition aggregate (items : list Item) : CycleData :=
  let collected :=
    fold_left
      (fun acc workout =>
         (fst (fst acc) ++ [workout],
          aggregateExercises workout (snd (fst acc)),
          aggregateRPEs workout (snd acc)))
      items ([], ∅, ∅) in
  let workouts := fst (fst collected) in
  mkCycleData
    workouts (snd (fst collected)) (snd collected)
    (mkUserProfile
       (JS.or (match last workouts with
               | Some workout => bodyweightOf workout
               | None => JS.Undefined
               end)
              (JS.Num 180))
       "Intermediate").

Definition getCycleDataForAnalysis {AnalysisT Suggestions}
           (numberText : Z -> string) (cycleNumber : Z)
           (w : World AnalysisT Suggestions) : CycleData :=
  aggregate (queryGSI1 numberText ("CYCLE#" ++ numberText cycleNumber) w).

(** An item of a cycle, not a workout. *)
Definition cycleRecord (i : Item) : Prop :=
  match i with
  | WorkoutItem _ => False
  | _ => True
  end.

End CycleAnalysisData.

(** ** The session as the tracker screen drives it *)

Module SessionUI.
Import Catalog Classifier Session SessionOps.

(** The inputs of a set row. *)
Inductive Field : Type :=
| weightInput
| repsInput
| durationInput
| commentInput.

(** The inputs [ExerciseRow] draws in the rows of an exercise, by tracking
    type: weight and seconds, seconds only, or weight and reps; notes
    always. *)
Definition offered (exerciseName : string) (f : Field) : bool :=
  match f, getExerciseType exerciseName with
  | commentInput, _ => true
  | weightInput, Classifier.duration => false
  | weightInput, _ => true
  | repsInput, Classifier.bodyweight => true
  | repsInput, weighted => true
  | repsInput, _ => false
  | durationInput, weighted_duration => true
  | durationInput, Classifier.duration => true
  | durationInput, _ => false
  end.

(** [{ ...set, weight: e.target.value }] and its siblings. *)
Definition withField (set : SetData) (f : Field) (value : string) : SetData :=
  match f with
  | weightInput => mkSet (JS.Str value) (reps set) (duration set) (comment set)
  | repsInput => mkSet (weight set) (JS.Str value) (duration set) (comment set)
  | durationInput => mkSet (weight set) (reps set) (JS.Str value) (comment set)
  | commentInput => mkSet (weight set) (reps set) (duration set) (JS.Str value)
  end.

(** The state of the screen that bears on the session: the template
    shown, the bodyweight input and the three pieces of session state. *)
Record Screen : Type := mkScreen {
  template : WorkoutTemplate;
  bodyweight : JS.value;
  session : SessionState
}.

(** The [sets] an exercise row is given: the stored array, or blank
    records while there is none. *)
Definition rowsOf (sc : Screen) (exercise : Exercise) : list SetData :=
  default (repeat (blankSet (name exercise) (bodyweight sc)) (sets exercise))
          (workoutData (session sc) !! name exercise).

(** What the user can do; templates, exercises and sets are named by
    their position on the screen. *)
Inductive Event : Type :=
| SelectTemplate (index : nat)
| TypeBodyweight (value : string)
| TypeInRow (exerciseIndex setIndex : nat) (f : Field) (value : string)
| SelectRPE (exerciseIndex : nat) (value : Z)
| SkipExercise (exerciseIndex : nat)
| ClearSkipped.

(** The session state after an event and the effects it triggers; [None]
    when the screen does not offer the event.
    - [setActiveTemplate], then the initialisation effect;
    - [setBodyweight], then the bodyweight effect;
    - the [onChange] of an input of a row: rows are drawn for the elements
      of [sets] and hold the inputs of the tracking type;
    - a click on the RPE scale, which [ExerciseRow] shows while
      [isComplete && !exerciseRPE];
    - [skipExercise], and the button that empties the list of skipped
      exercises. *)
Definition step (templates : list WorkoutTemplate) (e : Event) (sc : Screen)
  : option Screen :=
  let s := session sc in
  match e with
  | SelectTemplate index =>
      match nth_error templates index with
      | Some t =>
          Some (mkScreen t (bodyweight sc)
                  (mkSession (initWorkoutData t (bodyweight sc) (workoutData s))
                             (exerciseRPEs s) (skippedExercises s)))
      | None => None
      end
  | TypeBodyweight value =>
      Some (mkScreen (template sc) (JS.Str value)
              (mkSession (applyBodyweight (template sc) (JS.Str value) (workoutData s))
                         (exerciseRPEs s) (skippedExercises s)))
  | TypeInRow exerciseIndex setIndex f value =>
      match nth_error (exercises (template sc)) exerciseIndex with
      | Some exercise =>
          match nth_error (rowsOf sc exercise) setIndex with
          | Some set =>
              if offered (name exercise) f && negb (isHole set) then
                Some (mkScreen (template sc) (bodyweight sc)
                        (mkSession
                           (fst (updateSet (template sc) (name exercise) setIndex
                                           (withField set f value) (workoutData s)
                                           Timer.initial))
                           (exerciseRPEs s) (skippedExercises s)))
              else None
          | None => None
          end
      | None => None
      end
  | SelectRPE exerciseIndex value =>
      match nth_error (exercises (template sc)) exerciseIndex with
      | Some exercise =>
          if Nat.eqb (completedSets (rowsOf sc exercise)) (sets exercise)
             && negb (JS.truthy (rpeOf s (name exercise)))
             && (1 <=? value)%Z && (value <=? 10)%Z
          then
            Some (mkScreen (template sc) (bodyweight sc)
                    (mkSession (workoutData s)
                               (<[name exercise := JS.Num value]> (exerciseRPEs s))
                               (skippedExercises s)))
          else None
      | None => None
      end
  | SkipExercise exerciseIndex =>
      match nth_error (exercises (template sc)) exerciseIndex with
      | Some exercise =>
          Some (mkScreen (template sc) (bodyweight sc) (skip (name exercise) s))
      | None => None
      end
  | ClearSkipped =>
      Some (mkScreen (template sc) (bodyweight sc)
              (mkSession (workoutData s) (exerciseRPEs s) []))
  end.

(** The screen after mounting: the first template, an empty bodyweight
    input, and the session the initialisation effect builds. *)
Definition start (templates : list WorkoutTemplate) : option Screen :=
  match templates with
  | t :: _ =>
      Some (mkScreen t (JS.Str "")
              (mkSession (initWorkoutData t (JS.Str "") ∅) ∅ []))
  | [] => None
  end.

Fixpoint after (templates : list WorkoutTemplate) (events : list Event)
         (sc : Screen) : option Screen :=
  match events with
  | [] => Some sc
  | e :: rest =>
      match step templates e sc with
      | Some sc' => after templates rest sc'
      | None => None
      end
  end.

(** The screen a user reaches by a sequence of events. *)
Definition run (templates : list WorkoutTemplate) (events : list Event)
  : option Screen :=
  match start templates with
  | Some sc => after templates events sc
  | None => None
  end.








End SessionUI.

(** * Properties *)

(** ** Array and string helpers *)

Module JSFacts.
Import JS.

Lemma arrayIncludes_In (l : list string) (k : string) :
  arrayIncludes l k = true <-> In k l.
Proof.
  unfold arrayIncludes. rewrite existsb_exists. split.
  - intros (x & Hx & Heq). apply String.eqb_eq in Heq. now subst.
  - intros Hin. exists k. split; [assumption | apply String.eqb_refl].
Qed.

Lemma arrayIncludes_false (l : list string) (k : string) :
  arrayIncludes l k = false <-> ~ In k l.
Proof.
  rewrite <- arrayIncludes_In. destruct (arrayIncludes l k); split; congruence.
Qed.

Lemma every_includes_incl (done sel : list string) :
  every (fun k => arrayIncludes done k) sel = true <-> incl sel done.
Proof.
  unfold every. rewrite forallb_forall. unfold incl.
  split; intros H x Hx; apply arrayIncludes_In; auto.
Qed.

Lemma every_includes_false (done sel : list string) :
  every (fun k => arrayIncludes done k) sel = false <-> ~ incl sel done.
Proof.
  rewrite <- every_includes_incl.
  destruct (every _ sel); split; congruence.
Qed.

Lemma sameJSON_eq (a b : list string) : sameJSON a b = true <-> a = b.
Proof.
  revert b. induction a as [|x a IH]; intros [|y b]; simpl; try (split; congruence).
  rewrite andb_true_iff, String.eqb_eq, IH. split.
  - intros [-> ->]. reflexivity.
  - intros [= -> ->]. split; reflexivity.
Qed.

Lemma sameJSON_refl (a : list string) : sameJSON a a = true.
Proof. now apply sameJSON_eq. Qed.

Lemma sameJSON_neq (a b : list string) : sameJSON a b = false <-> a <> b.
Proof.
  rewrite <- sameJSON_eq. destruct (sameJSON a b); split; congruence.
Qed.

Lemma prefix_app (ex s : string) :
  String.prefix ex s = true <-> exists post, s = (ex ++ post)%string.
Proof.
  revert s. induction ex as [|c ex IH]; intros s.
  - split; [intros _; now exists s | intros _; now destruct s].
  - destruct s as [|d s]; simpl.
    + split; [discriminate | intros (post & H); discriminate].
    + destruct (Ascii.ascii_dec c d) as [->|Hne].
      * rewrite IH. split; intros (post & H); exists post.
        -- now rewrite H.
        -- now injection H.
      * split; [discriminate | intros (post & H); injection H as H1 H2; congruence].
Qed.

Lemma includes_empty (ex : string) :
  includes EmptyString ex = String.prefix ex EmptyString || false.
Proof. reflexivity. Qed.

Lemma includes_String (c : ascii) (s ex : string) :
  includes (String c s) ex = String.prefix ex (String c s) || includes s ex.
Proof. reflexivity. Qed.

(** [includes] is substring search. *)
Lemma includes_substring (s ex : string) :
  includes s ex = true <-> exists pre post, s = (pre ++ ex ++ post)%string.
Proof.
  induction s as [|c s IH].
  - rewrite includes_empty, orb_false_r, prefix_app. split.
    + intros (post & H). now exists EmptyString, post.
    + intros (pre & post & H). destruct pre; simpl in H; [now exists post | discriminate].
  - rewrite includes_String, orb_true_iff, prefix_app, IH. split.
    + intros [(post & H) | (pre & post & H)].
      * now exists EmptyString, post.
      * exists (String c pre), post. simpl. now rewrite H.
    + intros (pre & post & H). destruct pre as [|d pre]; simpl in H.
      * left. now exists post.
      * right. exists pre, post. now injection H.
Qed.

End JSFacts.

(** ** The exercise classifier *)

Module ClassifierFacts.
Import Classifier JSFacts.

Lemma matchesAny_matchesEntry (entries : list string) (exerciseName : string) :
  matchesAny entries exerciseName = true <-> matchesEntry entries exerciseName.
Proof.
  unfold matchesAny, matchesEntry, JS.some. rewrite existsb_exists.
  split; intros (ex & Hin & H); exists ex; (split; [assumption|]);
    now apply includes_substring.
Qed.

Lemma matchesAny_not (entries : list string) (exerciseName : string) :
  matchesAny entries exerciseName = false <-> ~ matchesEntry entries exerciseName.
Proof.
  rewrite <- matchesAny_matchesEntry.
  destruct (matchesAny entries exerciseName); split; congruence.
Qed.

(** C9.  [getExerciseType] is a total function of the exercise name that
    returns one of the four tracking types.  A name matches a list when one
    of its entries occurs in the name as a substring, and the lists are
    tried in the order weighted+duration, duration, bodyweight, with
    [weighted] as the default for names that match none.  Hence a name that
    matches a weighted+duration entry is never classified as bodyweight or
    duration. *)
Theorem getExerciseType_precedence (exerciseName : string) :
  (matchesEntry WEIGHTED_DURATION_EXERCISES exerciseName ->
   getExerciseType exerciseName = weighted_duration
   /\ getExerciseType exerciseName <> bodyweight
   /\ getExerciseType exerciseName <> duration)
  /\ (~ matchesEntry WEIGHTED_DURATION_EXERCISES exerciseName ->
      matchesEntry DURATION_BASED_EXERCISES exerciseName ->
      getExerciseType exerciseName = duration)
  /\ (~ matchesEntry WEIGHTED_DURATION_EXERCISES exerciseName ->
      ~ matchesEntry DURATION_BASED_EXERCISES exerciseName ->
      matchesEntry BODYWEIGHT_EXERCISES exerciseName ->
      getExerciseType exerciseName = bodyweight)
  /\ (~ matchesEntry WEIGHTED_DURATION_EXERCISES exerciseName ->
      ~ matchesEntry DURATION_BASED_EXERCISES exerciseName ->
      ~ matchesEntry BODYWEIGHT_EXERCISES exerciseName ->
      getExerciseType exerciseName = weighted)
  /\ In (getExerciseType exerciseName)
        [weighted_duration; duration; bodyweight; weighted].
Proof.
  unfold getExerciseType.
  repeat split.
  - apply matchesAny_matchesEntry in H. now rewrite H.
  - apply matchesAny_matchesEntry in H. now rewrite H.
  - apply matchesAny_matchesEntry in H. now rewrite H.
  - intros H1 H2. apply matchesAny_not in H1. apply matchesAny_matchesEntry in H2.
    now rewrite H1, H2.
  - intros H1 H2 H3. apply matchesAny_not in H1, H2.
    apply matchesAny_matchesEntry in H3. now rewrite H1, H2, H3.
  - intros H1 H2 H3. apply matchesAny_not in H1, H2, H3. now rewrite H1, H2, H3.
  - destruct (matchesAny WEIGHTED_DURATION_EXERCISES exerciseName);
      [simpl; tauto|].
    destruct (matchesAny DURATION_BASED_EXERCISES exerciseName);
      [simpl; tauto|].
    destruct (matchesAny BODYWEIGHT_EXERCISES exerciseName); simpl; tauto.
Qed.

(** The carry of workouts B and D, whose name also contains no duration or
    bodyweight entry, and a name that contains entries of two lists. *)
Lemma getExerciseType_precedence_witness :
  matchesEntry WEIGHTED_DURATION_EXERCISES "Kettlebell Suitcase Carry Plank"
  /\ matchesEntry DURATION_BASED_EXERCISES "Kettlebell Suitcase Carry Plank"
  /\ getExerciseType "Kettlebell Suitcase Carry Plank" = weighted_duration
  /\ getExerciseType "Kettlebell Suitcase Carry Plank" <> bodyweight
  /\ getExerciseType "Kettlebell Suitcase Carry Plank" <> duration.
Proof.
  assert (H : matchesEntry WEIGHTED_DURATION_EXERCISES "Kettlebell Suitcase Carry Plank").
  { apply matchesAny_matchesEntry. vm_compute. reflexivity. }
  split; [exact H|].
  split; [apply matchesAny_matchesEntry; vm_compute; reflexivity|].
  exact (proj1 (getExerciseType_precedence "Kettlebell Suitcase Carry Plank") H).
Defined.

Example classify_catalog_names :
  map getExerciseType
      ["Kettlebell Farmer's March"; "TRX Plank Saw"; "BOSU Ball Plank";
       "Neutral Grip Pull-ups"; "Ring Dips"; "Barbell Bench Press"; ""]
  = [weighted_duration; duration; duration; bodyweight; bodyweight;
     weighted; weighted].
Proof. vm_compute. reflexivity. Qed.

End ClassifierFacts.

(** ** Session completion *)

Module SessionFacts.
Import Catalog Classifier Session JSFacts.

(** What the effect computes: every exercise is skipped or has exactly
    [sets] records with both weight and reps, whatever its tracking type,
    and every exercise is skipped or has a truthy RPE. *)
Lemma workoutComplete_iff (template : WorkoutTemplate) (s : SessionState) :
  workoutComplete template s = true <->
  forall ex, In ex (exercises template) ->
    (completedSets (setsOf s (name ex)) = sets ex
     \/ In (name ex) (skippedExercises s))
    /\ (JS.truthy (rpeOf s (name ex)) = true
        \/ In (name ex) (skippedExercises s)).
Proof.
  unfold workoutComplete, allExercisesComplete, allRPEsRecorded, JS.every.
  rewrite andb_true_iff, !forallb_forall. split.
  - intros [H1 H2] ex Hex. specialize (H1 ex Hex). specialize (H2 ex Hex).
    rewrite orb_true_iff in H1, H2.
    rewrite Nat.eqb_eq, arrayIncludes_In in H1. rewrite arrayIncludes_In in H2.
    tauto.
  - intros H. split; intros ex Hex; destruct (H ex Hex) as [H1 H2];
      rewrite orb_true_iff, ?Nat.eqb_eq, arrayIncludes_In; tauto.
Qed.


(** The effect by itself does not follow the per-type rule: on a session
    state of the optional core routine where the timed exercises (Plank,
    Wall Sit, Mountain Climbers) have an RPE, the predicate of the
    specification holds and [workoutComplete] is false.  The screen never
    produces such a state (see [SessionUIFacts]): it offers the RPE scale
    of an exercise only once its sets have weight and reps. *)
Remark workoutComplete_ignores_tracking_type :
  map (fun ex => getExerciseType (name ex)) (exercises optional_core_activation)
  = [bodyweight; bodyweight; Classifier.duration; Classifier.duration;
     Classifier.duration]
  /\ isComplete_by_type optional_core_activation coreSession = true
  /\ workoutComplete optional_core_activation coreSession = false.
Proof. vm_compute. repeat split. Qed.

End SessionFacts.

(** ** The response parser *)

Module ParseFacts.
Import Analysis.

Section Parse.
Variable JSON : Type.
Variable JSON_parse : string -> option JSON.

Lemma parseAttempt_throws (responseText : string) :
  JSON_parse (default responseText (matchBraces responseText)) = None ->
  parseAttempt JSON JSON_parse responseText = Throw "SyntaxError".
Proof.
  unfold parseAttempt, parseJSON.
  destruct (matchBraces responseText) as [m|]; simpl; intros ->; reflexivity.
Qed.

(** C8.  [parseClaudeResponse] returns for every response text and never
    throws.  When [JSON.parse] rejects the text it is given (the text
    between the first opening and the last closing brace, or the whole
    response when there is no such pair), the result is the default
    structure: fatigue level moderate, progress rate optimal, a summary
    saying that parsing failed, and the raw response text. *)
Theorem parseClaudeResponse_degrades (responseText : string) :
  (exists result,
      parseClaudeResponse JSON JSON_parse responseText = Return result)
  /\ (JSON_parse (default responseText (matchBraces responseText)) = None ->
      parseClaudeResponse JSON JSON_parse responseText
      = Return (Fallback
                  (mkAssessment "moderate" "optimal"
                     "Analysis completed but response parsing failed")
                  responseText
                  "Failed to parse structured response")).
Proof.
  split.
  - unfold parseClaudeResponse.
    destruct (parseAttempt JSON JSON_parse responseText) as [r|m]; simpl; eauto.
  - intros H. unfold parseClaudeResponse.
    now rewrite (parseAttempt_throws _ H).
Qed.

End Parse.

(** A response in prose whose braces do not enclose JSON. *)
Lemma parseClaudeResponse_degrades_witness :
  emptyObjectParser
    (default "Great cycle! {fatigue: low} keep going"
             (matchBraces "Great cycle! {fatigue: low} keep going")) = None
  /\ parseClaudeResponse unit emptyObjectParser "Great cycle! {fatigue: low} keep going"
     = Return (Fallback
                 (mkAssessment "moderate" "optimal"
                    "Analysis completed but response parsing failed")
                 "Great cycle! {fatigue: low} keep going"
                 "Failed to parse structured response").
Proof.
  split; [reflexivity|].
  apply (proj2 (parseClaudeResponse_degrades unit emptyObjectParser
                  "Great cycle! {fatigue: low} keep going")).
  reflexivity.
Defined.

End ParseFacts.

(** ** The RPE trend *)

Module TrendFacts.
Import Analysis.

Local Open Scope float_scope.

(** Adding an entry to a running total is exact in binary64, for the
    totals a sequence of at most eleven entries can reach. *)
Lemma add_exact_nat (a b : nat) :
  (a <= 100)%nat -> (b <= 10)%nat ->
  rpe (Z.of_nat a) + rpe (Z.of_nat b) = rpe (Z.of_nat (a + b)).
Proof.
  intros Ha Hb.
  do 11 (destruct b as [|b];
         [ clear Hb;
           do 101 (destruct a as [|a]; [vm_compute; reflexivity|]);
           exfalso; lia
         | ]).
  exfalso. lia.
Qed.

Lemma add_exact (a b : Z) :
  (0 <= a <= 100)%Z -> (0 <= b <= 10)%Z -> rpe a + rpe b = rpe (a + b).
Proof.
  intros Ha Hb.
  rewrite <- (Z2Nat.id a), <- (Z2Nat.id b) by lia.
  rewrite <- Nat2Z.inj_add. apply add_exact_nat; lia.
Qed.

Lemma fold_add_exact (l : list Z) :
  forall acc : Z,
    Forall entry l ->
    (0 <= acc)%Z -> (acc + 10 * Z.of_nat (length l) <= 110)%Z ->
    fold_left PrimFloat.add (map rpe l) (rpe acc) = rpe (fold_left Z.add l acc)
    /\ (acc <= fold_left Z.add l acc <= acc + 10 * Z.of_nat (length l))%Z.
Proof.
  induction l as [|z l IH]; intros acc Hall Hacc Hlen; simpl.
  - split; [reflexivity | lia].
  - apply Forall_cons_iff in Hall as [Hz Hall]. unfold entry in Hz.
    simpl length in Hlen.
    rewrite add_exact by lia.
    destruct (IH (acc + z)%Z Hall) as [Hsum Hbound]; [lia | lia |].
    split; [exact Hsum | lia].
Qed.

Lemma sum_exact (l : list Z) :
  Forall entry l -> (length l <= 11)%nat ->
  sum (rpes l) = rpe (sumZ l)
  /\ (0 <= sumZ l <= 10 * Z.of_nat (length l))%Z.
Proof.
  intros Hall Hlen. unfold sum, rpes, sumZ.
  change 0%float with (rpe 0).
  destruct (fold_add_exact l 0%Z Hall) as [H1 H2]; [lia | lia |].
  split; [exact H1 | lia].
Qed.

Lemma average_exact (l : list Z) :
  Forall entry l -> (length l <= 11)%nat ->
  average (rpes l) = rpe (sumZ l) / rpe (Z.of_nat (length l)).
Proof.
  intros Hall Hlen. unfold average, floatOfLength.
  rewrite (proj1 (sum_exact l Hall Hlen)).
  unfold rpes at 1. rewrite length_map. reflexivity.
Qed.

Lemma shortSequencesAgree_true : shortSequencesAgree = true.
Proof. vm_compute. reflexivity. Qed.

Lemma Trend_eqb_eq (a b : Trend) : Trend_eqb a b = true -> a = b.
Proof. destruct a, b; simpl; congruence. Qed.

Lemma labels_agree (n1 n2 : nat) (s1 s2 : Z) :
  (1 <= n1 <= 5)%nat -> n2 = n1 \/ n2 = S n1 ->
  (0 <= s1 <= 10 * Z.of_nat n1)%Z -> (0 <= s2 <= 10 * Z.of_nat n2)%Z ->
  floatLabel n1 s1 n2 s2 = exactLabel n1 s1 n2 s2.
Proof.
  intros Hn1 Hn2 Hs1 Hs2.
  pose proof shortSequencesAgree_true as H. unfold shortSequencesAgree in H.
  rewrite forallb_forall in H. specialize (H n1).
  rewrite in_seq, andb_true_iff in H. destruct H as [Hsame Hnext]; [lia|].
  assert (Hagree : labelsAgree n1 n2 = true) by (destruct Hn2; subst; assumption).
  unfold labelsAgree in Hagree. rewrite forallb_forall in Hagree.
  specialize (Hagree (Z.to_nat s1)). rewrite in_seq, forallb_forall in Hagree.
  specialize (Hagree ltac:(lia) (Z.to_nat s2)). rewrite in_seq in Hagree.
  specialize (Hagree ltac:(lia)).
  rewrite !Z2Nat.id in Hagree by lia.
  now apply Trend_eqb_eq.
Qed.

Lemma Forall_entry_firstn (n : nat) (l : list Z) :
  Forall entry l -> Forall entry (firstn n l).
Proof.
  rewrite !List.Forall_forall. intros H x Hx. apply H.
  rewrite <- (firstn_skipn n l). apply in_or_app. now left.
Qed.

Lemma Forall_entry_skipn (n : nat) (l : list Z) :
  Forall entry l -> Forall entry (skipn n l).
Proof.
  rewrite !List.Forall_forall. intros H x Hx. apply H.
  rewrite <- (firstn_skipn n l). apply in_or_app. now right.
Qed.

Lemma length_rpes (l : list Z) : length (rpes l) = length l.
Proof. apply length_map. Qed.

Lemma firstn_rpes (n : nat) (l : list Z) : firstn n (rpes l) = rpes (firstn n l).
Proof. apply firstn_map. Qed.

Lemma skipn_rpes (n : nat) (l : list Z) : skipn n (rpes l) = rpes (skipn n l).
Proof. apply skipn_map. Qed.

(** On sequences of at most eleven entries between 0 and 10 the label is
    the one of the exact rule. *)
Lemma calculateTrend_exact (l : list Z) :
  Forall entry l -> (length l <= 11)%nat ->
  calculateTrend (rpes l) = exactTrend l.
Proof.
  intros Hall Hlen. unfold calculateTrend, exactTrend, firstHalf, secondHalf.
  cbv zeta. rewrite !length_rpes.
  destruct (Nat.ltb (length l) 2) eqn:Hshort; [reflexivity|].
  apply Nat.ltb_ge in Hshort.
  pose proof (Nat.div_mod_eq (length l) 2) as Hdiv.
  pose proof (Nat.mod_upper_bound (length l) 2 ltac:(lia)) as Hmod.
  set (h := Nat.div (length l) 2) in *.
  assert (Hfirst : length (firstn h l) = h) by (rewrite length_firstn; lia).
  assert (Hsecond : length (skipn h l) = (length l - h)%nat) by apply length_skipn.
  rewrite !firstn_rpes, !skipn_rpes.
  rewrite !average_exact
    by (try apply Forall_entry_firstn; try apply Forall_entry_skipn;
        try assumption; lia).
  pose proof (sum_exact (firstn h l) (Forall_entry_firstn h l Hall) ltac:(lia))
    as [_ Hs1].
  pose proof (sum_exact (skipn h l) (Forall_entry_skipn h l Hall) ltac:(lia))
    as [_ Hs2].
  apply (labels_agree (length (firstn h l)) (length (skipn h l))); try lia.
Qed.


(** The exact rule spelled out on the means of the two halves. *)
Lemma exceedsByHalf_iff (a b : Q) :
  exceedsByHalf a b = true <-> (1 # 2 < a - b)%Q.
Proof.
  unfold exceedsByHalf. rewrite negb_true_iff.
  destruct (Qle_bool (a - b) (1 # 2)) eqn:E.
  - apply Qle_bool_iff in E. split; [discriminate|].
    intros H. exfalso. now apply (Qlt_not_le _ _ H).
  - split; [intros _ | reflexivity].
    apply Qnot_le_lt. intros H. apply Qle_bool_iff in H. congruence.
Qed.

Lemma exactLabel_iff (n1 : nat) (s1 : Z) (n2 : nat) (s2 : Z) :
  (exactLabel n1 s1 n2 s2 = increasing
   <-> (1 # 2 < exactMean s2 n2 - exactMean s1 n1)%Q)
  /\ (exactLabel n1 s1 n2 s2 = decreasing
      <-> (1 # 2 < exactMean s1 n1 - exactMean s2 n2)%Q).
Proof.
  unfold exactLabel.
  pose proof (exceedsByHalf_iff (exactMean s2 n2) (exactMean s1 n1)) as Hup.
  pose proof (exceedsByHalf_iff (exactMean s1 n1) (exactMean s2 n2)) as Hdown.
  destruct (exceedsByHalf (exactMean s2 n2) (exactMean s1 n1)) eqn:Eup;
    destruct (exceedsByHalf (exactMean s1 n1) (exactMean s2 n2)) eqn:Edown.
  - exfalso. assert (Hu := proj1 Hup eq_refl). assert (Hd := proj1 Hdown eq_refl).
    lra.
  - split; split; try tauto; try discriminate.
    intros H. apply Hdown in H. discriminate.
  - split; split; try tauto; try discriminate.
    intros H. apply Hup in H. discriminate.
  - split; split; try discriminate.
    + intros H. apply Hup in H. discriminate.
    + intros H. apply Hdown in H. discriminate.
Qed.

(** C7, as stated, fails on twelve entries: the means of the two halves
    are 47/6 and 50/6, which differ by exactly one half, so the rule of
    the specification gives [stable]; their binary64 quotients differ by
    more than 0.5, and [calculateTrend] answers [increasing] (and
    [decreasing] for the halves in the other order). *)
Lemma trend_rounding_counterexample :
  Forall entry [8; 8; 8; 8; 8; 7; 8; 8; 8; 8; 9; 9]%Z
  /\ (exactMean 50 6 - exactMean 47 6 == 1 # 2)%Q
  /\ exactTrend [8; 8; 8; 8; 8; 7; 8; 8; 8; 8; 9; 9]%Z = stable
  /\ calculateTrend (rpes [8; 8; 8; 8; 8; 7; 8; 8; 8; 8; 9; 9]%Z) = increasing
  /\ exactTrend [8; 8; 8; 8; 9; 9; 8; 8; 8; 8; 8; 7]%Z = stable
  /\ calculateTrend (rpes [8; 8; 8; 8; 9; 9; 8; 8; 8; 8; 8; 7]%Z) = decreasing.
Proof.
  split.
  - repeat constructor; unfold entry; lia.
  - split; [reflexivity|]. repeat split; vm_compute; reflexivity.
Qed.

(** C7, amended.  [calculateTrend] answers [stable] for every sequence of
    fewer than two values.  Otherwise it splits the sequence by index into
    a first half of [floor(n / 2)] values and a second half with the rest,
    and compares the binary64 means of the halves with 0.5.  For sequences
    of at most eleven RPE entries the answer is the one of the exact rule:
    [increasing] exactly when the mean of the second half exceeds the mean
    of the first by more than one half, [decreasing] exactly when the mean
    of the first half exceeds the mean of the second by more than one half,
    [stable] otherwise.  The four sample sequences get the stated labels. *)
Theorem calculateTrend_spec :
  (forall values : list float,
      (length values < 2)%nat -> calculateTrend values = stable)
  /\ (forall values : list float,
         length (firstHalf values) = Nat.div (length values) 2
         /\ length (secondHalf values)
            = (length values - Nat.div (length values) 2)%nat
         /\ firstHalf values ++ secondHalf values = values)
  /\ (forall values : list float,
         (2 <= length values)%nat ->
         calculateTrend values
         = if PrimFloat.ltb 0.5 (average (secondHalf values)
                                 - average (firstHalf values))
           then increasing
           else if PrimFloat.ltb 0.5 (average (firstHalf values)
                                      - average (secondHalf values))
                then decreasing
                else stable)
  /\ (forall l : list Z,
         Forall entry l -> (length l <= 11)%nat ->
         calculateTrend (rpes l) = exactTrend l)
  /\ (forall l : list Z,
         (2 <= length l)%nat ->
         let first := firstn (Nat.div (length l) 2) l in
         let second := skipn (Nat.div (length l) 2) l in
         (exactTrend l = increasing
          <-> (1 # 2 < exactMean (sumZ second) (length second)
                       - exactMean (sumZ first) (length first))%Q)
         /\ (exactTrend l = decreasing
             <-> (1 # 2 < exactMean (sumZ first) (length first)
                          - exactMean (sumZ second) (length second))%Q))
  /\ calculateTrend (rpes [6; 6; 8; 9]%Z) = increasing
  /\ calculateTrend (rpes [9; 8; 6; 6]%Z) = decreasing
  /\ calculateTrend (rpes [7]%Z) = stable
  /\ calculateTrend (rpes [7; 7]%Z) = stable.
Proof.
  split; [|split; [|split; [|split; [|split]]]].
  - intros values H. unfold calculateTrend.
    apply Nat.ltb_lt in H. now rewrite H.
  - intros values. unfold firstHalf, secondHalf.
    pose proof (Nat.div_mod_eq (length values) 2) as Hdiv.
    rewrite length_firstn, length_skipn, firstn_skipn.
    repeat split. lia.
  - intros values H. unfold calculateTrend.
    apply Nat.ltb_ge in H. now rewrite H.
  - exact calculateTrend_exact.
  - intros l H first second. unfold exactTrend.
    apply Nat.ltb_ge in H. rewrite H. apply exactLabel_iff.
  - repeat split; vm_compute; reflexivity.
Qed.

(** Three ratings of one exercise over a cycle. *)
Lemma calculateTrend_spec_witness :
  Forall entry [6; 7; 9]%Z
  /\ (length [6; 7; 9]%Z <= 11)%nat
  /\ calculateTrend (rpes [6; 7; 9]%Z) = exactTrend [6; 7; 9]%Z
  /\ exactTrend [6; 7; 9]%Z = increasing.
Proof.
  assert (H : Forall entry [6; 7; 9]%Z)
    by (repeat constructor; unfold entry; lia).
  assert (Hlen : (length [6; 7; 9]%Z <= 11)%nat) by (simpl; lia).
  split; [exact H|]. split; [exact Hlen|].
  split; [|reflexivity].
  exact (proj1 (proj2 (proj2 (proj2 calculateTrend_spec))) [6; 7; 9]%Z H Hlen).
Defined.

End TrendFacts.

(** ** The [POST /workouts] handler *)

Module HandlerFacts.
Import Analysis Backend.

Section Handler.
Variable AnalysisT : Type.
Variable Suggestions : Type.
Variable exerciseRecommendations : AnalysisT -> option Suggestions.
Variable analyze : CycleQuery AnalysisT Suggestions -> Completion AnalysisT.

(** C10.  A save request whose [isOptional] flag is truthy stores the
    workout item and nothing else: the current-cycle item, the archives,
    the stored analyses and suggestions are those of the table before
    the request, the analysis collaborator is not called, and the answer
    reports [cycleComplete: false], whatever the template key. *)
Theorem optional_save_leaves_cycle_untouched
        (req : WorkoutRequest) (w : World AnalysisT Suggestions) :
  JS.truthy (req_isOptional req) = true ->
  let workout :=
    mkWorkout (req_date req) (req_templateKey req) (req_bodyweight req)
              (req_notes req) (req_exercises req) (req_exerciseRPEs req)
              (req_isOptional req) true in
  postWorkouts exerciseRecommendations analyze req w
  = (Json workout false None,
     mkWorld AnalysisT Suggestions
             (<[workoutSK (req_date req) (req_templateKey req) := workout]>
                (workoutItems w))
             (currentCycleItem w) (archiveItems w) (analysisItems w)
             (suggestionsItem w) (analysisRequests w)).
Proof.
  intros H workout.
  unfold postWorkouts, postWorkoutsBody, saveWorkout, JS.or, bind.
  rewrite H. simpl. rewrite H. simpl. reflexivity.
Qed.

End Handler.

(** An optional save of a mandatory template key into a table whose cycle
    is one workout short of closing. *)
Lemma optional_save_leaves_cycle_untouched_witness :
  JS.truthy (req_isOptional optionalRequest) = true
  /\ currentCycleItem
       (snd (postWorkouts noRecommendations noAnalysis optionalRequest almostClosed))
     = currentCycleItem almostClosed
  /\ analysisRequests
       (snd (postWorkouts noRecommendations noAnalysis optionalRequest almostClosed))
     = [].
Proof.
  split; [reflexivity|].
  rewrite (optional_save_leaves_cycle_untouched unit unit noRecommendations
             noAnalysis optionalRequest almostClosed eq_refl).
  split; reflexivity.
Defined.

End HandlerFacts.

(** ** Exactly one closure per round of completions *)

Module TrackerFacts.
Import Driver.

Lemma NoDup_map_injective {A B} (f : A -> B) (l : list A) (x y : A) :
  List.NoDup (map f l) -> In x l -> In y l -> f x = f y -> x = y.
Proof.
  induction l as [|a l IH]; simpl; [tauto|].
  intros Hnd Hx Hy Hf. apply NoDup_cons_iff in Hnd as [Hna Hnd].
  destruct Hx as [-> | Hx], Hy as [-> | Hy]; auto.
  - exfalso. apply Hna. rewrite Hf. now apply in_map.
  - exfalso. apply Hna. rewrite <- Hf. now apply in_map.
Qed.

Section OneClosure.
Context {T S Ev : Type}.

(** A tracker: the selected keys, the key of a completion, the step, the
    keys credited in a state, the completions it accepts and what it
    promises about a closure. *)
Variable selected : list string.
Variable keyOf : T -> string.
Variable step : T -> S -> S * option Ev.
Variable credited : S -> list string.
Variable eligible : T -> Prop.
Variable closedWith : Ev -> S -> Prop.

Hypothesis eligible_selected :
  forall t, eligible t -> In (keyOf t) selected.
Hypothesis step_known :
  forall t s, eligible t -> In (keyOf t) (credited s) -> step t s = (s, None).
Hypothesis step_credit :
  forall t s, eligible t -> ~ In (keyOf t) (credited s) ->
              ~ incl selected (credited s ++ [keyOf t]) ->
              snd (step t s) = None
              /\ credited (fst (step t s)) = credited s ++ [keyOf t].
Hypothesis step_close :
  forall t s, eligible t -> ~ In (keyOf t) (credited s) ->
              incl (credited s) selected ->
              incl selected (credited s ++ [keyOf t]) ->
              exists e, snd (step t s) = Some e
                        /\ credited (fst (step t s)) = []
                        /\ closedWith e (fst (step t s)).

Lemma run_cons (t : T) (rest : list T) (s : S) :
  fst (run step (t :: rest) s)
  = match snd (step t s) with
    | Some e => [(e, fst (step t s))]
    | None => []
    end ++ fst (run step rest (fst (step t s))).
Proof.
  simpl. destruct (step t s) as [s' ev]. simpl.
  destruct (run step rest s') as [log final]. simpl.
  now destruct ev.
Qed.

(** While a selected key is neither credited nor about to be completed,
    nothing closes. *)
Lemma run_no_closure (items : list T) :
  forall s x,
    Forall eligible items ->
    In x selected -> ~ In x (credited s) -> ~ In x (map keyOf items) ->
    fst (run step items s) = [].
Proof.
  induction items as [|t rest IH]; intros s x Hel Hx Hnc Hni; [reflexivity|].
  apply Forall_cons_iff in Hel as [Ht Hrest].
  simpl in Hni. rewrite run_cons.
  destruct (in_dec string_dec (keyOf t) (credited s)) as [Hk | Hk].
  - rewrite (step_known t s Ht Hk). simpl. apply (IH s x); tauto.
  - destruct (step_credit t s Ht Hk) as [Hnone Hcred].
    + intros Hincl. specialize (Hincl x Hx).
      apply in_app_or in Hincl as [H | [H | []]]; tauto.
    + rewrite Hnone. simpl. apply (IH _ x); try tauto.
      rewrite Hcred. intros H. apply in_app_or in H as [H | [H | []]]; tauto.
Qed.

(** From an open cycle, completing every selected key once closes the
    cycle exactly once. *)
Lemma run_one_closure (items : list T) :
  forall s,
    Forall eligible items ->
    List.NoDup (map keyOf items) ->
    incl (credited s) selected ->
    incl selected (credited s ++ map keyOf items) ->
    ~ incl selected (credited s) ->
    exists e s', fst (run step items s) = [(e, s')] /\ closedWith e s'.
Proof.
  induction items as [|t rest IH]; intros s Hel Hnd Hinv Hall Hopen.
  - exfalso. apply Hopen. simpl in Hall. now rewrite app_nil_r in Hall.
  - apply Forall_cons_iff in Hel as [Ht Hrest].
    simpl in Hnd. apply NoDup_cons_iff in Hnd as [Hfresh Hnd].
    rewrite run_cons.
    destruct (in_dec string_dec (keyOf t) (credited s)) as [Hk | Hk].
    + rewrite (step_known t s Ht Hk). simpl. apply IH; auto.
      intros x Hx. specialize (Hall x Hx). simpl in Hall.
      apply in_app_or in Hall as [H | [<- | H]]; apply in_or_app; auto.
    + destruct (ListDec.incl_dec string_dec selected (credited s ++ [keyOf t]))
        as [Hfull | Hfull].
      * destruct (step_close t s Ht Hk Hinv Hfull) as (e & He & Hcred & Hclosed).
        rewrite He.
        rewrite (run_no_closure rest (fst (step t s)) (keyOf t)); auto.
        -- exists e, (fst (step t s)). split; [reflexivity | assumption].
        -- rewrite Hcred. simpl. tauto.
      * destruct (step_credit t s Ht Hk Hfull) as [Hnone Hcred].
        rewrite Hnone. simpl. apply IH; auto; rewrite Hcred.
        -- intros x Hx. apply in_app_or in Hx as [H | [<- | []]]; auto.
        -- intros x Hx. specialize (Hall x Hx). simpl in Hall.
           rewrite <- app_assoc. simpl. assumption.
        -- assumption.
Qed.

End OneClosure.

End TrackerFacts.

(** ** The client-side cycle tracker *)

Module ClientFacts.
Import Catalog ClientCycle JSFacts TrackerFacts.

Section Configuration.
Variable templates : list WorkoutTemplate.
Variable includeInAnalysis : gmap string bool.

Let selected := selectedFor templates includeInAnalysis.

Lemma resetIfSelectionChanged_same (c : Cycle) (sel : list string) :
  selectedWorkouts c = sel -> resetIfSelectionChanged c sel = c.
Proof.
  intros <-. unfold resetIfSelectionChanged. now rewrite sameJSON_refl.
Qed.

Lemma resetIfSelectionChanged_changed (c : Cycle) (sel : list string) :
  selectedWorkouts c <> sel -> resetIfSelectionChanged c sel = mkCycle [] sel.
Proof.
  intros H. unfold resetIfSelectionChanged.
  apply sameJSON_neq in H. now rewrite H.
Qed.

Lemma resetIfSelectionChanged_selected (c : Cycle) (sel : list string) :
  selectedWorkouts (resetIfSelectionChanged c sel) = sel.
Proof.
  unfold resetIfSelectionChanged.
  destruct (JS.sameJSON (selectedWorkouts c) sel) eqn:E; [|reflexivity].
  now apply sameJSON_eq in E.
Qed.

Lemma workingCycle_selected (sel : list string) (b : Browser) :
  selectedWorkouts (workingCycle sel b) = sel.
Proof. apply resetIfSelectionChanged_selected. Qed.

(** The effect for a completed, included template, in terms of the
    working cycle. *)
Lemma cycleEffect_included (t : WorkoutTemplate) (b : Browser) :
  isIncluded includeInAnalysis t = true ->
  cycleEffect templates includeInAnalysis true t b
  = if negb (JS.arrayIncludes (credited selected b) (key t)) then
      let pushed := credited selected b ++ [key t] in
      if JS.every (fun k => JS.arrayIncludes pushed k) selected
         && Nat.ltb 0 (length selected)
      then (mkBrowser (Some (mkCycle [] selected))
                      (Some (mkCycleData pushed selected)) [],
            Some (mkCycleData pushed selected))
      else (mkBrowser (Some (mkCycle pushed selected)) (cycle_complete b) pushed,
            None)
    else (b, None).
Proof.
  intros H. unfold cycleEffect. rewrite H. simpl.
  fold selected. fold (workingCycle selected b). fold (credited selected b).
  now rewrite workingCycle_selected.
Qed.

Lemma eligible_selected (t : WorkoutTemplate) :
  eligible templates includeInAnalysis t -> In (key t) selected.
Proof.
  intros [Hin Hinc]. unfold selected, selectedFor.
  apply in_map, filter_In. now split.
Qed.

Lemma selected_eligible (t : WorkoutTemplate) :
  List.NoDup (map key templates) ->
  In t templates -> In (key t) selected ->
  eligible templates includeInAnalysis t.
Proof.
  intros Hnd Hin Hsel. split; [assumption|].
  unfold selected, selectedFor in Hsel.
  apply in_map_iff in Hsel as (t' & Hkey & Hfilter).
  apply filter_In in Hfilter as [Hin' Hinc].
  now rewrite <- (NoDup_map_injective key templates t' t Hnd Hin' Hin Hkey).
Qed.

Lemma selected_NoDup :
  List.NoDup (map key templates) -> List.NoDup selected.
Proof.
  unfold selected, selectedFor. clear selected.
  induction templates as [|t l IH]; simpl; intros Hnd; [constructor|].
  apply NoDup_cons_iff in Hnd as [Hfresh Hnd].
  destruct (isIncluded includeInAnalysis t); simpl; auto.
  constructor; auto.
  intros Hin. apply Hfresh. apply in_map_iff in Hin as (t' & Hk & Hf).
  apply filter_In in Hf as [Hf _]. rewrite <- Hk. now apply in_map.
Qed.

Lemma effect_known (t : WorkoutTemplate) (b : Browser) :
  eligible templates includeInAnalysis t ->
  In (key t) (credited selected b) ->
  cycleEffect templates includeInAnalysis true t b = (b, None).
Proof.
  intros [_ Hinc] Hk. rewrite (cycleEffect_included t b Hinc).
  apply arrayIncludes_In in Hk. now rewrite Hk.
Qed.

Lemma credited_saved (completed0 : list string) (d : option CycleData)
      (progress : list string) :
  credited selected (mkBrowser (Some (mkCycle completed0 selected)) d progress)
  = completed0.
Proof.
  unfold credited, workingCycle. simpl.
  now rewrite resetIfSelectionChanged_same.
Qed.

Lemma effect_credit (t : WorkoutTemplate) (b : Browser) :
  eligible templates includeInAnalysis t ->
  ~ In (key t) (credited selected b) ->
  ~ incl selected (credited selected b ++ [key t]) ->
  snd (cycleEffect templates includeInAnalysis true t b) = None
  /\ credited selected (fst (cycleEffect templates includeInAnalysis true t b))
     = credited selected b ++ [key t].
Proof.
  intros [_ Hinc] Hk Hfull. rewrite (cycleEffect_included t b Hinc).
  apply arrayIncludes_false in Hk. rewrite Hk. simpl.
  apply every_includes_false in Hfull. rewrite Hfull. simpl.
  split; [reflexivity | apply credited_saved].
Qed.

Lemma effect_close (t : WorkoutTemplate) (b : Browser) :
  eligible templates includeInAnalysis t ->
  ~ In (key t) (credited selected b) ->
  incl (credited selected b) selected ->
  incl selected (credited selected b ++ [key t]) ->
  exists d,
    snd (cycleEffect templates includeInAnalysis true t b) = Some d
    /\ credited selected (fst (cycleEffect templates includeInAnalysis true t b)) = []
    /\ closedWith selected d (fst (cycleEffect templates includeInAnalysis true t b)).
Proof.
  intros Hel Hk Hinv Hfull. pose proof (eligible_selected t Hel) as Hsel.
  destruct Hel as [_ Hinc]. rewrite (cycleEffect_included t b Hinc).
  apply arrayIncludes_false in Hk. rewrite Hk. simpl.
  pose proof Hfull as Hfull'. apply every_includes_incl in Hfull'. rewrite Hfull'.
  assert (Hlen : Nat.ltb 0 (length selected) = true).
  { destruct selected; [destruct Hsel | reflexivity]. }
  rewrite Hlen. simpl.
  eexists. split; [reflexivity|]. split; [apply credited_saved|].
  unfold closedWith. simpl. repeat split; auto.
  intros H. apply in_app_or in H as [H | [<- | []]]; auto.
Qed.

(** The inclusion of the data model is preserved by the working cycle. *)
Lemma credited_incl (b : Browser) :
  cycleInvariant b -> incl (credited selected b) selected.
Proof.
  unfold cycleInvariant, credited, workingCycle, resetIfSelectionChanged.
  destruct (current_cycle b) as [saved|]; simpl.
  - destruct (JS.sameJSON (selectedWorkouts saved) selected) eqn:E; simpl.
    + apply sameJSON_eq in E. now rewrite <- E.
    + intros _ x [].
  - rewrite sameJSON_refl. intros _ x [].
Qed.

Lemma cycleEffect_invariant (workoutComplete : bool)
      (t : WorkoutTemplate) (b : Browser) :
  In t templates ->
  cycleInvariant b ->
  cycleInvariant (fst (cycleEffect templates includeInAnalysis workoutComplete t b)).
Proof.
  intros Hin Hinv.
  destruct workoutComplete; [|exact Hinv].
  destruct (isIncluded includeInAnalysis t) eqn:Hinc.
  - rewrite (cycleEffect_included t b Hinc).
    destruct (JS.arrayIncludes (credited selected b) (key t)); simpl; [exact Hinv|].
    match goal with |- context [if ?c then _ else _] => destruct c end;
      unfold cycleInvariant; simpl.
    + intros x [].
    + intros x Hx. apply in_app_or in Hx as [Hx | [<- | []]].
      * exact (credited_incl b Hinv x Hx).
      * apply eligible_selected. now split.
  - unfold cycleEffect. rewrite Hinc. exact Hinv.
Qed.

(** A cycle that is open stays open: the effect never stores a cycle in
    which every selected key is credited. *)
Lemma effect_stays_open (t : WorkoutTemplate) (b : Browser) :
  eligible templates includeInAnalysis t ->
  ~ incl selected (credited selected b) ->
  ~ incl selected
      (credited selected (fst (cycleEffect templates includeInAnalysis true t b))).
Proof.
  intros Hel Hopen. pose proof (eligible_selected t Hel) as Hsel.
  destruct Hel as [_ Hinc]. rewrite (cycleEffect_included t b Hinc).
  destruct (JS.arrayIncludes (credited selected b) (key t)); simpl; [exact Hopen|].
  destruct (JS.every (fun k => JS.arrayIncludes (credited selected b ++ [key t]) k)
                     selected) eqn:Hfull; simpl.
  - destruct (Nat.ltb 0 (length selected)) eqn:Hlen; simpl.
    + rewrite credited_saved. intros H. exact (H _ Hsel).
    + destruct selected; [destruct Hsel | discriminate].
  - rewrite credited_saved. now apply every_includes_false.
Qed.

(** One round over the selected templates, from an open cycle. *)
Lemma client_round_closes_once (finished : list WorkoutTemplate) (b : Browser) :
  List.NoDup (map key templates) ->
  Forall (fun t => In t templates) finished ->
  Permutation (map key finished) selected ->
  incl (credited selected b) selected ->
  ~ incl selected (credited selected b) ->
  exists d b',
    fst (completeAll templates includeInAnalysis finished b) = [(d, b')]
    /\ closedWith selected d b'.
Proof.
  intros Hnd Hall Hperm Hinv Hopen. unfold completeAll.
  apply (run_one_closure selected key _ (credited selected)
                         (eligible templates includeInAnalysis)
                         (closedWith selected)
                         eligible_selected effect_known effect_credit effect_close);
    auto.
  - rewrite List.Forall_forall in *. intros t Ht.
    apply selected_eligible; [assumption | now apply Hall |].
    apply (Permutation_in _ Hperm). apply in_map. exact Ht.
  - apply (Permutation_NoDup (Permutation_sym Hperm)). now apply selected_NoDup.
  - intros x Hx. apply in_or_app. right.
    now apply (Permutation_in _ (Permutation_sym Hperm)).
Qed.

End Configuration.

End ClientFacts.

(** ** The backend cycle tracker *)

Module BackendFacts.
Import Analysis Backend JSFacts TrackerFacts.

Section Service.
Context {AnalysisT Suggestions : Type}.
Local Abbreviation World := (World AnalysisT Suggestions).

Lemma getCurrentCycle_eq (w : World) :
  getCurrentCycle w
  = (Return (ensured w),
     match currentCycleItem w with
     | Some _ => w
     | None => mkWorld AnalysisT Suggestions (workoutItems w)
                       (Some (currentCycle 1)) (archiveItems w)
                       (analysisItems w) (suggestionsItem w)
                       (analysisRequests w)
     end).
Proof.
  unfold getCurrentCycle, ensured, bind, getWorld. simpl.
  destruct (currentCycleItem w); reflexivity.
Qed.

Lemma recorded_ensured (w : World) :
  completedWorkouts (ensured w) = recorded w.
Proof.
  unfold ensured, recorded. destruct (currentCycleItem w); reflexivity.
Qed.

Lemma updateCycleProgress_known (k : string) (w : World) :
  In k (recorded w) ->
  updateCycleProgress k w = (Return (mkCycleUpdate false None), w).
Proof.
  intros Hk. unfold updateCycleProgress, bind.
  rewrite getCurrentCycle_eq, recorded_ensured.
  apply arrayIncludes_In in Hk. rewrite Hk. simpl.
  unfold recorded in Hk. destruct (currentCycleItem w); [reflexivity | discriminate].
Qed.

Lemma updateCycleProgress_credit (k : string) (w : World) :
  ~ In k (recorded w) ->
  ~ incl mandatoryWorkouts (recorded w ++ [k]) ->
  updateCycleProgress k w
  = (Return (mkCycleUpdate false None),
     mkWorld AnalysisT Suggestions (workoutItems w)
             (Some (mkCurrentCycle
                      (cycleNumber (ensured w)) (recorded w ++ [k])
                      (List.filter (fun x => negb (String.eqb x k))
                                   (remainingWorkouts (ensured w)))))
             (archiveItems w) (analysisItems w) (suggestionsItem w)
             (analysisRequests w)).
Proof.
  intros Hk Hfull. unfold updateCycleProgress, bind.
  rewrite getCurrentCycle_eq, recorded_ensured.
  apply arrayIncludes_false in Hk. rewrite Hk. cbn [negb].
  apply every_includes_false in Hfull. rewrite Hfull.
  destruct (currentCycleItem w); reflexivity.
Qed.

Lemma updateCycleProgress_close (k : string) (w : World) :
  ~ In k (recorded w) ->
  incl mandatoryWorkouts (recorded w ++ [k]) ->
  updateCycleProgress k w
  = (Return (mkCycleUpdate true (Some (cycleNumber (ensured w) + 1)%Z)),
     mkWorld AnalysisT Suggestions (workoutItems w)
             (Some (currentCycle (cycleNumber (ensured w) + 1)))
             (<[cycleNumber (ensured w) :=
                  mkCycleArchive (cycleNumber (ensured w)) (recorded w ++ [k])]>
                (archiveItems w))
             (analysisItems w) (suggestionsItem w) (analysisRequests w)).
Proof.
  intros Hk Hfull. unfold updateCycleProgress, bind.
  rewrite getCurrentCycle_eq, recorded_ensured.
  apply arrayIncludes_false in Hk. rewrite Hk. cbn [negb].
  apply every_includes_incl in Hfull. rewrite Hfull.
  destruct (currentCycleItem w); reflexivity.
Qed.

Lemma record_known (k : string) (w : World) :
  eligible k -> In k (recorded w) -> recordCompletion k w = (w, None).
Proof.
  intros _ Hk. unfold recordCompletion.
  now rewrite (updateCycleProgress_known k w Hk).
Qed.

Lemma record_credit (k : string) (w : World) :
  eligible k -> ~ In k (recorded w) ->
  ~ incl mandatoryWorkouts (recorded w ++ [k]) ->
  snd (recordCompletion k w) = None
  /\ recorded (fst (recordCompletion k w)) = recorded w ++ [k].
Proof.
  intros _ Hk Hfull. unfold recordCompletion.
  rewrite (updateCycleProgress_credit k w Hk Hfull). split; reflexivity.
Qed.

Lemma record_close (k : string) (w : World) :
  eligible k -> ~ In k (recorded w) ->
  incl (recorded w) mandatoryWorkouts ->
  incl mandatoryWorkouts (recorded w ++ [k]) ->
  exists u, snd (recordCompletion k w) = Some u
            /\ recorded (fst (recordCompletion k w)) = []
            /\ closedWith u (fst (recordCompletion k w)).
Proof.
  intros Hel Hk Hinv Hfull. unfold recordCompletion.
  rewrite (updateCycleProgress_close k w Hk Hfull). simpl.
  eexists. split; [reflexivity|]. split; [reflexivity|].
  exists (cycleNumber (ensured w)). simpl. split; [reflexivity|].
  split; [reflexivity|].
  eexists. split; [apply lookup_insert_eq|]. simpl.
  intros x. split; [|apply Hfull].
  intros H. apply in_app_or in H as [H | [<- | []]]; [now apply Hinv | exact Hel].
Qed.

(** A cycle that is open stays open, whatever key is recorded. *)
Lemma update_stays_open (k : string) (w : World) :
  ~ incl mandatoryWorkouts (recorded w) ->
  ~ incl mandatoryWorkouts (recorded (snd (updateCycleProgress k w))).
Proof.
  intros Hopen.
  destruct (in_dec string_dec k (recorded w)) as [Hk | Hk].
  - now rewrite (updateCycleProgress_known k w Hk).
  - destruct (ListDec.incl_dec string_dec mandatoryWorkouts (recorded w ++ [k]))
      as [Hfull | Hfull].
    + rewrite (updateCycleProgress_close k w Hk Hfull).
      intros H. exact (H "A_push_power" (or_introl eq_refl)).
    + now rewrite (updateCycleProgress_credit k w Hk Hfull).
Qed.

(** One round over the mandatory keys, from an open cycle. *)
Lemma backend_round_closes_once (keys : list string) (w : World) :
  Permutation keys mandatoryWorkouts ->
  incl (recorded w) mandatoryWorkouts ->
  ~ incl mandatoryWorkouts (recorded w) ->
  exists u w', fst (completeAll keys w) = [(u, w')] /\ closedWith u w'.
Proof.
  intros Hperm Hinv Hopen. unfold completeAll.
  apply (run_one_closure mandatoryWorkouts (fun k => k) _ recorded eligible
                         closedWith
                         (fun k H => H) record_known record_credit record_close);
    auto.
  - apply List.Forall_forall. intros k Hk. exact (Permutation_in _ Hperm Hk).
  - rewrite map_id. apply (Permutation_NoDup (Permutation_sym Hperm)).
    unfold mandatoryWorkouts. repeat constructor; simpl; intuition discriminate.
  - rewrite map_id. intros x Hx. apply in_or_app. right.
    exact (Permutation_in _ (Permutation_sym Hperm) Hx).
Qed.

Lemma counted_recorded (k : string) (w : World) :
  eligible k -> (In k (counted w) <-> In k (recorded w)).
Proof.
  intros Hel. unfold counted. rewrite filter_In. split; [tauto|].
  intros H. split; [assumption|]. now apply arrayIncludes_In.
Qed.

Lemma counted_full (l : list string) (w : World) (k : string) :
  eligible k ->
  (incl mandatoryWorkouts (counted w ++ l) <-> incl mandatoryWorkouts (recorded w ++ l)).
Proof.
  intros Hel. split; intros H x Hx; specialize (H x Hx);
    apply in_app_or in H as [H | H]; apply in_or_app; auto; left.
  - unfold counted in H. apply filter_In in H. tauto.
  - unfold counted. apply filter_In. split; [assumption|]. now apply arrayIncludes_In.
Qed.

Lemma counted_known (k : string) (w : World) :
  eligible k -> In k (counted w) -> recordCompletion k w = (w, None).
Proof.
  intros Hel Hk. apply record_known; [assumption|].
  now apply (counted_recorded k w Hel).
Qed.

Lemma counted_credit (k : string) (w : World) :
  eligible k -> ~ In k (counted w) ->
  ~ incl mandatoryWorkouts (counted w ++ [k]) ->
  snd (recordCompletion k w) = None
  /\ counted (fst (recordCompletion k w)) = counted w ++ [k].
Proof.
  intros Hel Hk Hfull.
  destruct (record_credit k w Hel) as [Hnone Hrec].
  - intros H. apply Hk. now apply (counted_recorded k w Hel).
  - intros H. apply Hfull. now apply (counted_full [k] w k Hel).
  - split; [assumption|]. unfold counted. rewrite Hrec, List.filter_app. cbn [List.filter].
    apply arrayIncludes_In in Hel. now rewrite Hel.
Qed.

Lemma counted_close (k : string) (w : World) :
  eligible k -> ~ In k (counted w) ->
  incl (counted w) mandatoryWorkouts ->
  incl mandatoryWorkouts (counted w ++ [k]) ->
  exists u, snd (recordCompletion k w) = Some u
            /\ counted (fst (recordCompletion k w)) = []
            /\ closedOver u (fst (recordCompletion k w)).
Proof.
  intros Hel Hk _ Hfull.
  assert (Hk' : ~ In k (recorded w)).
  { intros H. apply Hk. now apply (counted_recorded k w Hel). }
  apply (counted_full [k] w k Hel) in Hfull.
  unfold recordCompletion.
  rewrite (updateCycleProgress_close k w Hk' Hfull). simpl.
  eexists. split; [reflexivity|]. split; [reflexivity|].
  exists (cycleNumber (ensured w)). simpl. split; [reflexivity|].
  split; [reflexivity|].
  eexists. split; [apply lookup_insert_eq|]. simpl. exact Hfull.
Qed.

(** From an open cycle, whatever else has been recorded in it, recording
    every mandatory key once closes the cycle exactly once. *)
Lemma backend_round_closes_over (keys : list string) (w : World) :
  Permutation keys mandatoryWorkouts ->
  ~ incl mandatoryWorkouts (recorded w) ->
  exists u w', fst (completeAll keys w) = [(u, w')] /\ closedOver u w'.
Proof.
  intros Hperm Hopen. unfold completeAll.
  apply (run_one_closure mandatoryWorkouts (fun k => k) _ counted eligible
                         closedOver
                         (fun k H => H) counted_known counted_credit counted_close).
  - apply List.Forall_forall. intros k Hk. exact (Permutation_in _ Hperm Hk).
  - rewrite map_id. apply (Permutation_NoDup (Permutation_sym Hperm)).
    unfold mandatoryWorkouts. repeat constructor; simpl; intuition discriminate.
  - intros x Hx. unfold counted in Hx. apply filter_In in Hx as [_ Hx].
    now apply arrayIncludes_In.
  - rewrite map_id. intros x Hx. apply in_or_app. right.
    exact (Permutation_in _ (Permutation_sym Hperm) Hx).
  - intros H. apply Hopen. intros x Hx. specialize (H x Hx).
    unfold counted in H. apply filter_In in H. tauto.
Qed.

End Service.

End BackendFacts.

(** ** Cycle closure, selection changes, duplicates and the inclusion *)

Module CycleClaims.
Import Catalog Analysis.

(** C2.  From an open cycle (not all selected keys are credited yet),
    completing every selected workout once, in any order, announces
    exactly one closure, and the state right after it holds an empty
    [completed] list over the same selection.  In the client-side effect,
    where the credited keys are selected keys, the announcement lists
    exactly the selected keys, under every configuration with a non-empty
    selection.  The backend service closes once as well, for every table
    with an open cycle, and its archive holds every key of the mandatory
    list; it lists exactly those keys when nothing else had been
    recorded in the cycle. *)
Theorem cycle_closes_exactly_once :
  (forall (templates : list WorkoutTemplate) (includeInAnalysis : gmap string bool)
          (finished : list WorkoutTemplate) (b : ClientCycle.Browser),
      List.NoDup (map key templates) ->
      Forall (fun t => In t templates) finished ->
      Permutation (map key finished)
                  (ClientCycle.selectedFor templates includeInAnalysis) ->
      ClientCycle.selectedFor templates includeInAnalysis <> [] ->
      incl (ClientCycle.credited
              (ClientCycle.selectedFor templates includeInAnalysis) b)
           (ClientCycle.selectedFor templates includeInAnalysis) ->
      ~ incl (ClientCycle.selectedFor templates includeInAnalysis)
             (ClientCycle.credited
                (ClientCycle.selectedFor templates includeInAnalysis) b) ->
      exists d b',
        fst (ClientCycle.completeAll templates includeInAnalysis finished b)
        = [(d, b')]
        /\ ClientCycle.closedWith
             (ClientCycle.selectedFor templates includeInAnalysis) d b')
  /\ (forall (AnalysisT Suggestions : Type) (keys : list string)
             (w : Backend.World AnalysisT Suggestions),
         Permutation keys Backend.mandatoryWorkouts ->
         ~ incl Backend.mandatoryWorkouts (Backend.recorded w) ->
         exists u w',
           fst (Backend.completeAll keys w) = [(u, w')]
           /\ Backend.closedOver u w'
           /\ Backend.recorded w' = []
           /\ (incl (Backend.recorded w) Backend.mandatoryWorkouts ->
               Backend.closedWith u w')).
Proof.
  split.
  - intros templates inc finished b Hnd Hall Hperm _ Hinv Hopen.
    now apply ClientFacts.client_round_closes_once.
  - intros A S keys w Hperm Hopen.
    destruct (BackendFacts.backend_round_closes_over keys w Hperm Hopen)
      as (u & w' & Hlog & Hover).
    exists u, w'. split; [exact Hlog|]. split; [exact Hover|]. split.
    + destruct Hover as (n & _ & Hcur & _). unfold Backend.recorded.
      now rewrite Hcur.
    + intros Hinv.
      destruct (BackendFacts.backend_round_closes_once keys w Hperm Hinv Hopen)
        as (u0 & w0 & Hlog0 & Hwith).
      rewrite Hlog in Hlog0. injection Hlog0 as -> ->. exact Hwith.
Qed.

(** C2, as stated, fails for the backend service: after one save of leg
    day that is not flagged optional, recording the four keys of the
    mandatory list closes the cycle once, and at that closure the recorded
    keys are five, [C_leg_day] among them, not the four of the list. *)
Lemma backend_closure_beyond_selection :
  Backend.recorded Backend.afterLegDay = ["C_leg_day"]
  /\ ~ In "C_leg_day" Backend.mandatoryWorkouts
  /\ exists u w',
      fst (Backend.completeAll Backend.mandatoryWorkouts Backend.afterLegDay)
      = [(u, w')]
      /\ (exists archive,
             Backend.archiveItems w' !! 1%Z = Some archive
             /\ Backend.archivedWorkouts archive
                = ["C_leg_day"; "A_push_power"; "A_pull_width"; "B_push_hyp";
                   "B_pull_strength"])
      /\ ~ Backend.closedWith u w'.
Proof.
  split; [vm_compute; reflexivity|].
  split; [simpl; intuition discriminate|].
  destruct (Backend.completeAll Backend.mandatoryWorkouts Backend.afterLegDay)
    as [log final] eqn:Hrun.
  vm_compute in Hrun. injection Hrun as <- _.
  eexists. eexists. split; [reflexivity|]. split.
  - eexists. split; [vm_compute; reflexivity | reflexivity].
  - intros (n & Hn & _ & archive & Harch & Hsame).
    cbn [Backend.newCycleNumber] in Hn.
    assert (n = 1%Z) by (injection Hn; lia). subst n.
    vm_compute in Harch. injection Harch as <-.
    cbn [Backend.archivedWorkouts] in Hsame.
    destruct (proj1 (Hsame "C_leg_day") (or_introl eq_refl))
      as [H | [H | [H | [H | []]]]]; discriminate.
Qed.

Lemma DEFAULT_TEMPLATES_keys_NoDup : List.NoDup (map key DEFAULT_TEMPLATES).
Proof.
  unfold DEFAULT_TEMPLATES. simpl.
  repeat (constructor; [simpl; intuition discriminate|]). constructor.
Qed.

Lemma default_selection :
  ClientCycle.selectedFor DEFAULT_TEMPLATES
    (ClientCycle.defaultIncludeInAnalysis DEFAULT_TEMPLATES)
  = ["A_push_power"; "A_pull_width"; "B_push_hyp"; "B_pull_strength";
     "C_leg_day"; "D_core_circuit"].
Proof. vm_compute. reflexivity. Qed.

(** First use in the browser with the default configuration and the six
    mandatory workouts done in catalog order; an empty table and the four
    keys of the backend list. *)
Lemma cycle_closes_exactly_once_witness :
  (exists d b',
      fst (ClientCycle.completeAll DEFAULT_TEMPLATES
             (ClientCycle.defaultIncludeInAnalysis DEFAULT_TEMPLATES)
             ClientCycle.mandatoryTemplates ClientCycle.firstUse)
      = [(d, b')]
      /\ ClientCycle.closedWith
           (ClientCycle.selectedFor DEFAULT_TEMPLATES
              (ClientCycle.defaultIncludeInAnalysis DEFAULT_TEMPLATES)) d b')
  /\ (exists u w',
         fst (Backend.completeAll Backend.mandatoryWorkouts
                (@Backend.emptyWorld unit unit))
         = [(u, w')]
         /\ Backend.closedWith u w').
Proof.
  split.
  - apply (proj1 cycle_closes_exactly_once).
    + exact DEFAULT_TEMPLATES_keys_NoDup.
    + unfold ClientCycle.mandatoryTemplates, DEFAULT_TEMPLATES.
      repeat (constructor; [simpl; tauto|]). constructor.
    + rewrite default_selection. apply Permutation_refl.
    + rewrite default_selection. discriminate.
    + intros x [].
    + rewrite default_selection. intros H.
      exact (H "A_push_power" (or_introl eq_refl)).
  - destruct (proj2 cycle_closes_exactly_once unit unit
                      Backend.mandatoryWorkouts Backend.emptyWorld)
      as (u & w' & Hlog & _ & _ & Hwith).
    + apply Permutation_refl.
    + intros H. exact (H "A_push_power" (or_introl eq_refl)).
    + exists u, w'. split; [exact Hlog|]. apply Hwith. intros x [].
Defined.

(** C3.  In the browser the default selection is the six mandatory keys of
    the catalog, [C_leg_day] and [D_core_circuit] among them.  The backend
    tests its own list of four: on an empty table, recording the four
    A and B workouts closes the cycle, and the archive of the closed cycle
    holds neither [C_leg_day] nor [D_core_circuit]. *)
Theorem backend_closes_without_C_and_D :
  ClientCycle.selectedFor DEFAULT_TEMPLATES
    (ClientCycle.defaultIncludeInAnalysis DEFAULT_TEMPLATES)
  = mandatoryKeys DEFAULT_TEMPLATES
  /\ In "C_leg_day" (mandatoryKeys DEFAULT_TEMPLATES)
  /\ In "D_core_circuit" (mandatoryKeys DEFAULT_TEMPLATES)
  /\ map (fun closure => Backend.cycleComplete (fst closure))
         (fst (Backend.completeAll
                 ["A_push_power"; "A_pull_width"; "B_push_hyp"; "B_pull_strength"]
                 (@Backend.emptyWorld unit unit)))
     = [true]
  /\ Backend.archiveItems
       (snd (Backend.completeAll
               ["A_push_power"; "A_pull_width"; "B_push_hyp"; "B_pull_strength"]
               (@Backend.emptyWorld unit unit))) !! 1%Z
     = Some (Backend.mkCycleArchive 1
               ["A_push_power"; "A_pull_width"; "B_push_hyp"; "B_pull_strength"])
  /\ Backend.currentCycleItem
       (snd (Backend.completeAll
               ["A_push_power"; "A_pull_width"; "B_push_hyp"; "B_pull_strength"]
               (@Backend.emptyWorld unit unit)))
     = Some (Backend.currentCycle 2).
Proof.
  split; [vm_compute; reflexivity|].
  split; [vm_compute; tauto|].
  split; [vm_compute; tauto|].
  split; [vm_compute; reflexivity|].
  split; vm_compute; reflexivity.
Qed.


Import ClientCycle.

Lemma isIncluded_selected (templates : list WorkoutTemplate)
      (includeInAnalysis : gmap string bool) (t : WorkoutTemplate) :
  List.NoDup (map key templates) -> In t templates ->
  (isIncluded includeInAnalysis t = true
   <-> In (key t) (selectedFor templates includeInAnalysis)).
Proof.
  intros Hnd Hin. split.
  - intros Hinc. apply ClientFacts.eligible_selected. now split.
  - intros Hsel. now apply (ClientFacts.selected_eligible templates includeInAnalysis t).
Qed.

(** Two selections drawn from one catalog are the same array exactly when
    they hold the same keys. *)
Lemma selections_equal_as_sets (templates : list WorkoutTemplate)
      (old new : gmap string bool) :
  List.NoDup (map key templates) ->
  (selectedFor templates old = selectedFor templates new
   <-> forall k, In k (selectedFor templates old) <-> In k (selectedFor templates new)).
Proof.
  intros Hnd. split; [now intros ->|].
  intros Hsame. unfold selectedFor. f_equal.
  apply filter_ext_in. intros t Ht.
  pose proof (isIncluded_selected templates old t Hnd Ht) as Hold.
  pose proof (isIncluded_selected templates new t Hnd Ht) as Hnew.
  specialize (Hsame (key t)).
  destruct (isIncluded old t), (isIncluded new t); try reflexivity; exfalso.
  - assert (true = true) as E by reflexivity. apply Hold, Hsame, Hnew in E. discriminate.
  - assert (true = true) as E by reflexivity. apply Hnew, Hsame, Hold in E. discriminate.
Qed.

(** C4, as stated, fails: changing the selection does not touch the stored
    cycle.  With the two A workouts credited under the default selection
    of six, taking leg day out of the analysis leaves [current_cycle] with
    both credits and the old selection of six, although the selection is
    now the five other keys. *)
Lemma selection_change_keeps_cycle :
  selectedFor DEFAULT_TEMPLATES
    (SelectionChange.includeInAnalysis
       (SelectionChange.toggle DEFAULT_TEMPLATES "C_leg_day" SelectionChange.midCycle))
  = ["A_push_power"; "A_pull_width"; "B_push_hyp"; "B_pull_strength";
     "D_core_circuit"]
  /\ current_cycle
       (SelectionChange.browser
          (SelectionChange.toggle DEFAULT_TEMPLATES "C_leg_day"
                                  SelectionChange.midCycle))
     = Some (mkCycle ["A_push_power"; "A_pull_width"]
                     ["A_push_power"; "A_pull_width"; "B_push_hyp";
                      "B_pull_strength"; "C_leg_day"; "D_core_circuit"])
  /\ cycleProgress
       (SelectionChange.browser
          (SelectionChange.toggle DEFAULT_TEMPLATES "C_leg_day"
                                  SelectionChange.midCycle))
     = ["A_push_power"; "A_pull_width"].
Proof. vm_compute. repeat split. Qed.

(** C4.  The reset is lazy.  A click in the settings leaves the browser as
    it is unless a complete, included workout is on screen.  The stored
    selection is compared with the current one at the next run of the
    effect for a complete and included workout: when they differ by value
    the stored cycle is replaced by one over the current selection whose
    [completed] list is the workout just completed and nothing from
    before (or, when that workout is the whole selection, the cycle closes
    at once); when they are equal, nothing that was completed is dropped
    unless the cycle closes.  Selections drawn from one catalog are equal
    as arrays exactly when they hold the same keys. *)
Theorem selection_change_resets_cycle :
  (forall (templates : list WorkoutTemplate) (workoutKey : string)
          (app : SelectionChange.App),
      SelectionChange.workoutComplete app = false
      \/ isIncluded (Settings.handleToggle workoutKey
                       (SelectionChange.includeInAnalysis app))
                    (SelectionChange.template app) = false ->
      SelectionChange.browser (SelectionChange.toggle templates workoutKey app)
      = SelectionChange.browser app)
  /\ (forall (templates : list WorkoutTemplate) (includeInAnalysis : gmap string bool)
             (t : WorkoutTemplate) (b : Browser) (saved : Cycle),
         In t templates ->
         isIncluded includeInAnalysis t = true ->
         current_cycle b = Some saved ->
         selectedWorkouts saved <> selectedFor templates includeInAnalysis ->
         (~ incl (selectedFor templates includeInAnalysis) [key t] ->
          cycleEffect templates includeInAnalysis true t b
          = (mkBrowser
               (Some (mkCycle [key t] (selectedFor templates includeInAnalysis)))
               (cycle_complete b) [key t],
             None))
         /\ (incl (selectedFor templates includeInAnalysis) [key t] ->
             cycleEffect templates includeInAnalysis true t b
             = (mkBrowser
                  (Some (mkCycle [] (selectedFor templates includeInAnalysis)))
                  (Some (mkCycleData [key t]
                                     (selectedFor templates includeInAnalysis)))
                  [],
                Some (mkCycleData [key t]
                                  (selectedFor templates includeInAnalysis)))))
  /\ (forall (templates : list WorkoutTemplate) (includeInAnalysis : gmap string bool)
             (workoutComplete : bool) (t : WorkoutTemplate) (b : Browser)
             (saved : Cycle),
         current_cycle b = Some saved ->
         selectedWorkouts saved = selectedFor templates includeInAnalysis ->
         snd (cycleEffect templates includeInAnalysis workoutComplete t b) = None ->
         exists c,
           current_cycle
             (fst (cycleEffect templates includeInAnalysis workoutComplete t b))
           = Some c
           /\ selectedWorkouts c = selectedWorkouts saved
           /\ incl (completed saved) (completed c))
  /\ (forall (templates : list WorkoutTemplate) (old new : gmap string bool),
         List.NoDup (map key templates) ->
         (selectedFor templates old = selectedFor templates new
          <-> forall k, In k (selectedFor templates old)
                        <-> In k (selectedFor templates new))).
Proof.
  split; [|split; [|split]].
  - intros templates workoutKey app H. unfold SelectionChange.toggle.
    cbn [SelectionChange.browser]. unfold cycleEffect.
    destruct H as [-> | H]; [reflexivity|].
    rewrite H. now destruct (SelectionChange.workoutComplete app).
  - intros templates inc t b saved Hin Hinc Hsaved Hchanged.
    rewrite (ClientFacts.cycleEffect_included templates inc t b Hinc).
    assert (Hcred : credited (selectedFor templates inc) b = []).
    { unfold credited, workingCycle. rewrite Hsaved.
      now rewrite ClientFacts.resetIfSelectionChanged_changed. }
    rewrite Hcred. change (JS.arrayIncludes [] (key t)) with false.
    cbn [negb]. cbv zeta. change ([] ++ [key t]) with [key t].
    assert (Hsel : In (key t) (selectedFor templates inc)).
    { apply ClientFacts.eligible_selected. now split. }
    assert (Hlen : Nat.ltb 0 (length (selectedFor templates inc)) = true).
    { destruct (selectedFor templates inc); [destruct Hsel | reflexivity]. }
    rewrite Hlen, andb_true_r. split; intros Hfull.
    + apply JSFacts.every_includes_false in Hfull. now rewrite Hfull.
    + apply JSFacts.every_includes_incl in Hfull. now rewrite Hfull.
  - intros templates inc workoutComplete t b saved Hsaved Hsame Hnone.
    assert (Hcred : credited (selectedFor templates inc) b = completed saved).
    { unfold credited, workingCycle. rewrite Hsaved.
      now rewrite ClientFacts.resetIfSelectionChanged_same. }
    destruct workoutComplete;
      [|exists saved; split; [exact Hsaved | split; [reflexivity | apply incl_refl]]].
    destruct (isIncluded inc t) eqn:Hinc.
    + rewrite (ClientFacts.cycleEffect_included templates inc t b Hinc) in *.
      rewrite Hcred in *.
      destruct (JS.arrayIncludes (completed saved) (key t)); cbn [negb] in *;
        [exists saved; split; [exact Hsaved | split; [reflexivity | apply incl_refl]]|].
      match goal with
      | H : snd (if ?c then _ else _) = None |- _ => destruct c
      end; [discriminate|].
      eexists. split; [reflexivity|]. split; [now rewrite Hsame|].
      intros x Hx. apply in_or_app. now left.
    + unfold cycleEffect. rewrite Hinc. cbn [negb fst].
      exists saved. split; [exact Hsaved | split; [reflexivity | apply incl_refl]].
  - exact selections_equal_as_sets.
Qed.

(** The state of the counterexample, then workout B (push) is completed:
    the stored cycle is replaced by one over the five keys that credits
    workout B only. *)
Lemma selection_change_resets_cycle_witness :
  In B_push_hyp DEFAULT_TEMPLATES
  /\ cycleEffect DEFAULT_TEMPLATES
       (Settings.handleToggle "C_leg_day" (defaultIncludeInAnalysis DEFAULT_TEMPLATES))
       true B_push_hyp SelectionChange.twoCredited
     = (mkBrowser
          (Some (mkCycle ["B_push_hyp"]
                         ["A_push_power"; "A_pull_width"; "B_push_hyp";
                          "B_pull_strength"; "D_core_circuit"]))
          None ["B_push_hyp"],
        None).
Proof.
  assert (Hin : In B_push_hyp DEFAULT_TEMPLATES) by (simpl; tauto).
  split; [exact Hin|].
  refine (eq_trans
            (proj1 (proj1 (proj2 selection_change_resets_cycle)
                      DEFAULT_TEMPLATES
                      (Settings.handleToggle "C_leg_day"
                         (defaultIncludeInAnalysis DEFAULT_TEMPLATES))
                      B_push_hyp SelectionChange.twoCredited
                      (mkCycle ["A_push_power"; "A_pull_width"]
                               ["A_push_power"; "A_pull_width"; "B_push_hyp";
                                "B_pull_strength"; "C_leg_day"; "D_core_circuit"])
                      Hin _ _ _) _) _).
  - vm_compute. reflexivity.
  - vm_compute. reflexivity.
  - vm_compute. discriminate.
  - vm_compute. intros H.
    destruct (H "A_push_power" (or_introl eq_refl)) as [E | []]. discriminate.
  - vm_compute. reflexivity.
Defined.


(** C5, as stated, fails when the first of the two completions closes the
    cycle: the key is then no longer recorded, and the second completion
    is credited to the new cycle.  In the browser, with [D_core_circuit]
    the only workout missing; in the backend, with [B_pull_strength] the
    only one missing. *)
Lemma duplicate_after_closure_is_credited :
  (current_cycle
     (fst (cycleEffect DEFAULT_TEMPLATES (defaultIncludeInAnalysis DEFAULT_TEMPLATES)
                       true D_core_circuit lastOneMissing))
   = Some (mkCycle [] (map key mandatoryTemplates))
   /\ current_cycle
        (fst (cycleEffect DEFAULT_TEMPLATES (defaultIncludeInAnalysis DEFAULT_TEMPLATES)
                true D_core_circuit
                (fst (cycleEffect DEFAULT_TEMPLATES
                        (defaultIncludeInAnalysis DEFAULT_TEMPLATES)
                        true D_core_circuit lastOneMissing))))
      = Some (mkCycle ["D_core_circuit"] (map key mandatoryTemplates))
   /\ ~ duplicateIsNoop DEFAULT_TEMPLATES (defaultIncludeInAnalysis DEFAULT_TEMPLATES)
         D_core_circuit lastOneMissing)
  /\ (Backend.recorded
        (snd (Backend.updateCycleProgress "B_pull_strength" Backend.almostClosed))
      = []
      /\ Backend.recorded
           (snd (Backend.updateCycleProgress "B_pull_strength"
                   (snd (Backend.updateCycleProgress "B_pull_strength"
                           Backend.almostClosed))))
         = ["B_pull_strength"]
      /\ ~ Backend.duplicateIsNoop "B_pull_strength" Backend.almostClosed).
Proof.
  split; (split; [vm_compute; reflexivity|]); (split; [vm_compute; reflexivity|]).
  - unfold duplicateIsNoop. vm_compute. discriminate.
  - unfold Backend.duplicateIsNoop. vm_compute. discriminate.
Qed.

(** C5, amended.  A completion for a key that is already recorded in the
    open cycle changes nothing and closes nothing: in the browser when the
    stored selection is the current one, in the backend always.  Hence,
    when a completion has not closed the cycle, completing the same
    template again changes nothing and closes nothing. *)
Theorem recorded_completion_is_noop :
  (forall (templates : list WorkoutTemplate) (includeInAnalysis : gmap string bool)
          (workoutComplete : bool) (t : WorkoutTemplate) (b : Browser)
          (saved : Cycle),
      current_cycle b = Some saved ->
      selectedWorkouts saved = selectedFor templates includeInAnalysis ->
      In (key t) (completed saved) ->
      cycleEffect templates includeInAnalysis workoutComplete t b = (b, None))
  /\ (forall (templates : list WorkoutTemplate) (includeInAnalysis : gmap string bool)
             (workoutComplete : bool) (t : WorkoutTemplate) (b : Browser),
         snd (cycleEffect templates includeInAnalysis workoutComplete t b) = None ->
         cycleEffect templates includeInAnalysis workoutComplete t
                     (fst (cycleEffect templates includeInAnalysis workoutComplete t b))
         = (fst (cycleEffect templates includeInAnalysis workoutComplete t b), None))
  /\ (forall (AnalysisT Suggestions : Type) (templateKey : string)
             (w : Backend.World AnalysisT Suggestions)
             (current : Backend.CurrentCycle),
         Backend.currentCycleItem w = Some current ->
         In templateKey (Backend.completedWorkouts current) ->
         Backend.updateCycleProgress templateKey w
         = (Return (Backend.mkCycleUpdate false None), w))
  /\ (forall (AnalysisT Suggestions : Type) (templateKey : string)
             (w : Backend.World AnalysisT Suggestions),
         fst (Backend.updateCycleProgress templateKey w)
         = Return (Backend.mkCycleUpdate false None) ->
         Backend.updateCycleProgress templateKey
           (snd (Backend.updateCycleProgress templateKey w))
         = (Return (Backend.mkCycleUpdate false None),
            snd (Backend.updateCycleProgress templateKey w))).
Proof.
  split; [|split; [|split]].
  - intros templates inc wc t b saved Hsaved Hsel Hk.
    destruct wc; [|reflexivity].
    destruct (isIncluded inc t) eqn:Hinc.
    + rewrite (ClientFacts.cycleEffect_included templates inc t b Hinc).
      unfold credited, workingCycle. rewrite Hsaved.
      rewrite (ClientFacts.resetIfSelectionChanged_same _ _ Hsel).
      apply JSFacts.arrayIncludes_In in Hk. now rewrite Hk.
    + unfold cycleEffect. now rewrite Hinc.
  - intros templates inc wc t b.
    destruct wc; [|reflexivity].
    destruct (isIncluded inc t) eqn:Hinc.
    + rewrite (ClientFacts.cycleEffect_included templates inc t b Hinc).
      destruct (JS.arrayIncludes (credited (selectedFor templates inc) b) (key t))
        eqn:Hk; simpl.
      * intros _. rewrite (ClientFacts.cycleEffect_included templates inc t b Hinc).
        now rewrite Hk.
      * match goal with |- context [if ?c then _ else _] => destruct c end;
          simpl; [discriminate|]. intros _.
        rewrite (ClientFacts.cycleEffect_included templates inc t _ Hinc).
        rewrite ClientFacts.credited_saved.
        assert (Hin : JS.arrayIncludes
                        (credited (selectedFor templates inc) b ++ [key t]) (key t)
                      = true).
        { apply JSFacts.arrayIncludes_In, in_or_app. right. now left. }
        now rewrite Hin.
    + unfold cycleEffect. now rewrite Hinc.
  - intros A S k w current Hcur Hk.
    apply BackendFacts.updateCycleProgress_known.
    unfold Backend.recorded. now rewrite Hcur.
  - intros A S k w.
    destruct (in_dec string_dec k (Backend.recorded w)) as [Hk | Hk].
    + rewrite (BackendFacts.updateCycleProgress_known k w Hk). simpl. intros _.
      exact (BackendFacts.updateCycleProgress_known k w Hk).
    + destruct (ListDec.incl_dec string_dec Backend.mandatoryWorkouts
                                 (Backend.recorded w ++ [k])) as [Hfull | Hfull].
      * rewrite (BackendFacts.updateCycleProgress_close k w Hk Hfull). simpl.
        discriminate.
      * rewrite (BackendFacts.updateCycleProgress_credit k w Hk Hfull). simpl.
        intros _. apply BackendFacts.updateCycleProgress_known.
        unfold Backend.recorded. simpl. apply in_or_app. right. now left.
Qed.

(** The workout that was completed last is completed again. *)
Lemma recorded_completion_is_noop_witness :
  current_cycle lastOneMissing
  = Some (mkCycle ["A_push_power"; "A_pull_width"; "B_push_hyp";
                   "B_pull_strength"; "C_leg_day"]
                  (map key mandatoryTemplates))
  /\ cycleEffect DEFAULT_TEMPLATES (defaultIncludeInAnalysis DEFAULT_TEMPLATES)
                 true C_leg_day lastOneMissing
     = (lastOneMissing, None).
Proof.
  split; [reflexivity|].
  apply (proj1 recorded_completion_is_noop DEFAULT_TEMPLATES
               (defaultIncludeInAnalysis DEFAULT_TEMPLATES) true C_leg_day
               lastOneMissing
               (mkCycle ["A_push_power"; "A_pull_width"; "B_push_hyp";
                         "B_pull_strength"; "C_leg_day"]
                        (map key mandatoryTemplates))).
  - reflexivity.
  - vm_compute. reflexivity.
  - simpl. tauto.
Defined.

(** C6, as stated, fails in the backend: [saveWorkout] records the key of
    every workout that is not flagged optional, without a membership test.
    On an empty table, a save for the optional core routine, or for leg
    day, leaves a recorded key that is not in the mandatory list. *)
Lemma backend_records_unselected_keys :
  Backend.cycleInvariant (@Backend.emptyWorld unit unit)
  /\ Backend.recorded
       (snd (Backend.postWorkouts Backend.noRecommendations Backend.noAnalysis
               (Backend.plainRequest "optional_core_activation")
               Backend.emptyWorld))
     = ["optional_core_activation"]
  /\ ~ Backend.cycleInvariant
        (snd (Backend.postWorkouts Backend.noRecommendations Backend.noAnalysis
                (Backend.plainRequest "optional_core_activation")
                Backend.emptyWorld))
  /\ ~ Backend.cycleInvariant
        (snd (Backend.postWorkouts Backend.noRecommendations Backend.noAnalysis
                (Backend.plainRequest "C_leg_day") Backend.emptyWorld)).
Proof.
  split; [intros x []|]. split; [vm_compute; reflexivity|].
  split; intros H.
  - specialize (H "optional_core_activation" (or_introl eq_refl)).
    vm_compute in H. intuition discriminate.
  - specialize (H "C_leg_day" (or_introl eq_refl)).
    vm_compute in H. intuition discriminate.
Qed.

(** C6, amended.  In the browser the saved cycle satisfies
    [completed ⊆ selectedWorkouts] at first use, and every run of the
    effect preserves it: for any configuration, whether or not the
    workout is complete, with or without a selection change, with or
    without a closure. *)
Theorem client_cycle_invariant :
  cycleInvariant firstUse
  /\ (forall (templates : list WorkoutTemplate) (includeInAnalysis : gmap string bool)
             (workoutComplete : bool) (t : WorkoutTemplate) (b : Browser),
         In t templates ->
         cycleInvariant b ->
         cycleInvariant
           (fst (cycleEffect templates includeInAnalysis workoutComplete t b))).
Proof.
  split; [exact I|].
  intros templates inc wc t b. apply ClientFacts.cycleEffect_invariant.
Qed.

(** Workout D is completed after workouts C and D have been taken out of
    the analysis: the stored cycle is left as it is. *)
Lemma client_cycle_invariant_witness :
  In D_core_circuit DEFAULT_TEMPLATES
  /\ cycleInvariant lastOneMissing
  /\ cycleInvariant
       (fst (cycleEffect DEFAULT_TEMPLATES withoutCD true D_core_circuit
                         lastOneMissing)).
Proof.
  assert (Hin : In D_core_circuit DEFAULT_TEMPLATES) by (simpl; tauto).
  assert (Hinv : cycleInvariant lastOneMissing).
  { intros x Hx. simpl in *. tauto. }
  split; [exact Hin|]. split; [exact Hinv|].
  exact (proj2 client_cycle_invariant DEFAULT_TEMPLATES withoutCD true
               D_core_circuit lastOneMissing Hin Hinv).
Defined.

End CycleClaims.

(** ** The rest timer *)

Module TimerFacts.
Import Timer.

Lemma ticks_stopped (k : nat) (s : Z) :
  ticks k (mkTimer s false) = (mkTimer s false, []).
Proof.
  induction k as [|k IH]; [reflexivity|].
  simpl. unfold tick. simpl. now rewrite IH.
Qed.

Lemma ticks_S (k : nat) (t : TimerState) :
  fst (ticks (S k) t) = fst (ticks k (fst (tick t))).
Proof.
  cbn [ticks]. destruct (tick t) as [t' beep]. cbn [fst].
  destruct (ticks k t'). reflexivity.
Qed.

Lemma tick_last : tick (mkTimer 1 true) = (mkTimer 0 false, Some finalBeep).
Proof. reflexivity. Qed.

Lemma tick_more (s : Z) :
  (2 <= s)%Z -> fst (tick (mkTimer s true)) = mkTimer (s - 1) true.
Proof.
  intros Hs. unfold tick. cbn [isRunning seconds].
  replace (Z.max 0 (s - 1)) with (s - 1)%Z by lia.
  assert (Hnz : (s - 1 =? 0)%Z = false) by (apply Z.eqb_neq; lia).
  rewrite Hnz. now destruct ((s - 1 <=? 5) && (0 <? s - 1))%Z.
Qed.

Lemma ticks_running (k : nat) :
  forall s : Z,
    (1 <= s)%Z ->
    fst (ticks k (mkTimer s true))
    = mkTimer (Z.max 0 (s - Z.of_nat k)) (Z.of_nat k <? s)%Z.
Proof.
  induction k as [|k IH]; intros s Hs.
  - simpl. f_equal; [lia|]. symmetry. apply Z.ltb_lt. lia.
  - rewrite ticks_S, Nat2Z.inj_succ.
    destruct (Z.eq_dec s 1%Z) as [-> | Hne].
    + rewrite tick_last. cbn [fst]. rewrite ticks_stopped. cbn [fst].
      f_equal; [lia|]. symmetry. apply Z.ltb_ge. lia.
    + rewrite tick_more by lia. rewrite IH by lia.
      f_equal; [f_equal; lia|].
      destruct (Z.ltb_spec (Z.of_nat k) (s - 1));
        destruct (Z.ltb_spec (Z.succ (Z.of_nat k)) s); try reflexivity; lia.
Qed.

(** X1.  A timer started with [sec >= 1] seconds counts down by one per
    tick, is still running before the [sec]-th tick, and after it shows 0
    and has stopped for good. *)
Theorem timer_counts_down (sec : Z) (before : TimerState) (k : nat) :
  (1 <= sec)%Z ->
  fst (ticks k (startTimer sec before))
  = mkTimer (Z.max 0 (sec - Z.of_nat k)) (Z.of_nat k <? sec)%Z.
Proof. intros H. unfold startTimer. now apply ticks_running. Qed.

Lemma timer_counts_down_witness :
  (1 <= 90)%Z
  /\ fst (ticks 90 (startTimer 90 initial)) = mkTimer 0 false
  /\ fst (ticks 60 (startTimer 90 initial)) = mkTimer 30 true.
Proof.
  split; [lia|]. split.
  - rewrite (timer_counts_down 90 initial 90) by lia. reflexivity.
  - rewrite (timer_counts_down 90 initial 60) by lia. reflexivity.
Defined.

Lemma tick_at_zero (s : Z) :
  (s <= 0)%Z -> tick (mkTimer s true) = (mkTimer 0 true, None).
Proof.
  intros Hs. unfold tick. cbn [isRunning seconds].
  destruct (Z.ltb_spec 0 (s - 1)); [lia|]. rewrite andb_false_r.
  destruct (Z.eqb_spec (s - 1) 0); [lia|]. f_equal. f_equal. lia.
Qed.

Lemma ticks_at_zero (k : nat) :
  ticks k (mkTimer 0 true) = (mkTimer 0 true, []).
Proof.
  induction k as [|k IH]; [reflexivity|].
  cbn [ticks]. rewrite (tick_at_zero 0 ltac:(lia)). now rewrite IH.
Qed.

(** X2.  A timer that is running with no time left never stops by itself
    and never beeps: the test for the end of the countdown is
    [newSeconds === 0], and the next value is below zero.  This is the
    state after [resumeTimer] on a finished timer and after
    [startTimer(0)]. *)
Theorem timer_at_zero_keeps_running (s : Z) (k : nat) :
  (s <= 0)%Z ->
  ticks (S k) (mkTimer s true) = (mkTimer 0 true, []).
Proof.
  intros Hs. cbn [ticks]. rewrite (tick_at_zero s Hs).
  now rewrite ticks_at_zero.
Qed.

Lemma timer_at_zero_keeps_running_witness :
  (0 <= 0)%Z
  /\ resumeTimer (fst (ticks 90 (startTimer 90 initial))) = mkTimer 0 true
  /\ ticks 1000 (mkTimer 0 true) = (mkTimer 0 true, []).
Proof.
  split; [lia|]. split; [vm_compute; reflexivity|].
  exact (timer_at_zero_keeps_running 0 999 ltac:(lia)).
Defined.

End TimerFacts.

(** ** Session operations *)

Module SessionOpsFacts.
Import Catalog Classifier Session SessionOps.

Lemma assign_lookup (sets : list SetData) (i : nat) (data : SetData) :
  assign sets i data !! i = Some data.
Proof.
  revert sets. induction i as [|i IH]; intros [|s sets]; simpl; auto.
Qed.

Lemma assign_lookup_ne (sets : list SetData) (i j : nat) (data : SetData) :
  j <> i -> (j < length sets)%nat -> assign sets i data !! j = sets !! j.
Proof.
  revert sets j. induction i as [|i IH].
  - intros [|s sets] [|j] Hne Hlt; simpl in *; try lia; reflexivity.
  - intros [|s sets] [|j] Hne Hlt; simpl in *; try lia; try reflexivity.
    apply IH; lia.
Qed.

Lemma assign_length (sets : list SetData) (i : nat) (data : SetData) :
  length (assign sets i data) = Nat.max (length sets) (S i).
Proof.
  revert sets. induction i as [|i IH]; intros [|s sets]; cbn [assign length];
    rewrite ?IH; cbn [length]; lia.
Qed.

(** X3.  [updateSet] writes one set and nothing else: afterwards the set at
    the given index of the given exercise is the new record, the other sets
    of that exercise and all other exercises are as before, and the array
    has grown only if the index was past its end. *)
Theorem updateSet_writes_one_set
        (template : WorkoutTemplate) (exerciseName : string) (setIndex : nat)
        (data : SetData) (workoutData : gmap string (list SetData))
        (timer : Timer.TimerState) :
  default [] (fst (updateSet template exerciseName setIndex data workoutData timer)
              !! exerciseName) !! setIndex = Some data
  /\ (forall j : nat,
         j <> setIndex ->
         (j < length (default [] (workoutData !! exerciseName)))%nat ->
         default [] (fst (updateSet template exerciseName setIndex data
                                    workoutData timer) !! exerciseName) !! j
         = default [] (workoutData !! exerciseName) !! j)
  /\ length (default [] (fst (updateSet template exerciseName setIndex data
                                        workoutData timer) !! exerciseName))
     = Nat.max (length (default [] (workoutData !! exerciseName))) (S setIndex)
  /\ (forall other : string,
         other <> exerciseName ->
         fst (updateSet template exerciseName setIndex data workoutData timer)
         !! other = workoutData !! other).
Proof.
  unfold updateSet. cbn [fst]. rewrite lookup_insert_eq. cbn [default].
  split; [apply assign_lookup|].
  split; [intros j Hne Hlt; now apply assign_lookup_ne|].
  split; [apply assign_length|].
  intros other Hne. now apply lookup_insert_ne.
Qed.

Lemma find_named (exs : list Exercise) (exerciseName : string) :
  In exerciseName (map name exs) ->
  exists ex,
    List.find (fun e => String.eqb (name e) exerciseName) exs = Some ex
    /\ In ex exs /\ name ex = exerciseName.
Proof.
  induction exs as [|e exs IH]; simpl; [tauto|].
  destruct (String.eqb_spec (name e) exerciseName) as [Heq | Hne].
  - intros _. exists e. auto.
  - intros [H | H]; [contradiction|].
    destruct (IH H) as (ex & Hfind & Hin & Hname). exists ex. auto.
Qed.

Lemma find_named_unique (exs : list Exercise) (ex : Exercise) :
  List.NoDup (map name exs) -> In ex exs ->
  List.find (fun e => String.eqb (name e) (name ex)) exs = Some ex.
Proof.
  induction exs as [|e exs IH]; simpl; [tauto|].
  intros Hnd Hin. apply List.NoDup_cons_iff in Hnd as [Hfresh Hnd].
  destruct Hin as [-> | Hin]; [now rewrite String.eqb_refl|].
  destruct (String.eqb_spec (name e) (name ex)) as [Heq | Hne]; [|now apply IH].
  exfalso. apply Hfresh. rewrite Heq. now apply in_map.
Qed.

(** X4.  [updateSet] starts the rest timer when the record has both weight
    and reps, no timer is running and the exercise is one of the active
    template: the timer then runs for the rest time of the exercise of
    that name (the first one, so the only one when names are distinct),
    or for 90 seconds when that rest time is 0.  In every other case the
    timer is left as it is: a record without weight or without reps, such
    as a duration-only set, never starts it, a running timer is never
    restarted, and an exercise outside the template starts nothing. *)
Theorem updateSet_timer
        (template : WorkoutTemplate) (exerciseName : string) (setIndex : nat)
        (data : SetData) (workoutData : gmap string (list SetData))
        (timer : Timer.TimerState) :
  (JS.truthy (weight data) = true ->
   JS.truthy (reps data) = true ->
   Timer.isRunning timer = false ->
   In exerciseName (map name (exercises template)) ->
   exists ex,
     In ex (exercises template)
     /\ name ex = exerciseName
     /\ snd (updateSet template exerciseName setIndex data workoutData timer)
        = Timer.mkTimer (Z.of_nat (restTimeOr90 ex)) true
     /\ (1 <= restTimeOr90 ex)%nat
     /\ (restTimeOr90 ex = restTime ex
         \/ (restTime ex = 0%nat /\ restTimeOr90 ex = 90%nat)))
  /\ (forall ex,
         JS.truthy (weight data) = true ->
         JS.truthy (reps data) = true ->
         Timer.isRunning timer = false ->
         List.NoDup (map name (exercises template)) ->
         In ex (exercises template) ->
         snd (updateSet template (name ex) setIndex data workoutData timer)
         = Timer.mkTimer (Z.of_nat (restTimeOr90 ex)) true)
  /\ (JS.truthy (weight data) && JS.truthy (reps data) = false ->
      snd (updateSet template exerciseName setIndex data workoutData timer) = timer)
  /\ (Timer.isRunning timer = true ->
      snd (updateSet template exerciseName setIndex data workoutData timer) = timer)
  /\ (~ In exerciseName (map name (exercises template)) ->
      snd (updateSet template exerciseName setIndex data workoutData timer) = timer).
Proof.
  unfold updateSet. cbn [snd]. split; [|split; [|split; [|split]]].
  - intros Hw Hr Hrun Hin. rewrite Hw, Hr, Hrun. cbn [andb negb].
    destruct (find_named _ _ Hin) as (ex & Hfind & Hex & Hname).
    rewrite Hfind. exists ex. split; [assumption|]. split; [assumption|].
    split; [reflexivity|].
    unfold restTimeOr90. destruct (Nat.eqb_spec (restTime ex) 0); lia.
  - intros ex Hw Hr Hrun Hnd Hin. rewrite Hw, Hr, Hrun. cbn [andb negb].
    now rewrite (find_named_unique _ _ Hnd Hin).
  - intros ->. reflexivity.
  - intros ->. now rewrite andb_false_r.
  - intros Hout.
    destruct (List.find _ (exercises template)) as [ex|] eqn:Hfind.
    + exfalso. apply Hout. apply find_some in Hfind as [Hin Hname].
      apply String.eqb_eq in Hname. rewrite <- Hname. now apply in_map.
    + now destruct (_ && _).
Qed.

(** The first set of the bench press, 225 for 5, with no timer running:
    the timer starts with the 120 seconds of rest of that exercise. *)
Lemma updateSet_timer_witness :
  List.NoDup (map name (exercises A_push_power))
  /\ In (mkExercise "Barbell Bench Press" 4 "5" 120) (exercises A_push_power)
  /\ snd (updateSet A_push_power "Barbell Bench Press" 0
                    (mkSet (JS.Str "225") (JS.Str "5") JS.Undefined (JS.Str ""))
                    ∅ Timer.initial)
     = Timer.mkTimer 120 true.
Proof.
  assert (Hnd : List.NoDup (map name (exercises A_push_power))).
  { simpl. repeat (constructor; [simpl; intuition discriminate|]). constructor. }
  assert (Hin : In (mkExercise "Barbell Bench Press" 4 "5" 120)
                   (exercises A_push_power)) by (simpl; tauto).
  split; [exact Hnd|]. split; [exact Hin|].
  exact (proj1 (proj2 (updateSet_timer A_push_power "" 0
                         (mkSet (JS.Str "225") (JS.Str "5") JS.Undefined (JS.Str ""))
                         ∅ Timer.initial))
               (mkExercise "Barbell Bench Press" 4 "5" 120)
               eq_refl eq_refl eq_refl Hnd Hin).
Defined.

Lemma skipExercise_In (exerciseName : string) (skipped : list string) :
  In exerciseName (skipExercise exerciseName skipped).
Proof.
  unfold skipExercise.
  destruct (JS.arrayIncludes skipped exerciseName) eqn:Hin.
  - now apply JSFacts.arrayIncludes_In.
  - apply in_or_app. right. now left.
Qed.

Lemma skipExercise_mono (exerciseName other : string) (skipped : list string) :
  In other skipped -> In other (skipExercise exerciseName skipped).
Proof.
  unfold skipExercise. intros H.
  destruct (JS.arrayIncludes skipped exerciseName); [assumption|].
  apply in_or_app. now left.
Qed.

(** X5.  [skipExercise] is idempotent: the exercise is in the list after
    one call, a second call changes nothing, nothing is removed, and a list
    without duplicates stays without duplicates. *)
Theorem skipExercise_idempotent (exerciseName : string) (skipped : list string) :
  In exerciseName (skipExercise exerciseName skipped)
  /\ skipExercise exerciseName (skipExercise exerciseName skipped)
     = skipExercise exerciseName skipped
  /\ (forall other, In other skipped -> In other (skipExercise exerciseName skipped))
  /\ (List.NoDup skipped -> List.NoDup (skipExercise exerciseName skipped)).
Proof.
  split; [apply skipExercise_In|].
  split; [|split; [intros other; apply skipExercise_mono|]].
  - pose proof (skipExercise_In exerciseName skipped) as Hin.
    apply JSFacts.arrayIncludes_In in Hin.
    unfold skipExercise at 1. now rewrite Hin.
  - unfold skipExercise.
    destruct (JS.arrayIncludes skipped exerciseName) eqn:Hin; [tauto|].
    apply JSFacts.arrayIncludes_false in Hin.
    intros Hnd. apply List.NoDup_app; [assumption | repeat constructor; simpl; tauto |].
    intros x Hx [<- | []]. contradiction.
Qed.

Lemma skip_all_skipped (exs : list Exercise) :
  forall s,
    workoutData (fold_left (fun s ex => skip (name ex) s) exs s) = workoutData s
    /\ exerciseRPEs (fold_left (fun s ex => skip (name ex) s) exs s) = exerciseRPEs s
    /\ (forall n, In n (skippedExercises s) ->
                  In n (skippedExercises (fold_left (fun s ex => skip (name ex) s) exs s)))
    /\ (forall ex, In ex exs ->
                   In (name ex)
                      (skippedExercises (fold_left (fun s ex => skip (name ex) s) exs s))).
Proof.
  induction exs as [|e exs IH]; intros s; simpl.
  - repeat split; auto. intros ex [].
  - destruct (IH (skip (name e) s)) as (Hd & Hr & Hkeep & Hall).
    pose proof (skipExercise_In (name e) (skippedExercises s)) as Hin.
    pose proof (fun other => skipExercise_mono (name e) other (skippedExercises s))
      as Hmono.
    split; [exact Hd|]. split; [exact Hr|]. split.
    + intros n Hn. apply Hkeep. unfold skip. cbn [skippedExercises].
      apply Hmono. exact Hn.
    + intros ex [<- | Hex]; [|now apply Hall]. apply Hkeep.
      unfold skip. cbn [skippedExercises]. exact Hin.
Qed.

(** X6.  Skipping never undoes completion, and a session in which every
    exercise of the template has been skipped is complete whatever was
    entered. *)
Theorem skipping_completes (template : WorkoutTemplate) (s : SessionState) :
  (forall exerciseName,
      workoutComplete template s = true ->
      workoutComplete template (skip exerciseName s) = true)
  /\ workoutComplete template
       (fold_left (fun s ex => skip (name ex) s) (exercises template) s) = true.
Proof.
  split.
  - intros exerciseName H. apply SessionFacts.workoutComplete_iff.
    intros ex Hex. apply SessionFacts.workoutComplete_iff with (ex := ex) in H; auto.
    pose proof (fun other => skipExercise_mono exerciseName other (skippedExercises s))
      as Hmono.
    unfold skip, setsOf, rpeOf in *. cbn [workoutData exerciseRPEs skippedExercises] in *.
    destruct H as [[H | H] [H' | H']]; split; auto.
  - apply SessionFacts.workoutComplete_iff. intros ex Hex.
    destruct (skip_all_skipped (exercises template) s) as (_ & _ & _ & Hall).
    split; right; now apply Hall.
Qed.

Lemma skipping_completes_witness :
  workoutComplete optional_core_activation coreSession = false
  /\ workoutComplete optional_core_activation
       (skip "Mountain Climbers" (skip "Wall Sit" (skip "Plank" coreSession))) = true
  /\ workoutComplete optional_core_activation
       (skip "Dead Bug"
          (skip "Mountain Climbers" (skip "Wall Sit" (skip "Plank" coreSession))))
     = true.
Proof.
  assert (H : workoutComplete optional_core_activation
                (skip "Mountain Climbers" (skip "Wall Sit" (skip "Plank" coreSession)))
              = true) by (vm_compute; reflexivity).
  split; [vm_compute; reflexivity|]. split; [exact H|].
  exact (proj1 (skipping_completes optional_core_activation _) "Dead Bug" H).
Defined.

End SessionOpsFacts.

(** ** Initialising a session and filling in the bodyweight *)

Module SessionInitFacts.
Import Catalog Classifier Session SessionOps.

Section Init.
Variable bodyweight : JS.value.
Variable workoutData : gmap string (list SetData).

Lemma initFold_sound (exs : list Exercise) :
  forall acc n l,
    fold_left (initStep bodyweight workoutData) exs acc !! n = Some l ->
    acc !! n = Some l
    \/ (workoutData !! n = None
        /\ exists ex, In ex exs /\ name ex = n
                      /\ l = repeat (blankSet n bodyweight) (sets ex)).
Proof.
  induction exs as [|e exs IH]; intros acc n l H; simpl in H; [now left|].
  apply IH in H as [H | (Hnone & ex & Hin & Hname & Hl)].
  - unfold initStep in H. destruct (workoutData !! name e) eqn:He; [now left|].
    destruct (decide (name e = n)) as [<- | Hne].
    + rewrite lookup_insert_eq in H. injection H as <-.
      right. split; [assumption|]. exists e. simpl. auto.
    + rewrite lookup_insert_ne in H by assumption. now left.
  - right. split; [assumption|]. exists ex. simpl. auto.
Qed.

Lemma initFold_keeps (exs : list Exercise) :
  forall acc n, is_Some (acc !! n) -> is_Some (fold_left (initStep bodyweight workoutData) exs acc !! n).
Proof.
  induction exs as [|e exs IH]; intros acc n H; simpl; [assumption|].
  apply IH. unfold initStep. destruct (workoutData !! name e); [assumption|].
  destruct (decide (name e = n)) as [<- | Hne].
  - rewrite lookup_insert_eq. eauto.
  - now rewrite lookup_insert_ne.
Qed.

Lemma initFold_complete (exs : list Exercise) :
  forall acc ex,
    In ex exs -> workoutData !! name ex = None ->
    is_Some (fold_left (initStep bodyweight workoutData) exs acc !! name ex).
Proof.
  induction exs as [|e exs IH]; intros acc ex Hin Hnone; [destruct Hin|].
  destruct Hin as [<- | Hin]; simpl.
  - apply initFold_keeps. unfold initStep. rewrite Hnone.
    rewrite lookup_insert_eq. eauto.
  - now apply IH.
Qed.

Lemma initWorkoutData_union (template : WorkoutTemplate) :
  initWorkoutData template bodyweight workoutData
  = initData template bodyweight workoutData ∪ workoutData.
Proof.
  unfold initWorkoutData.
  destruct (Nat.ltb_spec 0 (size (initData template bodyweight workoutData)));
    [reflexivity|].
  assert (Hempty : initData template bodyweight workoutData = ∅).
  { apply map_size_empty_inv. lia. }
  rewrite Hempty. now rewrite (left_id_L ∅ (∪)).
Qed.

Lemma initWorkoutData_keeps (template : WorkoutTemplate) (n : string)
      (l : list SetData) :
  workoutData !! n = Some l ->
  initWorkoutData template bodyweight workoutData !! n = Some l.
Proof.
  rewrite initWorkoutData_union. unfold initData. intros Hl.
  destruct (fold_left (initStep bodyweight workoutData) (exercises template) ∅ !! n) as [l'|] eqn:Hfresh.
  - apply initFold_sound in Hfresh as [H | (Hnone & _)].
    + now rewrite lookup_empty in H.
    + congruence.
  - now rewrite lookup_union_r.
Qed.

(** X7.  The initialisation effect keeps every entry that [workoutData]
    already has, whichever template it was created for, and gives every
    exercise of the template that has none an array of empty records, as
    many as an exercise of that name has sets; no other key is added. *)
Theorem initWorkoutData_keeps_entries (template : WorkoutTemplate) :
  (forall n l,
      workoutData !! n = Some l ->
      initWorkoutData template bodyweight workoutData !! n = Some l)
  /\ (forall ex,
         In ex (exercises template) ->
         workoutData !! name ex = None ->
         exists ex',
           In ex' (exercises template) /\ name ex' = name ex
           /\ initWorkoutData template bodyweight workoutData !! name ex
              = Some (repeat (blankSet (name ex) bodyweight) (sets ex')))
  /\ (forall n,
         workoutData !! n = None ->
         (forall ex, In ex (exercises template) -> name ex <> n) ->
         initWorkoutData template bodyweight workoutData !! n = None).
Proof.
  split; [intros n l; apply initWorkoutData_keeps|].
  rewrite initWorkoutData_union. unfold initData.
  split.
  - intros ex Hin Hnone.
    destruct (initFold_complete (exercises template) ∅ ex Hin Hnone) as [l Hl].
    pose proof Hl as Hl'.
    apply initFold_sound in Hl' as [H | (_ & ex' & Hin' & Hname & ->)].
    + now rewrite lookup_empty in H.
    + exists ex'. split; [assumption|]. split; [assumption|].
      now apply lookup_union_Some_l.
  - intros n Hnone Hnot. apply lookup_union_None. split; [|assumption].
    destruct (fold_left (initStep bodyweight workoutData) (exercises template) ∅ !! n) as [l|] eqn:Hfresh;
      [|reflexivity].
    apply initFold_sound in Hfresh as [H | (_ & ex & Hin & Hname & _)].
    + now rewrite lookup_empty in H.
    + exfalso. exact (Hnot ex Hin Hname).
Qed.

Lemma completedSets_le_length (l : list SetData) :
  (completedSets l <= length l)%nat.
Proof. unfold completedSets. apply filter_length_le. Qed.

(** X8.  An entry left over from another template is not resized: when an
    exercise of the new template already has data with fewer records than
    its [sets], the workout cannot become complete unless that exercise is
    skipped. *)
Theorem stale_entry_blocks_completion
        (template : WorkoutTemplate) (ex : Exercise) (l : list SetData)
        (rpes : gmap string JS.value) (skipped : list string) :
  In ex (exercises template) ->
  workoutData !! name ex = Some l ->
  (length l < sets ex)%nat ->
  ~ In (name ex) skipped ->
  workoutComplete template
    (mkSession (initWorkoutData template bodyweight workoutData) rpes skipped)
  = false.
Proof.
  intros Hin Hl Hshort Hskip.
  destruct (workoutComplete template _) eqn:Hdone; [|reflexivity].
  exfalso. apply SessionFacts.workoutComplete_iff with (ex := ex) in Hdone; auto.
  destruct Hdone as [[Hcount | Hs] _]; [|contradiction].
  unfold setsOf in Hcount. cbn [Session.workoutData] in Hcount.
  rewrite (initWorkoutData_keeps template _ _ Hl) in Hcount.
  simpl in Hcount. pose proof (completedSets_le_length l). lia.
Qed.

End Init.

(** Workout B (push) is opened first, then leg day: both have Kettlebell
    Swings, with 3 and with 4 sets. *)
Lemma stale_entry_blocks_completion_witness :
  In (mkExercise "Kettlebell Swings" 4 "15-20" 90) (exercises C_leg_day)
  /\ initWorkoutData B_push_hyp (JS.Str "") ∅ !! "Kettlebell Swings"
     = Some (repeat (blankSet "Kettlebell Swings" (JS.Str "")) 3)
  /\ workoutComplete C_leg_day
       (mkSession (initWorkoutData C_leg_day (JS.Str "")
                                   (initWorkoutData B_push_hyp (JS.Str "") ∅))
                  ∅ ["Barbell Back Squat"])
     = false.
Proof.
  assert (Hin : In (mkExercise "Kettlebell Swings" 4 "15-20" 90) (exercises C_leg_day))
    by (simpl; tauto).
  assert (Hl : initWorkoutData B_push_hyp (JS.Str "") ∅ !! "Kettlebell Swings"
               = Some (repeat (blankSet "Kettlebell Swings" (JS.Str "")) 3))
    by (vm_compute; reflexivity).
  split; [exact Hin|]. split; [exact Hl|].
  apply (stale_entry_blocks_completion (JS.Str "")
           (initWorkoutData B_push_hyp (JS.Str "") ∅) C_leg_day
           (mkExercise "Kettlebell Swings" 4 "15-20" 90)
           (repeat (blankSet "Kettlebell Swings" (JS.Str "")) 3)
           ∅ ["Barbell Back Squat"] Hin Hl).
  - simpl. lia.
  - simpl. intuition discriminate.
Defined.

End SessionInitFacts.

(** ** The bodyweight effect, the default rest time and the summary count *)

Module SessionFillFacts.
Import Catalog Classifier Session SessionOps.

(** X9.  The empty records of a new session never count as completed
    sets, for any tracking type and any bodyweight value: a session that
    was just initialised has no completed set in any exercise it
    allocated. *)
Theorem fresh_sets_are_incomplete
        (template : WorkoutTemplate) (bodyweight : JS.value)
        (workoutData : gmap string (list SetData)) (n : string) :
  workoutData !! n = None ->
  completedSets (default [] (initWorkoutData template bodyweight workoutData !! n))
  = 0%nat.
Proof.
  intros Hnone.
  destruct (initWorkoutData template bodyweight workoutData !! n) as [l|] eqn:Hl;
    [|reflexivity].
  rewrite SessionInitFacts.initWorkoutData_union in Hl.
  apply lookup_union_Some_raw in Hl as [Hl | [_ Hl]]; [|congruence].
  unfold initData in Hl.
  apply SessionInitFacts.initFold_sound in Hl as [H | (_ & ex & _ & _ & ->)].
  - now rewrite lookup_empty in H.
  - cbn [default]. unfold completedSets.
    assert (Hblank : JS.truthy (weight (blankSet n bodyweight))
                     && JS.truthy (reps (blankSet n bodyweight)) = false).
    { unfold blankSet. destruct (getExerciseType n); simpl;
        try reflexivity. apply andb_false_r. }
    induction (sets ex) as [|k IH]; [reflexivity|].
    simpl. now rewrite Hblank.
Qed.

Lemma fresh_sets_are_incomplete_witness :
  (∅ : gmap string (list SetData)) !! "Ring Dips" = None
  /\ length (default [] (initWorkoutData A_push_power (JS.Str "180") ∅ !! "Ring Dips"))
     = 3%nat
  /\ completedSets
       (default [] (initWorkoutData A_push_power (JS.Str "180") ∅ !! "Ring Dips"))
     = 0%nat.
Proof.
  split; [reflexivity|]. split; [vm_compute; reflexivity|].
  exact (fresh_sets_are_incomplete A_push_power (JS.Str "180") ∅ "Ring Dips" eq_refl).
Defined.

Section Fill.
Variable bodyweight : JS.value.
Variable workoutData : gmap string (list SetData).

Lemma fillFold_sound (exs : list Exercise) :
  forall acc n l,
    fold_left (fillStep bodyweight workoutData) exs acc !! n = Some l ->
    acc !! n = Some l
    \/ (getExerciseType n = Classifier.bodyweight
        /\ exists sets, workoutData !! n = Some sets
                        /\ l = fillSets bodyweight sets).
Proof.
  induction exs as [|e exs IH]; intros acc n l H; simpl in H; [now left|].
  apply IH in H as [H | H]; [|now right].
  unfold fillStep in H.
  destruct (getExerciseType (name e)) eqn:Htype; try (now left).
  destruct (workoutData !! name e) as [sets|] eqn:He; [|now left].
  destruct (decide (name e = n)) as [<- | Hne].
  - rewrite lookup_insert_eq in H. injection H as <-. right. eauto.
  - rewrite lookup_insert_ne in H by assumption. now left.
Qed.

Lemma fillFold_keeps (exs : list Exercise) :
  forall acc n, is_Some (acc !! n) -> is_Some (fold_left (fillStep bodyweight workoutData) exs acc !! n).
Proof.
  induction exs as [|e exs IH]; intros acc n H; simpl; [assumption|].
  apply IH. unfold fillStep.
  destruct (getExerciseType (name e)); try assumption.
  destruct (workoutData !! name e); [|assumption].
  destruct (decide (name e = n)) as [<- | Hne].
  - rewrite lookup_insert_eq. eauto.
  - now rewrite lookup_insert_ne.
Qed.

Lemma fillFold_complete (exs : list Exercise) :
  forall acc ex sets,
    In ex exs ->
    getExerciseType (name ex) = Classifier.bodyweight ->
    workoutData !! name ex = Some sets ->
    is_Some (fold_left (fillStep bodyweight workoutData) exs acc !! name ex).
Proof.
  induction exs as [|e exs IH]; intros acc ex sets Hin Htype Hsets; [destruct Hin|].
  destruct Hin as [<- | Hin]; simpl.
  - apply fillFold_keeps. unfold fillStep. rewrite Htype, Hsets.
    rewrite lookup_insert_eq. eauto.
  - now apply (IH _ ex sets).
Qed.

Lemma applyBodyweight_union (template : WorkoutTemplate) :
  JS.truthy bodyweight = true ->
  applyBodyweight template bodyweight workoutData
  = updatedData template bodyweight workoutData ∪ workoutData.
Proof.
  intros Hbw. unfold applyBodyweight. rewrite Hbw.
  destruct (Nat.ltb_spec 0 (size (updatedData template bodyweight workoutData)));
    [reflexivity|].
  assert (Hempty : updatedData template bodyweight workoutData = ∅).
  { apply map_size_empty_inv. lia. }
  rewrite Hempty. now rewrite (left_id_L ∅ (∪)).
Qed.

Lemma applyBodyweight_lookup (template : WorkoutTemplate) (n : string) :
  applyBodyweight template bodyweight workoutData !! n = workoutData !! n
  \/ (JS.truthy bodyweight = true
      /\ getExerciseType n = Classifier.bodyweight
      /\ exists sets,
          workoutData !! n = Some sets
          /\ applyBodyweight template bodyweight workoutData !! n
             = Some (fillSets bodyweight sets)).
Proof.
  destruct (JS.truthy bodyweight) eqn:Hbw;
    [|left; unfold applyBodyweight; now rewrite Hbw].
  rewrite (applyBodyweight_union template Hbw).
  destruct (updatedData template bodyweight workoutData !! n) as [l|] eqn:Hup.
  - pose proof Hup as Hup'. unfold updatedData in Hup'.
    apply fillFold_sound in Hup' as [H | (Htype & sets & Hsets & ->)].
    + now rewrite lookup_empty in H.
    + right. split; [reflexivity|]. split; [assumption|].
      exists sets. split; [assumption|]. now apply lookup_union_Some_l.
  - left. now apply lookup_union_r.
Qed.

(** X10.  The bodyweight effect fills in weights and nothing else: no
    exercise and no set is added or removed, an empty slot of a sparse
    array stays empty, reps, duration and comment of every set are kept,
    a weight that was entered is kept, and an empty weight is replaced by
    the bodyweight only in exercises of bodyweight type.  For a
    bodyweight exercise of the active template that has data, the empty
    weight of every record is filled once the bodyweight is not empty. *)
Theorem applyBodyweight_only_fills_weights (template : WorkoutTemplate) :
  (forall n, workoutData !! n = None ->
             applyBodyweight template bodyweight workoutData !! n = None)
  /\ (forall n sets,
         workoutData !! n = Some sets ->
         exists sets',
           applyBodyweight template bodyweight workoutData !! n = Some sets'
           /\ Forall2
                (fun s s' =>
                   reps s' = reps s /\ duration s' = duration s
                   /\ comment s' = comment s
                   /\ (isHole s = true -> s' = s)
                   /\ (weight s' = weight s
                       \/ (JS.truthy (weight s) = false
                           /\ weight s' = bodyweight
                           /\ getExerciseType n = Classifier.bodyweight)))
                sets sets')
  /\ (forall ex sets,
         JS.truthy bodyweight = true ->
         In ex (exercises template) ->
         getExerciseType (name ex) = Classifier.bodyweight ->
         workoutData !! name ex = Some sets ->
         exists sets',
           applyBodyweight template bodyweight workoutData !! name ex = Some sets'
           /\ Forall2
                (fun s s' =>
                   if isHole s then s' = s
                   else s' = mkSet (JS.or (weight s) bodyweight) (reps s)
                                   (duration s) (comment s))
                sets sets').
Proof.
  split; [|split].
  - intros n Hnone.
    destruct (applyBodyweight_lookup template n) as [H | (_ & _ & sets & Hs & _)];
      congruence.
  - intros n sets Hsets.
    destruct (applyBodyweight_lookup template n) as [H | (_ & Htype & sets0 & Hs & H)].
    + exists sets. split; [congruence|].
      clear. induction sets; constructor; auto 10.
    + assert (sets0 = sets) by congruence. subst sets0.
      exists (fillSets bodyweight sets). split; [assumption|].
      clear - Htype. unfold fillSets.
      induction sets as [|s sets IH]; simpl; constructor; auto.
      destruct (isHole s) eqn:Hhole; [auto 10|].
      unfold fillWeight, JS.or. cbn [weight reps duration comment].
      split; [reflexivity|]. split; [reflexivity|]. split; [reflexivity|].
      split; [discriminate|].
      destruct (JS.truthy (weight s)) eqn:Hw; [now left | right; auto].
  - intros ex sets Hbw Hin Htype Hsets.
    rewrite (applyBodyweight_union template Hbw).
    destruct (fillFold_complete (exercises template) ∅ ex sets Hin Htype Hsets)
      as [l Hl].
    pose proof Hl as Hl'.
    apply fillFold_sound in Hl' as [H | (_ & sets0 & Hs & ->)].
    + now rewrite lookup_empty in H.
    + assert (sets0 = sets) by congruence. subst sets0.
      exists (fillSets bodyweight sets).
      split; [now apply lookup_union_Some_l|].
      clear. unfold fillSets.
      induction sets as [|s sets IH]; simpl; constructor; auto.
      destruct (isHole s); reflexivity.
Qed.

End Fill.

(** The pull day with reps entered for the first set of pull-ups and a
    third set written past the end of the array, before the bodyweight is
    typed in: the two records get the bodyweight and the slot between
    them stays empty. *)
Lemma applyBodyweight_only_fills_weights_witness :
  JS.truthy (JS.Str "180") = true
  /\ In (mkExercise "Pull-Ups" 4 "To Failure" 120) (exercises A_pull_width)
  /\ applyBodyweight A_pull_width (JS.Str "180")
       (<["Pull-Ups" :=
            assign [mkSet (JS.Str "") (JS.Str "8") JS.Undefined (JS.Str "")] 2
                   (mkSet (JS.Str "") (JS.Str "6") JS.Undefined (JS.Str ""))]> ∅)
     !! "Pull-Ups"
     = Some [mkSet (JS.Str "180") (JS.Str "8") JS.Undefined (JS.Str "");
             hole;
             mkSet (JS.Str "180") (JS.Str "6") JS.Undefined (JS.Str "")]
  /\ exists sets',
      applyBodyweight A_pull_width (JS.Str "180")
        (<["Pull-Ups" :=
             assign [mkSet (JS.Str "") (JS.Str "8") JS.Undefined (JS.Str "")] 2
                    (mkSet (JS.Str "") (JS.Str "6") JS.Undefined (JS.Str ""))]> ∅)
      !! "Pull-Ups" = Some sets'
      /\ Forall2
           (fun s s' =>
              if isHole s then s' = s
              else s' = mkSet (JS.or (weight s) (JS.Str "180")) (reps s)
                              (duration s) (comment s))
           (assign [mkSet (JS.Str "") (JS.Str "8") JS.Undefined (JS.Str "")] 2
                   (mkSet (JS.Str "") (JS.Str "6") JS.Undefined (JS.Str "")))
           sets'.
Proof.
  split; [reflexivity|]. split; [simpl; tauto|].
  split; [vm_compute; reflexivity|].
  apply (proj2 (proj2 (applyBodyweight_only_fills_weights (JS.Str "180")
           (<["Pull-Ups" :=
                assign [mkSet (JS.Str "") (JS.Str "8") JS.Undefined (JS.Str "")] 2
                       (mkSet (JS.Str "") (JS.Str "6") JS.Undefined (JS.Str ""))]> ∅)
           A_pull_width))
           (mkExercise "Pull-Ups" 4 "To Failure" 120)).
  - reflexivity.
  - simpl. tauto.
  - vm_compute. reflexivity.
  - vm_compute. reflexivity.
Defined.

Lemma restTimeOr90_positive (ex : Exercise) :
  (1 <= restTimeOr90 ex)%nat
  /\ (restTimeOr90 ex = restTime ex \/ restTimeOr90 ex = 90%nat).
Proof.
  unfold restTimeOr90. destruct (Nat.eqb_spec (restTime ex) 0); lia.
Qed.

(** X11.  The default rest time offered for a reset is never zero: it is
    the rest time of an exercise of the template, or 90 seconds when that
    is 0 or the template has no exercise. *)
Theorem currentExerciseRestTime_positive
        (template : WorkoutTemplate) (workoutData : gmap string (list SetData)) :
  (1 <= currentExerciseRestTime template workoutData)%nat
  /\ (currentExerciseRestTime template workoutData = 90%nat
      \/ exists ex, In ex (exercises template)
                    /\ currentExerciseRestTime template workoutData = restTime ex).
Proof.
  unfold currentExerciseRestTime.
  destruct (rev (List.filter _ (exercises template))) as [|lastTouched others] eqn:Hrev.
  - destruct (exercises template) as [|first rest] eqn:Hex.
    + split; [lia | now left].
    + pose proof (restTimeOr90_positive first) as [H1 [H2 | H2]].
      * split; [assumption|]. right. exists first. split; [now left | assumption].
      * split; [assumption | now left].
  - assert (Hin : In lastTouched (exercises template)).
    { assert (H : In lastTouched (rev (List.filter
                 (fun ex => JS.some (fun s => JS.truthy (JS.or (weight s) (reps s)))
                                    (default [] (workoutData !! name ex)))
                 (exercises template)))) by (rewrite Hrev; now left).
      apply in_rev, filter_In in H. tauto. }
    pose proof (restTimeOr90_positive lastTouched) as [H1 [H2 | H2]].
    + split; [assumption|]. right. exists lastTouched. split; assumption.
    + split; [assumption | now left].
Qed.

Lemma summaryCounts_complete (exerciseName : string) (s : SetData) :
  isSetComplete exerciseName s = true -> summaryCounts s = true.
Proof.
  unfold isSetComplete, summaryCounts.
  destruct (getExerciseType exerciseName), (JS.truthy (weight s)),
    (JS.truthy (reps s)), (JS.truthy (duration s)); simpl; congruence.
Qed.

Lemma filter_length_mono {A} (p q : A -> bool) (l : list A) :
  (forall x, p x = true -> q x = true) ->
  (length (List.filter p l) <= length (List.filter q l))%nat.
Proof.
  intros H. induction l as [|x l IH]; [reflexivity|]. simpl.
  destruct (p x) eqn:Hp.
  - rewrite (H x Hp). simpl. lia.
  - destruct (q x); simpl; lia.
Qed.

(** X12.  The completion summary never counts fewer sets than the set rows
    show as complete, nor fewer than the completion effect counts: a set
    is counted when it is complete by the rule of any tracking type. *)
Theorem summary_counts_every_complete_set (exerciseName : string)
        (l : list SetData) :
  (length (List.filter (isSetComplete exerciseName) l)
   <= length (List.filter summaryCounts l))%nat
  /\ (completedSets l <= length (List.filter summaryCounts l))%nat.
Proof.
  split.
  - apply filter_length_mono. apply summaryCounts_complete.
  - unfold completedSets. apply filter_length_mono. intros s H.
    unfold summaryCounts. now rewrite H.
Qed.

End SessionFillFacts.

(** ** Analysis settings and the progress display *)

Module SettingsFacts.
Import Catalog ClientCycle Settings.

Lemma isIncluded_empty (t : WorkoutTemplate) : isIncluded ∅ t = mandatory t.
Proof.
  unfold isIncluded. rewrite lookup_empty. destruct (mandatory t); reflexivity.
Qed.

Lemma isIncluded_flag (includeInAnalysis : gmap string bool) (t : WorkoutTemplate) :
  includeInAnalysis !! key t = Some (mandatory t) ->
  isIncluded includeInAnalysis t = mandatory t.
Proof.
  intros H. unfold isIncluded. rewrite H. destruct (mandatory t); reflexivity.
Qed.

Lemma defaults_fold_other (l : list WorkoutTemplate) :
  forall (acc : gmap string bool) (k : string),
    ~ In k (map key l) ->
    fold_left (fun defaults t => <[key t := mandatory t]> defaults) l acc !! k
    = acc !! k.
Proof.
  induction l as [|t l IH]; intros acc k Hk; simpl; [reflexivity|].
  simpl in Hk. rewrite IH by tauto. apply lookup_insert_ne. tauto.
Qed.

Lemma defaults_lookup (templates : list WorkoutTemplate) :
  List.NoDup (map key templates) ->
  forall t, In t templates ->
            defaultIncludeInAnalysis templates !! key t = Some (mandatory t).
Proof.
  unfold defaultIncludeInAnalysis. generalize (∅ : gmap string bool).
  induction templates as [|t0 l IH]; intros acc Hnd t Hin; [destruct Hin|].
  simpl in Hnd. apply NoDup_cons_iff in Hnd as [Hfresh Hnd].
  destruct Hin as [<- | Hin]; simpl.
  - rewrite defaults_fold_other by assumption. apply lookup_insert_eq.
  - now apply IH.
Qed.

(** X13.  With nothing saved, the workouts selected for the cycle are
    exactly the mandatory templates of the catalog, in catalog order: both
    for the default map built at first use (keys of the catalog being
    distinct) and for an empty map. *)
Theorem default_selection_is_mandatory (templates : list WorkoutTemplate) :
  selectedFor templates ∅ = mandatoryKeys templates
  /\ (List.NoDup (map key templates) ->
      selectedFor templates (defaultIncludeInAnalysis templates)
      = mandatoryKeys templates).
Proof.
  unfold selectedFor, mandatoryKeys. split.
  - f_equal. apply filter_ext. apply isIncluded_empty.
  - intros Hnd. f_equal. apply filter_ext_in. intros t Ht.
    apply isIncluded_flag. now apply defaults_lookup.
Qed.

Lemma default_selection_is_mandatory_witness :
  List.NoDup (map key DEFAULT_TEMPLATES)
  /\ selectedFor DEFAULT_TEMPLATES (defaultIncludeInAnalysis DEFAULT_TEMPLATES)
     = mandatoryKeys DEFAULT_TEMPLATES.
Proof.
  split; [exact CycleClaims.DEFAULT_TEMPLATES_keys_NoDup|].
  exact (proj2 (default_selection_is_mandatory DEFAULT_TEMPLATES)
               CycleClaims.DEFAULT_TEMPLATES_keys_NoDup).
Defined.

(** X14.  [handleToggle] changes the inclusion of the toggled workout
    only.  When the map has an entry for the key the workout changes
    sides; when it has none, the new entry is [true], so an optional
    workout becomes included and a mandatory one stays included.  Toggling
    twice restores a map that had an entry. *)
Theorem handleToggle_flips_one (workoutKey : string)
        (includeInAnalysis : gmap string bool) (t : WorkoutTemplate) :
  (key t <> workoutKey ->
   isIncluded (handleToggle workoutKey includeInAnalysis) t
   = isIncluded includeInAnalysis t)
  /\ (key t = workoutKey -> is_Some (includeInAnalysis !! workoutKey) ->
      isIncluded (handleToggle workoutKey includeInAnalysis) t
      = negb (isIncluded includeInAnalysis t))
  /\ (key t = workoutKey -> includeInAnalysis !! workoutKey = None ->
      isIncluded (handleToggle workoutKey includeInAnalysis) t = true)
  /\ (is_Some (includeInAnalysis !! workoutKey) ->
      handleToggle workoutKey (handleToggle workoutKey includeInAnalysis)
      = includeInAnalysis).
Proof.
  unfold handleToggle, isIncluded. split; [|split; [|split]].
  - intros Hne. now rewrite lookup_insert_ne by congruence.
  - intros <- [v Hv]. rewrite lookup_insert_eq, Hv. simpl.
    destruct (mandatory t), v; reflexivity.
  - intros <- Hnone. rewrite lookup_insert_eq, Hnone. simpl.
    destruct (mandatory t); reflexivity.
  - intros [v Hv]. rewrite lookup_insert_eq, Hv. simpl.
    rewrite insert_insert_eq, negb_involutive. now apply insert_id.
Qed.

Lemma handleToggle_flips_one_witness :
  key C_leg_day = "C_leg_day"
  /\ is_Some (defaultIncludeInAnalysis DEFAULT_TEMPLATES !! "C_leg_day")
  /\ isIncluded (defaultIncludeInAnalysis DEFAULT_TEMPLATES) C_leg_day = true
  /\ isIncluded (handleToggle "C_leg_day" (defaultIncludeInAnalysis DEFAULT_TEMPLATES))
                C_leg_day = false.
Proof.
  assert (H : is_Some (defaultIncludeInAnalysis DEFAULT_TEMPLATES !! "C_leg_day"))
    by (exists true; vm_compute; reflexivity).
  split; [reflexivity|]. split; [exact H|]. split; [vm_compute; reflexivity|].
  rewrite (proj1 (proj2 (handleToggle_flips_one "C_leg_day"
             (defaultIncludeInAnalysis DEFAULT_TEMPLATES) C_leg_day)) eq_refl H).
  vm_compute. reflexivity.
Defined.

(** X15.  The number of selected workouts shown in the settings modal is
    the number of workouts the cycle effect selects, for every catalog and
    every map. *)
Theorem selectedCount_matches_selection (templates : list WorkoutTemplate)
        (includeInAnalysis : gmap string bool) :
  selectedCount templates includeInAnalysis
  = length (selectedFor templates includeInAnalysis).
Proof.
  unfold selectedCount, selectedFor. rewrite length_map.
  induction templates as [|t l IH]; [reflexivity|].
  simpl. unfold isIncluded at 1.
  destruct (mandatory t); simpl;
    destruct (includeInAnalysis !! key t) as [[|]|]; simpl; lia.
Qed.

End SettingsFacts.

Module ProgressFacts.
Import Catalog ClientCycle Progress.

(** X16.  The progress kept in React state shows the saved cycle: this
    holds when the component mounts and after every run of the cycle
    effect, whether it credits a workout, resets for a changed selection,
    closes the cycle or does nothing. *)
Theorem cycleProgress_in_sync :
  (forall saved announced, inSync (mounted saved announced))
  /\ (forall (templates : list WorkoutTemplate) (includeInAnalysis : gmap string bool)
             (workoutComplete : bool) (t : WorkoutTemplate) (b : Browser),
         inSync b ->
         inSync (fst (cycleEffect templates includeInAnalysis workoutComplete t b))).
Proof.
  split; [reflexivity|].
  intros templates inc wc t b Hsync. unfold cycleEffect.
  destruct wc; [|exact Hsync]. cbn [negb].
  destruct (isIncluded inc t); [|exact Hsync]. cbn [negb].
  destruct (JS.arrayIncludes _ (key t)); [exact Hsync|]. cbn [negb].
  match goal with |- context [if ?c then _ else _] => destruct c end; reflexivity.
Qed.

Lemma cycleProgress_in_sync_witness :
  inSync lastOneMissing
  /\ inSync (fst (cycleEffect DEFAULT_TEMPLATES withoutCD true A_push_power
                              lastOneMissing)).
Proof.
  assert (H : inSync lastOneMissing) by reflexivity.
  split; [exact H|].
  exact (proj2 cycleProgress_in_sync DEFAULT_TEMPLATES withoutCD true A_push_power
               lastOneMissing H).
Defined.

End ProgressFacts.

(** ** The handler over time, and the cycle record *)

Module BackendOpsFacts.
Import Analysis Backend BackendOps JSFacts.

Section Service.
Context {AnalysisT Suggestions : Type}.
Variable exerciseRecommendations : AnalysisT -> option Suggestions.
Variable analyze : CycleQuery AnalysisT Suggestions -> Completion AnalysisT.
Local Abbreviation World := (World AnalysisT Suggestions).

(** The three outcomes of [updateCycleProgress]. *)
Lemma updateCycleProgress_cases (k : string) (w : World) :
  updateCycleProgress k w = (Return (mkCycleUpdate false None), w)
  \/ updateCycleProgress k w
     = (Return (mkCycleUpdate false None),
        mkWorld AnalysisT Suggestions (workoutItems w)
                (Some (mkCurrentCycle
                         (cycleNumber (ensured w)) (recorded w ++ [k])
                         (List.filter (fun x => negb (String.eqb x k))
                                      (remainingWorkouts (ensured w)))))
                (archiveItems w) (analysisItems w) (suggestionsItem w)
                (analysisRequests w))
  \/ (incl mandatoryWorkouts (recorded w ++ [k])
      /\ updateCycleProgress k w
         = (Return (mkCycleUpdate true (Some (cycleNumber (ensured w) + 1)%Z)),
            mkWorld AnalysisT Suggestions (workoutItems w)
                    (Some (currentCycle (cycleNumber (ensured w) + 1)))
                    (<[cycleNumber (ensured w) :=
                         mkCycleArchive (cycleNumber (ensured w)) (recorded w ++ [k])]>
                       (archiveItems w))
                    (analysisItems w) (suggestionsItem w) (analysisRequests w))).
Proof.
  destruct (in_dec string_dec k (recorded w)) as [Hk | Hk].
  - left. now apply BackendFacts.updateCycleProgress_known.
  - destruct (ListDec.incl_dec string_dec mandatoryWorkouts (recorded w ++ [k]))
      as [Hfull | Hfull].
    + right. right. split; [assumption|].
      now apply BackendFacts.updateCycleProgress_close.
    + right. left. now apply BackendFacts.updateCycleProgress_credit.
Qed.

Lemma checkCycleCompletion_open (w : World) :
  ~ incl mandatoryWorkouts (recorded w) ->
  fst (checkCycleCompletion w) = Return false.
Proof.
  intros Hopen. unfold checkCycleCompletion, bind.
  rewrite BackendFacts.getCurrentCycle_eq, BackendFacts.recorded_ensured.
  apply every_includes_false in Hopen. unfold ret. now rewrite Hopen.
Qed.

Lemma checkCycleCompletion_frame (w : World) :
  workoutItems (snd (checkCycleCompletion w)) = workoutItems w
  /\ recorded (snd (checkCycleCompletion w)) = recorded w
  /\ archiveItems (snd (checkCycleCompletion w)) = archiveItems w
  /\ analysisItems (snd (checkCycleCompletion w)) = analysisItems w
  /\ suggestionsItem (snd (checkCycleCompletion w)) = suggestionsItem w
  /\ analysisRequests (snd (checkCycleCompletion w)) = analysisRequests w.
Proof.
  unfold checkCycleCompletion, bind, ret, recorded.
  rewrite BackendFacts.getCurrentCycle_eq.
  destruct (currentCycleItem w) eqn:Hitem; simpl; rewrite ?Hitem;
    repeat split; reflexivity.
Qed.

Lemma saveWorkout_optional (d k : string) (bw notes : JS.value)
      (ex : gmap string (list Session.SetData)) (rpes : gmap string JS.value)
      (opt : JS.value) (w : World) :
  JS.truthy opt = true ->
  saveWorkout d k bw notes ex rpes opt w
  = (Return (mkWorkout d k bw notes ex rpes opt true),
     stored (mkWorkout d k bw notes ex rpes opt true) w).
Proof.
  intros Hopt.
  unfold saveWorkout, putWorkout, getWorld, setWorld, ret, stored, bind.
  rewrite Hopt. reflexivity.
Qed.

Lemma saveWorkout_mandatory (d k : string) (bw notes : JS.value)
      (ex : gmap string (list Session.SetData)) (rpes : gmap string JS.value)
      (opt : JS.value) (w : World) :
  JS.truthy opt = false ->
  saveWorkout d k bw notes ex rpes opt w
  = (Return (mkWorkout d k bw notes ex rpes opt true),
     snd (updateCycleProgress k (stored (mkWorkout d k bw notes ex rpes opt true) w))).
Proof.
  intros Hopt.
  unfold saveWorkout, putWorkout, getWorld, setWorld, ret, stored, bind.
  cbv beta iota zeta. rewrite Hopt. cbn [negb date templateKey].
  match goal with
  | |- context [updateCycleProgress k ?w1] =>
      destruct (updateCycleProgress_cases k w1) as [H | [H | [_ H]]]
  end; rewrite H; reflexivity.
Qed.

Lemma updateCycleProgress_frame (k : string) (w : World) :
  analysisRequests (snd (updateCycleProgress k w)) = analysisRequests w
  /\ analysisItems (snd (updateCycleProgress k w)) = analysisItems w.
Proof.
  destruct (updateCycleProgress_cases k w) as [H | [H | [_ H]]]; rewrite H;
    split; reflexivity.
Qed.

Lemma updateCycleProgress_items (k : string) (w : World) :
  workoutItems (snd (updateCycleProgress k w)) = workoutItems w.
Proof.
  destruct (updateCycleProgress_cases k w) as [H | [H | [_ H]]]; rewrite H;
    reflexivity.
Qed.

Lemma postWorkouts_optional (req : WorkoutRequest) (w : World) :
  JS.truthy (req_isOptional req) = true ->
  postWorkouts exerciseRecommendations analyze req w
  = (Json (itemOf req) false None, stored (itemOf req) w).
Proof.
  intros Hopt. unfold postWorkouts, postWorkoutsBody, bind.
  rewrite saveWorkout_optional by (unfold JS.or; now rewrite Hopt).
  rewrite Hopt. reflexivity.
Qed.

Lemma postWorkouts_mandatory_open (req : WorkoutRequest) (w : World) :
  JS.truthy (req_isOptional req) = false ->
  ~ incl mandatoryWorkouts (recorded w) ->
  postWorkouts exerciseRecommendations analyze req w
  = (Json (itemOf req) false None,
     snd (checkCycleCompletion
            (snd (updateCycleProgress (req_templateKey req) (stored (itemOf req) w))))).
Proof.
  intros Hopt Hopen. unfold postWorkouts, postWorkoutsBody, bind.
  rewrite saveWorkout_mandatory by (unfold JS.or; now rewrite Hopt).
  rewrite Hopt. cbn [negb]. fold (itemOf req).
  assert (Hopen1 : ~ incl mandatoryWorkouts (recorded (stored (itemOf req) w)))
    by exact Hopen.
  pose proof (checkCycleCompletion_open _
                (BackendFacts.update_stays_open (req_templateKey req) _ Hopen1))
    as Hcheck.
  destruct (checkCycleCompletion _) as [c w3]. cbn [fst snd] in *. subst c.
  reflexivity.
Qed.

(** One request on a table whose cycle is open. *)
Lemma postWorkouts_open (req : WorkoutRequest) (w : World) :
  ~ incl mandatoryWorkouts (recorded w) ->
  plainAnswer (fst (postWorkouts exerciseRecommendations analyze req w))
  /\ analysisRequests (snd (postWorkouts exerciseRecommendations analyze req w))
     = analysisRequests w
  /\ analysisItems (snd (postWorkouts exerciseRecommendations analyze req w))
     = analysisItems w
  /\ ~ incl mandatoryWorkouts
       (recorded (snd (postWorkouts exerciseRecommendations analyze req w))).
Proof.
  intros Hopen.
  destruct (JS.truthy (req_isOptional req)) eqn:Hopt.
  - rewrite (postWorkouts_optional req w Hopt). cbn [fst snd].
    repeat split; [eexists; reflexivity | exact Hopen].
  - rewrite (postWorkouts_mandatory_open req w Hopt Hopen). cbn [fst snd].
    assert (Hopen1 : ~ incl mandatoryWorkouts (recorded (stored (itemOf req) w)))
      by exact Hopen.
    pose proof (BackendFacts.update_stays_open (req_templateKey req) _ Hopen1)
      as Hopen2.
    destruct (updateCycleProgress_frame (req_templateKey req) (stored (itemOf req) w))
      as [Hreq Hitems].
    destruct (checkCycleCompletion_frame
                (snd (updateCycleProgress (req_templateKey req) (stored (itemOf req) w))))
      as (_ & Hrec & _ & Hit & _ & Hrq).
    split; [eexists; reflexivity|].
    split; [exact (eq_trans Hrq Hreq)|]. split; [exact (eq_trans Hit Hitems)|].
    now rewrite Hrec.
Qed.

Lemma postWorkouts_items (req : WorkoutRequest) (w : World) :
  ~ incl mandatoryWorkouts (recorded w) ->
  workoutItems (snd (postWorkouts exerciseRecommendations analyze req w))
  = <[workoutSK (req_date req) (req_templateKey req) := itemOf req]> (workoutItems w).
Proof.
  intros Hopen. destruct (JS.truthy (req_isOptional req)) eqn:Hopt.
  - now rewrite (postWorkouts_optional req w Hopt).
  - rewrite (postWorkouts_mandatory_open req w Hopt Hopen). cbn [snd].
    destruct (checkCycleCompletion_frame
                (snd (updateCycleProgress (req_templateKey req) (stored (itemOf req) w))))
      as (-> & _).
    now rewrite updateCycleProgress_items.
Qed.

(** X17.  From a table whose cycle is open (in particular an empty table),
    no sequence of [POST /workouts] requests ever reaches the analysis
    branch of the handler: every answer reports [cycleComplete: false]
    without an analysis, the analysis collaborator is never called and no
    analysis is stored.  [saveWorkout] has already replaced a completed
    cycle by a fresh one when the handler runs its own completion test. *)
Theorem handler_never_analyses (requests : list WorkoutRequest) (w : World) :
  ~ incl mandatoryWorkouts (recorded w) ->
  Forall plainAnswer (fst (serve exerciseRecommendations analyze requests w))
  /\ analysisRequests (snd (serve exerciseRecommendations analyze requests w))
     = analysisRequests w
  /\ analysisItems (snd (serve exerciseRecommendations analyze requests w))
     = analysisItems w.
Proof.
  revert w. induction requests as [|req rest IH]; intros w Hopen.
  - simpl. repeat split. constructor.
  - cbn [serve].
    destruct (postWorkouts_open req w Hopen) as (Hplain & Hreq & Hitems & Hopen').
    destruct (postWorkouts exerciseRecommendations analyze req w) as [r w'].
    cbn [fst snd] in *.
    destruct (IH w' Hopen') as (Hall & Hreq' & Hitems').
    destruct (serve exerciseRecommendations analyze rest w') as [rs final].
    cbn [fst snd] in *. split; [constructor; assumption|].
    split; congruence.
Qed.

(** X18.  Workout items are filed by date and template: saving the same
    template again for the same date replaces the item saved before, so
    that the table holds the workout items it would hold if only the
    second request had been made. *)
Theorem same_day_save_overwrites (first second : WorkoutRequest) (w : World) :
  ~ incl mandatoryWorkouts (recorded w) ->
  req_date first = req_date second ->
  req_templateKey first = req_templateKey second ->
  workoutItems (snd (serve exerciseRecommendations analyze [first; second] w))
  = workoutItems (snd (serve exerciseRecommendations analyze [second] w)).
Proof.
  intros Hopen Hdate Hkey. cbn [serve].
  destruct (postWorkouts_open first w Hopen) as (_ & _ & _ & Hopen').
  pose proof (postWorkouts_items first w Hopen) as Hfirst.
  destruct (postWorkouts exerciseRecommendations analyze first w) as [r1 w1].
  cbn [snd] in *.
  pose proof (postWorkouts_items second w1 Hopen') as Hsecond.
  pose proof (postWorkouts_items second w Hopen) as Honly.
  destruct (postWorkouts exerciseRecommendations analyze second w1) as [r2 w2].
  destruct (postWorkouts exerciseRecommendations analyze second w) as [r w'].
  cbn [snd] in *.
  rewrite Hsecond, Honly, Hfirst, Hdate, Hkey. apply insert_insert_eq.
Qed.

End Service.

Lemma same_day_save_overwrites_witness :
  workoutItems
    (snd (serve noRecommendations noAnalysis
                [optionalRequest; plainRequest "B_pull_strength"] emptyWorld))
  = workoutItems
      (snd (serve noRecommendations noAnalysis [plainRequest "B_pull_strength"]
                  emptyWorld)).
Proof.
  apply (same_day_save_overwrites noRecommendations noAnalysis
           optionalRequest (plainRequest "B_pull_strength") emptyWorld);
    [|reflexivity|reflexivity].
  intros H. exact (H "A_push_power" (or_introl eq_refl)).
Defined.

(** A whole cycle of the four mandatory workouts, saved on an empty
    table. *)
Lemma handler_never_analyses_witness :
  ~ incl mandatoryWorkouts (recorded (@emptyWorld unit unit))
  /\ Forall plainAnswer
       (fst (serve noRecommendations noAnalysis
                   (map plainRequest mandatoryWorkouts) emptyWorld))
  /\ analysisRequests
       (snd (serve noRecommendations noAnalysis
                   (map plainRequest mandatoryWorkouts) emptyWorld)) = []
  /\ currentCycleItem
       (snd (serve noRecommendations noAnalysis
                   (map plainRequest mandatoryWorkouts) emptyWorld))
     = Some (currentCycle 2).
Proof.
  assert (Hopen : ~ incl mandatoryWorkouts (recorded (@emptyWorld unit unit))).
  { intros H. exact (H "A_push_power" (or_introl eq_refl)). }
  split; [exact Hopen|].
  destruct (handler_never_analyses noRecommendations noAnalysis
              (map plainRequest mandatoryWorkouts) emptyWorld Hopen)
    as (Hall & Hreq & _).
  split; [exact Hall|]. split; [exact Hreq|].
  vm_compute. reflexivity.
Defined.

End BackendOpsFacts.

(** ** Invariants of the cycle record *)

Module CycleRecordFacts.
Import Analysis Backend BackendOps JSFacts.

Section Service.
Context {AnalysisT Suggestions : Type}.
Local Abbreviation World := (World AnalysisT Suggestions).

Lemma ensured_Some (c : CurrentCycle) (w : World) :
  currentCycleItem w = Some c -> ensured w = c.
Proof. intros H. unfold ensured. now rewrite H. Qed.

Lemma ensured_mkWorld (c : CurrentCycle) items archives analyses suggestions requests :
  ensured (mkWorld AnalysisT Suggestions items (Some c) archives analyses
                   suggestions requests) = c.
Proof. reflexivity. Qed.

Lemma filter_filter_andb {A} (f g : A -> bool) (l : list A) :
  List.filter f (List.filter g l) = List.filter (fun x => f x && g x) l.
Proof.
  induction l as [|x l IH]; [reflexivity|]. simpl.
  destruct (g x); simpl; [destruct (f x); simpl; now rewrite IH|].
  rewrite IH. now rewrite andb_false_r.
Qed.

Lemma arrayIncludes_push (l : list string) (k x : string) :
  negb (JS.arrayIncludes (l ++ [k]) x)
  = negb (String.eqb x k) && negb (JS.arrayIncludes l x).
Proof.
  unfold JS.arrayIncludes. rewrite existsb_app. simpl.
  rewrite orb_false_r, negb_orb. apply andb_comm.
Qed.

(** X19.  [remainingWorkouts] is kept equal to the mandatory keys that
    are not in [completedWorkouts]: whatever template key is recorded,
    [updateCycleProgress] preserves this relation between the two lists
    of the cycle record it writes. *)
Theorem remainingWorkouts_tracks_completed (k : string) (w : World) :
  remainingInvariant w ->
  remainingInvariant (snd (updateCycleProgress k w)).
Proof.
  unfold remainingInvariant. intros Hinv.
  destruct (BackendOpsFacts.updateCycleProgress_cases k w) as [H | [H | [_ H]]];
    rewrite H; cbn [snd]; rewrite ?ensured_mkWorld;
    [exact Hinv | | reflexivity].
  cbn [remainingWorkouts completedWorkouts].
  rewrite Hinv, filter_filter_andb, BackendFacts.recorded_ensured.
  apply filter_ext. intros x. symmetry. apply arrayIncludes_push.
Qed.


(** [getCurrentCycle] creates the record of cycle 1 on first use
    only: a second call answers the same record and leaves the table as
    the first call left it. *)
Lemma getCurrentCycle_initialises_once (w : World) :
  getCurrentCycle (snd (getCurrentCycle w))
  = (fst (getCurrentCycle w), snd (getCurrentCycle w)).
Proof.
  rewrite (BackendFacts.getCurrentCycle_eq w). cbn [fst snd].
  destruct (currentCycleItem w) as [c|] eqn:Hitem.
  - rewrite BackendFacts.getCurrentCycle_eq, Hitem.
    now rewrite (ensured_Some c w Hitem).
  - rewrite BackendFacts.getCurrentCycle_eq, ensured_mkWorld.
    unfold ensured. now rewrite Hitem.
Qed.

End Service.

Lemma remainingWorkouts_tracks_completed_witness :
  remainingInvariant (@emptyWorld unit unit)
  /\ remainingInvariant (snd (updateCycleProgress "B_push_hyp" (@emptyWorld unit unit))).
Proof.
  assert (H : remainingInvariant (@emptyWorld unit unit)) by reflexivity.
  split; [exact H|].
  exact (remainingWorkouts_tracks_completed "B_push_hyp" emptyWorld H).
Defined.


End CycleRecordFacts.

(** ** Sort keys *)

Module KeysFacts.
Import Keys.

Lemma split_without (sep : ascii) (s : string) :
  occurs sep s = false -> split sep s = [s].
Proof.
  induction s as [|c s IH]; [reflexivity|]. cbn [occurs split].
  intros H. apply orb_false_iff in H as [Hc Hs].
  rewrite Hc, (IH Hs). reflexivity.
Qed.

Lemma split_at (sep : ascii) (a b : string) :
  occurs sep a = false ->
  split sep (a ++ String sep b)%string = a :: split sep b.
Proof.
  induction a as [|c a IH]; intros H.
  - simpl. now rewrite Ascii.eqb_refl.
  - cbn [occurs] in H. apply orb_false_iff in H as [Hc Ha].
    simpl. rewrite Hc, (IH Ha). reflexivity.
Qed.

(** X21.  [parseWorkoutKey] undoes [workoutKey] when neither the date nor
    the template key contains the separator [#]. *)
Theorem parseWorkoutKey_workoutKey (d k : string) :
  occurs "#" d = false -> occurs "#" k = false ->
  parseWorkoutKey (workoutKey d k) = mkWorkoutKeyParts (Some d) (Some k).
Proof.
  intros Hd Hk. unfold parseWorkoutKey, workoutKey.
  change ("WORKOUT#" ++ d ++ "#" ++ k)%string
    with ("WORKOUT" ++ String "#" (d ++ String "#" k))%string.
  rewrite (split_at "#" "WORKOUT") by reflexivity.
  rewrite (split_at "#" d) by exact Hd.
  rewrite (split_without "#" k Hk). reflexivity.
Qed.

Lemma parseWorkoutKey_workoutKey_witness :
  parseWorkoutKey (workoutKey "2025-08-25" "A_push_power")
  = mkWorkoutKeyParts (Some "2025-08-25") (Some "A_push_power").
Proof.
  apply parseWorkoutKey_workoutKey; reflexivity.
Defined.

Lemma app_inv_sep (sep : ascii) (a1 a2 b1 b2 : string) :
  occurs sep a1 = false -> occurs sep a2 = false ->
  (a1 ++ String sep b1)%string = (a2 ++ String sep b2)%string ->
  a1 = a2 /\ b1 = b2.
Proof.
  revert a2. induction a1 as [|c a1 IH]; intros [|c2 a2] H1 H2 Heq;
    simpl in *.
  - injection Heq as ->. now split.
  - injection Heq as <- _. rewrite Ascii.eqb_refl in H2. discriminate.
  - injection Heq as -> _. rewrite Ascii.eqb_refl in H1. discriminate.
  - injection Heq as -> Heq.
    apply orb_false_iff in H1 as [_ H1]. apply orb_false_iff in H2 as [_ H2].
    destruct (IH a2 H1 H2 Heq) as [-> ->]. now split.
Qed.

(** X22.  Two workouts get the same sort key only when they have the same
    date and the same template, provided the dates do not contain [#]: a
    save overwrites the item of the same template on the same day and no
    other. *)
Theorem workoutSK_injective (d1 k1 d2 k2 : string) :
  occurs "#" d1 = false -> occurs "#" d2 = false ->
  Backend.workoutSK d1 k1 = Backend.workoutSK d2 k2 -> d1 = d2 /\ k1 = k2.
Proof.
  intros H1 H2 Heq. unfold Backend.workoutSK in Heq.
  apply (app_inv_sep "#" d1 d2 k1 k2 H1 H2).
  simpl in Heq. now repeat injection Heq as Heq.
Qed.

Lemma workoutSK_injective_witness :
  Backend.workoutSK "2025-08-25" "A_push_power"
  = Backend.workoutSK "2025-08-25" "A_push_power"
  /\ "2025-08-25" = "2025-08-25" /\ "A_push_power" = "A_push_power".
Proof.
  split; [reflexivity|].
  apply (workoutSK_injective "2025-08-25" "A_push_power" "2025-08-25" "A_push_power");
    reflexivity.
Defined.

(** *** Decimal digits *)

Lemma decimalDigit_plain (c : ascii) (d : Z) :
  decimalDigit c = Some d ->
  isWhiteSpace c = false
  /\ Ascii.eqb c "-" = false /\ Ascii.eqb c "+" = false
  /\ Ascii.eqb c "x" = false /\ Ascii.eqb c "X" = false
  /\ Ascii.eqb c "#" = false.
Proof.
  destruct c as [[] [] [] [] [] [] [] []]; vm_compute; intros H;
    try discriminate; repeat split.
Qed.

Lemma allDigits_app (a b : string) :
  allDigits (a ++ b)%string = allDigits a && allDigits b.
Proof.
  induction a as [|c a IH]; [reflexivity|]. simpl. rewrite IH.
  now rewrite andb_assoc.
Qed.

Lemma allDigits_fill (n : nat) : allDigits (fill n "0") = true.
Proof. induction n as [|n IH]; [reflexivity|]. simpl. exact IH. Qed.

Lemma allDigits_uint (d : Decimal.uint) :
  allDigits (DecimalString.NilEmpty.string_of_uint d) = true.
Proof. induction d; simpl; auto. Qed.

Lemma allDigits_occurs (s : string) :
  allDigits s = true -> occurs "#" s = false.
Proof.
  induction s as [|c s IH]; [reflexivity|]. cbn [allDigits occurs].
  destruct (decimalDigit c) as [d|] eqn:Hc; [|discriminate].
  intros H. destruct (decimalDigit_plain c d Hc) as (_ & _ & _ & _ & _ & ->).
  exact (IH H).
Qed.

(** On a text of digits, [parseInt] reads the digits in base ten. *)
Lemma parseInt_digits (s : string) :
  allDigits s = true -> parseInt s = readDigits decimalDigit 10 s None.
Proof.
  destruct s as [|c s]; [reflexivity|]. cbn [allDigits].
  destruct (decimalDigit c) as [d|] eqn:Hc; [|discriminate].
  destruct (decimalDigit_plain c d Hc) as (Hw & Hm & Hp & _ & _ & _).
  intros Hs. unfold parseInt. cbn [trimStart]. rewrite Hw, Hm, Hp.
  cbn [orb].
  assert (Hhex : match s with
                 | String x _ => Ascii.eqb c "0" && (Ascii.eqb x "x" || Ascii.eqb x "X")
                 | EmptyString => false
                 end = false).
  { destruct s as [|x s']; [reflexivity|]. cbn [allDigits] in Hs.
    destruct (decimalDigit x) as [dx|] eqn:Hx; [|discriminate].
    destruct (decimalDigit_plain x dx Hx) as (_ & _ & _ & -> & -> & _).
    apply andb_false_r. }
  rewrite Hhex. destruct (readDigits _ _ _ _); reflexivity.
Qed.

Lemma readDigits_pos (d : Decimal.uint) (p : positive) :
  readDigits decimalDigit 10 (DecimalString.NilEmpty.string_of_uint d)
             (Some (Z.pos p))
  = Some (Z.pos (Pos.of_uint_acc d p)).
Proof.
  revert p. induction d; intros p; [reflexivity| ..];
    cbn [DecimalString.NilEmpty.string_of_uint readDigits Pos.of_uint_acc];
    match goal with
    | |- match decimalDigit ?c with _ => _ end = _ =>
        let v := eval vm_compute in (decimalDigit c) in
        change (decimalDigit c) with v
    end;
    cbn [default from_option id];
    match goal with
    | |- readDigits _ _ _ (Some ?z) = Some (Z.pos (Pos.of_uint_acc _ ?q)) =>
        replace z with (Z.pos q) by lia
    end;
    apply IHd.
Qed.

Lemma readDigits_zero (d : Decimal.uint) (acc : option Z) :
  default 0%Z acc = 0%Z -> d <> Decimal.Nil ->
  readDigits decimalDigit 10 (DecimalString.NilEmpty.string_of_uint d) acc
  = Some (Z.of_N (Pos.of_uint d)).
Proof.
  revert acc. induction d; intros acc Hacc Hd; [congruence| ..];
    cbn [DecimalString.NilEmpty.string_of_uint readDigits Pos.of_uint];
    match goal with
    | |- match decimalDigit ?c with _ => _ end = _ =>
        let v := eval vm_compute in (decimalDigit c) in
        change (decimalDigit c) with v
    end;
    rewrite Hacc.
  - destruct d; [reflexivity| ..]; apply IHd; try reflexivity; discriminate.
  - apply (readDigits_pos d 1).
  - apply (readDigits_pos d 2).
  - apply (readDigits_pos d 3).
  - apply (readDigits_pos d 4).
  - apply (readDigits_pos d 5).
  - apply (readDigits_pos d 6).
  - apply (readDigits_pos d 7).
  - apply (readDigits_pos d 8).
  - apply (readDigits_pos d 9).
Qed.

Lemma readDigits_fill (n : nat) (s : string) (acc : option Z) :
  default 0%Z acc = 0%Z ->
  readDigits decimalDigit 10 (fill n "0" ++ s)%string acc
  = readDigits decimalDigit 10 s (match n with O => acc | S _ => Some 0%Z end).
Proof.
  revert acc. induction n as [|n IH]; intros acc Hacc; [reflexivity|].
  cbn [fill]. change (String "0" (fill n "0") ++ s)%string
    with (String "0" (fill n "0" ++ s)%string).
  cbn [readDigits]. change (decimalDigit "0") with (Some 0%Z).
  rewrite Hacc. change (0 * 10 + 0)%Z with 0%Z.
  rewrite (IH (Some 0%Z) eq_refl). now destruct n.
Qed.

Lemma decimal_digits (n : Z) :
  (0 <= n)%Z ->
  decimal n = DecimalString.NilEmpty.string_of_uint (digitsOf n)
  /\ digitsOf n <> Decimal.Nil
  /\ Z.of_N (Pos.of_uint (digitsOf n)) = n.
Proof.
  intros Hn. destruct n as [|p|p]; [| |lia].
  - repeat split. discriminate.
  - split; [reflexivity|]. split; [apply DecimalPos.Unsigned.to_uint_nonnil|].
    cbn [digitsOf]. now rewrite DecimalPos.Unsigned.of_to.
Qed.

(** [parseInt] reads back padded digits. *)
Lemma parseInt_padStart (n : Z) (width : nat) :
  (0 <= n)%Z -> parseInt (padStart (decimal n) width "0") = Some n.
Proof.
  intros Hn. destruct (decimal_digits n Hn) as (Hs & Hnil & Hval).
  unfold padStart. rewrite Hs.
  rewrite parseInt_digits
    by (rewrite allDigits_app, allDigits_fill, allDigits_uint; reflexivity).
  rewrite readDigits_fill by reflexivity.
  rewrite readDigits_zero; [now rewrite Hval | now destruct (_ - _)%nat | exact Hnil].
Qed.

Lemma numberToString_safe (n : Z) :
  (0 <= n <= MAX_SAFE_INTEGER)%Z -> numberToString n = Some (decimal n).
Proof.
  intros Hn. unfold numberToString.
  destruct (Z.leb_spec (Z.abs n) MAX_SAFE_INTEGER) as [_ | H]; [reflexivity | lia].
Qed.

(** X23.  [parseCycleKey] undoes [cycleKey] for every cycle number from 0
    to [Number.MAX_SAFE_INTEGER], also when the number has more than four
    digits: the key exists and is read back as the number. *)
Theorem parseCycleKey_cycleKey (n : Z) :
  (0 <= n <= MAX_SAFE_INTEGER)%Z ->
  exists sk, cycleKey n = Some sk /\ parseCycleKey sk = Some n.
Proof.
  intros Hn. unfold cycleKey. rewrite (numberToString_safe n Hn). cbn [option_map].
  eexists. split; [reflexivity|]. unfold parseCycleKey.
  change ("CYCLE#" ++ padStart (decimal n) 4 "0")%string
    with ("CYCLE" ++ String "#" (padStart (decimal n) 4 "0"))%string.
  rewrite (split_at "#" "CYCLE") by reflexivity.
  rewrite split_without.
  - cbn [nth_error default from_option id]. apply parseInt_padStart. lia.
  - apply allDigits_occurs. destruct (decimal_digits n (proj1 Hn)) as (Hs & _ & _).
    unfold padStart. rewrite Hs.
    now rewrite allDigits_app, allDigits_fill, allDigits_uint.
Qed.

Lemma parseCycleKey_cycleKey_witness :
  cycleKey 7 = Some "CYCLE#0007"
  /\ exists sk, cycleKey 7 = Some sk /\ parseCycleKey sk = Some 7%Z.
Proof.
  split; [reflexivity|]. apply parseCycleKey_cycleKey. unfold MAX_SAFE_INTEGER. lia.
Defined.

End KeysFacts.

(** ** The secrets cache and the analysis client *)

Module SecretsFacts.
Import Analysis Secrets.

(** X24.  A secret fetched from Secrets Manager is served from the cache
    for one hour: a later call asks Secrets Manager again exactly when
    its clock has reached the time of the fetch plus 3,600,000 ms, and
    before that it answers the cached secret and leaves the cache alone,
    whatever Secrets Manager or the environment would have said. *)
Theorem secrets_cached_for_one_hour (first second : Call) (c : Cache)
        (fetched : SecretsValue) :
  cacheValid first c = false ->
  response first = Return fetched ->
  truthySecrets fetched = true ->
  requested (getSecrets second (cache (getSecrets first c)))
  = negb (now second <? fetchedAt first + 3600000)%Z
  /\ ((now second < fetchedAt first + 3600000)%Z ->
      getSecrets second (cache (getSecrets first c))
      = mkOutcome (Return fetched) (cache (getSecrets first c)) false).
Proof.
  intros Hmiss Hresp Htruthy.
  unfold getSecrets at 2 4 5. rewrite Hmiss, Hresp. cbn [cache].
  unfold getSecrets, cacheValid. cbn [cachedSecrets cacheExpiry].
  rewrite Htruthy. cbn [andb].
  change (60 * 60 * 1000)%Z with 3600000%Z.
  destruct (now second <? fetchedAt first + 3600000)%Z eqn:Hfresh.
  - split; reflexivity.
  - split.
    + destruct (response second) as [s|e]; [reflexivity|].
      destruct (JS.truthy (CLAUDE_API_KEY second)); reflexivity.
    + intros H. apply Z.ltb_lt in H. congruence.
Qed.

Lemma secrets_cached_for_one_hour_witness :
  requested
    (getSecrets (mkCall 3600999 (Throw "down") 3600999 JS.Undefined)
       (cache (getSecrets
                 (mkCall 0 (Return (SecretsObject (JS.Str "sk-1"))) 1000 JS.Undefined)
                 initialCache)))
  = false.
Proof.
  exact (proj1 (secrets_cached_for_one_hour
                  (mkCall 0 (Return (SecretsObject (JS.Str "sk-1"))) 1000 JS.Undefined)
                  (mkCall 3600999 (Throw "down") 3600999 JS.Undefined)
                  initialCache (SecretsObject (JS.Str "sk-1"))
                  eq_refl eq_refl eq_refl)).
Defined.

Lemma cacheValid_later (first second : Call) (c : Cache) :
  (now first <= now second)%Z ->
  cacheValid first c = false -> cacheValid second c = false.
Proof.
  unfold cacheValid. intros Hclock H.
  destruct (truthySecrets (cachedSecrets c)); [|reflexivity].
  destruct (cacheExpiry c) as [expiry|]; [|reflexivity].
  cbn [andb] in *. apply Z.ltb_ge in H. apply Z.ltb_ge. lia.
Qed.

(** X25.  The key taken from the environment is not cached: when the
    request to Secrets Manager fails on a cache miss, the cache is left
    as it was, and every later call asks Secrets Manager again. *)
Theorem fallback_is_not_cached (first second : Call) (c : Cache) (e : string) :
  cacheValid first c = false ->
  response first = Throw e ->
  (now first <= now second)%Z ->
  cache (getSecrets first c) = c
  /\ requested (getSecrets second (cache (getSecrets first c))) = true.
Proof.
  intros Hmiss Hresp Hclock.
  assert (Hcache : cache (getSecrets first c) = c).
  { unfold getSecrets. rewrite Hmiss, Hresp.
    destruct (JS.truthy (CLAUDE_API_KEY first)); reflexivity. }
  split; [exact Hcache|]. rewrite Hcache.
  unfold getSecrets. rewrite (cacheValid_later first second c Hclock Hmiss).
  destruct (response second) as [s|e'];
    [|destruct (JS.truthy (CLAUDE_API_KEY second))]; reflexivity.
Qed.

Lemma fallback_is_not_cached_witness :
  cache (getSecrets (mkCall 0 (Throw "down") 0 (JS.Str "sk-env")) initialCache)
  = initialCache
  /\ requested
       (getSecrets (mkCall 5 (Throw "down") 5 (JS.Str "sk-env"))
          (cache (getSecrets (mkCall 0 (Throw "down") 0 (JS.Str "sk-env"))
                             initialCache)))
     = true.
Proof.
  apply (fallback_is_not_cached
           (mkCall 0 (Throw "down") 0 (JS.Str "sk-env"))
           (mkCall 5 (Throw "down") 5 (JS.Str "sk-env"))
           initialCache "down"); [reflexivity | reflexivity | simpl; lia].
Defined.

(** X26.  [getClaudeApiKey] never hands out an empty key: a key it
    returns is truthy, whether it comes from the cache, from Secrets
    Manager or from the environment. *)
Theorem getClaudeApiKey_truthy (call : Call) (c : Cache) (key : JS.value) :
  result (getClaudeApiKey call c) = Return key -> JS.truthy key = true.
Proof.
  unfold getClaudeApiKey. cbn [result].
  destruct (result (getSecrets call c)) as [[|v|k]|e]; try discriminate.
  destruct (JS.truthy k) eqn:Hk; cbn [negb]; [|discriminate].
  intros H. injection H as <-. exact Hk.
Qed.

Lemma getClaudeApiKey_truthy_witness :
  result (getClaudeApiKey (mkCall 0 (Throw "down") 0 (JS.Str "sk-env")) initialCache)
  = Return (JS.Str "sk-env")
  /\ JS.truthy (JS.Str "sk-env") = true.
Proof.
  split; [reflexivity|].
  apply (getClaudeApiKey_truthy (mkCall 0 (Throw "down") 0 (JS.Str "sk-env"))
                                initialCache).
  reflexivity.
Defined.

(** X27.  Once [initializeClient] has built a client, the service keeps
    it: every later call returns the same client without asking for the
    key, so a rotated or expired secret does not reach a running
    service. *)
Theorem client_is_built_once (first second : Call) (s s' : Service)
        (client : JS.value) (asked : bool) :
  initializeClient first s = (Return client, s', asked) ->
  initializeClient second s' = (Return client, s', false).
Proof.
  unfold initializeClient at 1.
  destruct (anthropic s) as [existing|] eqn:Hs.
  - intros H. injection H as <- <- _. unfold initializeClient. now rewrite Hs.
  - destruct (result (getClaudeApiKey first (secrets s))) as [apiKey|e];
      intros H; [|discriminate].
    injection H as <- <- _. reflexivity.
Qed.

Lemma client_is_built_once_witness :
  initializeClient (mkCall 9000000 (Throw "down") 9000000 JS.Undefined)
    (snd (fst (initializeClient
                 (mkCall 0 (Return (SecretsObject (JS.Str "sk-1"))) 0 JS.Undefined)
                 (mkService None initialCache))))
  = (Return (JS.Str "sk-1"),
     snd (fst (initializeClient
                 (mkCall 0 (Return (SecretsObject (JS.Str "sk-1"))) 0 JS.Undefined)
                 (mkService None initialCache))),
     false).
Proof.
  apply (client_is_built_once
           (mkCall 0 (Return (SecretsObject (JS.Str "sk-1"))) 0 JS.Undefined)
           (mkCall 9000000 (Throw "down") 9000000 JS.Undefined)
           (mkService None initialCache) _ (JS.Str "sk-1") true).
  reflexivity.
Defined.

End SecretsFacts.

(** ** The data handed to the analysis *)

Module CycleAnalysisFacts.
Import Backend CycleAnalysisData.

Lemma insertBySK_In (i x : Item) (l : list Item) :
  In x (insertBySK i l) -> x = i \/ In x l.
Proof.
  induction l as [|y l IH]; simpl.
  - intros [<- | []]. now left.
  - destruct (String.leb (GSI1SK i) (GSI1SK y)); simpl.
    + intros [<- | H]; [now left | now right].
    + intros [<- | H]; [right; now left|].
      destruct (IH H) as [-> | H']; [now left | right; now right].
Qed.

Lemma sorted_In (x : Item) (l : list Item) :
  In x (fold_right insertBySK [] l) -> In x l.
Proof.
  induction l as [|y l IH]; simpl; [auto|].
  intros H. destruct (insertBySK_In _ _ _ H) as [-> | H']; [now left|].
  right. exact (IH H').
Qed.

Lemma cycle_partition (numberText : Z -> string) (i : Item) (n : Z) :
  String.eqb (GSI1PK numberText i) ("CYCLE#" ++ numberText n) = true ->
  cycleRecord i.
Proof. destruct i; simpl; [discriminate | trivial | trivial]. Qed.

Lemma aggregate_cycleRecords (items : list Item) :
  Forall cycleRecord items ->
  forall collected,
    fold_left
      (fun acc workout =>
         (fst (fst acc) ++ [workout],
          aggregateExercises workout (snd (fst acc)),
          aggregateRPEs workout (snd acc)))
      items collected
    = (fst (fst collected) ++ items, snd (fst collected), snd collected).
Proof.
  induction 1 as [|i items Hi _ IH]; intros [[ws ex] rpes]; simpl.
  - now rewrite app_nil_r.
  - rewrite IH. simpl. rewrite <- app_assoc. simpl.
    destruct i; [destruct Hi| |]; reflexivity.
Qed.

Lemma last_cycleRecord (items : list Item) :
  Forall cycleRecord items ->
  match last items with
  | Some workout => bodyweightOf workout
  | None => JS.Undefined
  end = JS.Undefined.
Proof.
  intros Hall. destruct (last items) as [i|] eqn:Hlast; [|reflexivity].
  apply last_Some in Hlast as [l' ->].
  apply Forall_app in Hall as [_ Hi]. apply Forall_inv in Hi.
  destruct i; [destruct Hi| |]; reflexivity.
Qed.

Section Table.
Context {AnalysisT Suggestions : Type}.

(** X28.  The data collected for the analysis of a cycle never contains a
    workout: the index partition [CYCLE#n] that is queried holds the cycle
    record and its archive only (workouts are filed under [WORKOUTS]), so
    for every table and every cycle number the exercise data and the RPE
    data are empty and the bodyweight is the default of 180.  This does
    not depend on how a number is turned into text. *)
Theorem analysis_data_has_no_workouts (numberText : Z -> string) (n : Z)
        (w : World AnalysisT Suggestions) :
  Forall cycleRecord (workouts (getCycleDataForAnalysis numberText n w))
  /\ exercises (getCycleDataForAnalysis numberText n w) = ∅
  /\ rpeData (getCycleDataForAnalysis numberText n w) = ∅
  /\ bodyweight (userProfile (getCycleDataForAnalysis numberText n w)) = JS.Num 180.
Proof.
  assert (Hall : Forall cycleRecord
                        (queryGSI1 numberText ("CYCLE#" ++ numberText n) w)).
  { apply List.Forall_forall. intros i Hi. unfold queryGSI1 in Hi.
    apply sorted_In in Hi. apply filter_In in Hi as [_ Hpk].
    exact (cycle_partition numberText i n Hpk). }
  unfold getCycleDataForAnalysis, aggregate.
  rewrite (aggregate_cycleRecords _ Hall). cbn [fst snd app workouts exercises
    rpeData userProfile bodyweight].
  rewrite (last_cycleRecord _ Hall). repeat split. exact Hall.
Qed.

End Table.

End CycleAnalysisFacts.

(** ** The brace match and the text around it *)

Module BraceFacts.
Import Analysis Keys.

Lemma fromFirstOpen_app (pre rest : string) :
  occurs "{" pre = false ->
  fromFirstOpen (pre ++ String "{" rest)%string = Some (String "{" rest).
Proof.
  induction pre as [|c pre IH]; intros H; simpl; [reflexivity|].
  simpl in H. apply orb_false_iff in H as [Hc Hpre].
  rewrite Hc. exact (IH Hpre).
Qed.

Lemma throughLastClose_without (s : string) :
  occurs "}" s = false -> throughLastClose s = None.
Proof.
  induction s as [|c s IH]; intros H; simpl; [reflexivity|].
  simpl in H. apply orb_false_iff in H as [Hc Hs].
  now rewrite (IH Hs), Hc.
Qed.

Lemma throughLastClose_app (a b m : string) :
  throughLastClose b = Some m ->
  throughLastClose (a ++ b)%string = Some (a ++ m)%string.
Proof.
  intros Hb. induction a as [|c a IH]; simpl; [exact Hb|]. now rewrite IH.
Qed.

Lemma fromFirstOpen_without (s : string) :
  occurs "{" s = false -> fromFirstOpen s = None.
Proof.
  induction s as [|c s IH]; intros H; simpl; [reflexivity|].
  simpl in H. apply orb_false_iff in H as [Hc Hs].
  rewrite Hc. exact (IH Hs).
Qed.

Lemma matchBraces_between (pre mid post : string) :
  occurs "{" pre = false -> occurs "}" post = false ->
  matchBraces (pre ++ String "{" (mid ++ String "}" post))%string
  = Some (String "{" (mid ++ "}"))%string.
Proof.
  intros Hpre Hpost. unfold matchBraces.
  rewrite (fromFirstOpen_app pre _ Hpre).
  apply (throughLastClose_app (String "{" mid) (String "}" post) "}").
  simpl. now rewrite (throughLastClose_without post Hpost).
Qed.

(** X29.  The pattern matches from the first opening brace to the last
    closing brace of the response: the text before the first [{] and the
    text after the last [}] are dropped, whatever lies between them.
    There is no match when the response has no opening brace, or no
    closing brace after the first opening one. *)
Theorem matchBraces_spans (pre mid post : string) :
  occurs "{" pre = false ->
  (occurs "}" post = false ->
   matchBraces (pre ++ String "{" (mid ++ String "}" post))%string
   = Some (String "{" (mid ++ "}"))%string)
  /\ matchBraces pre = None
  /\ (occurs "}" post = false ->
      matchBraces (pre ++ String "{" post)%string = None).
Proof.
  intros Hpre. split; [now apply matchBraces_between|]. split.
  - unfold matchBraces. now rewrite (fromFirstOpen_without pre Hpre).
  - intros Hpost. unfold matchBraces. rewrite (fromFirstOpen_app pre _ Hpre).
    apply throughLastClose_without. simpl. exact Hpost.
Qed.

Lemma matchBraces_spans_witness :
  matchBraces "Here you go: {}. Enjoy" = Some "{}"
  /\ matchBraces "Here you go: " = None.
Proof.
  destruct (matchBraces_spans "Here you go: " "" ". Enjoy" eq_refl) as (H & Hnone & _).
  split; [exact (H eq_refl) | exact Hnone].
Defined.

Section Parse.
Variable JSON : Type.
Variable JSON_parse : string -> option JSON.

(** X30.  Prose around the JSON object is ignored, and only the text
    between the braces is ever parsed: whether [parseClaudeResponse]
    returns the parsed object or the default structure is decided by
    [JSON.parse] on that text alone, also when the whole response would
    have parsed. *)
Theorem parseClaudeResponse_ignores_prose (pre mid post : string) :
  occurs "{" pre = false -> occurs "}" post = false ->
  parseClaudeResponse JSON JSON_parse
    (pre ++ String "{" (mid ++ String "}" post))%string
  = Return match JSON_parse (String "{" (mid ++ "}"))%string with
           | Some json => Parsed json
           | None => degraded (pre ++ String "{" (mid ++ String "}" post))%string
           end.
Proof.
  intros Hpre Hpost. unfold parseClaudeResponse, parseAttempt, parseJSON.
  rewrite (matchBraces_between pre mid post Hpre Hpost).
  destruct (JSON_parse _); reflexivity.
Qed.

End Parse.

Lemma parseClaudeResponse_ignores_prose_witness :
  parseClaudeResponse unit emptyObjectParser "Here you go: {}. Enjoy"
  = Return (Parsed tt).
Proof.
  apply (parseClaudeResponse_ignores_prose unit emptyObjectParser
           "Here you go: " "" ". Enjoy"); reflexivity.
Defined.

End BraceFacts.

(** ** The completion predicate on the sessions the screen can reach *)

Module SessionUIFacts.
Import Catalog Classifier Session SessionOps SessionUI.


















End SessionUIFacts.
